(** * Radiology-App: temporal normalisation, bucketing, filtering, aggregation

    A shallow embedding of the analytic core of the workflow page
    ([WorkflowPage], duplicated in the single-page [App]) and of the staff
    productivity page ([StaffProductivityPage]), and the properties of the
    time parser, the hourly aggregator, the filter engine, the peak-hour
    scan and the modality percentages.

    JavaScript strings are sequences of UTF-16 code units: they are modelled
    as [list N], so that [\d], [\s], [trim], [split] and the relational
    operators on strings keep their code-unit semantics.  Counts and array
    lengths are [nat]; hours are [Z], as the source compares them with
    [< 0] and [> 23]; percentages are IEEE binary64 numbers. *)

From Stdlib Require Import Ascii String.
From Stdlib Require Import List ZArith NArith Lia Bool Permutation.
From Stdlib Require Import Floats.PrimFloat.
From Stdlib Require Import Numbers.Cyclic.Int63.Uint63.
Import ListNotations.

Set Implicit Arguments.

(* ================================================================== *)
(** ** JavaScript strings *)

Definition jsstring := list N.

(** Code units of an ASCII literal. *)
Definition js (s : string) : jsstring :=
  List.map N_of_ascii (list_ascii_of_string s).

Arguments js s%_string.

Definition jsstring_dec : forall a b : jsstring, {a = b} + {a <> b} :=
  list_eq_dec N.eq_dec.

Definition jseqb (a b : jsstring) : bool :=
  if jsstring_dec a b then true else false.

(** Truthiness of a string value: only the empty string is falsy. *)
Definition truthy (s : jsstring) : bool :=
  match s with [] => false | _ :: _ => true end.

(** [x || dflt] on a possibly absent string field. *)
Definition orDefault (x : option jsstring) (dflt : jsstring) : jsstring :=
  match x with
  | Some (c :: s) => c :: s
  | _ => dflt
  end.

(** [\d] : ASCII digits only. *)
Definition isDigit (c : N) : bool := ((48 <=? c) && (c <=? 57))%N.

(** [\s], and the characters removed by [String.prototype.trim]:
    WhiteSpace and LineTerminator code units. *)
Definition isWhiteSpace (c : N) : bool :=
  (((9 <=? c) && (c <=? 13)) || (c =? 32) || (c =? 160) || (c =? 5760)
   || ((8192 <=? c) && (c <=? 8202)) || (c =? 8232) || (c =? 8233)
   || (c =? 8239) || (c =? 8287) || (c =? 12288) || (c =? 65279))%N.

Fixpoint dropWhile (p : N -> bool) (s : jsstring) : jsstring :=
  match s with
  | [] => []
  | c :: t => if p c then dropWhile p t else s
  end.

Fixpoint takeWhile (p : N -> bool) (s : jsstring) : jsstring :=
  match s with
  | [] => []
  | c :: t => if p c then c :: takeWhile p t else []
  end.

Definition trimStart (s : jsstring) : jsstring := dropWhile isWhiteSpace s.
Definition trimEnd (s : jsstring) : jsstring :=
  rev (dropWhile isWhiteSpace (rev s)).

(** [s.trim()] *)
Definition trim (s : jsstring) : jsstring := trimEnd (trimStart s).

(** [s.split(':')] : the fields between colons; never an empty array. *)
Fixpoint splitColon (s : jsstring) : list jsstring :=
  match s with
  | [] => [[]]
  | c :: t =>
      if (c =? 58)%N then [] :: splitColon t
      else match splitColon t with
           | f :: fs => (c :: f) :: fs
           | [] => [[c]]
           end
  end.

(** Value of a run of decimal digits, most significant first. *)
Definition digitsValue (ds : jsstring) : Z :=
  fold_left (fun (acc : Z) (c : N) => (acc * 10 + Z.of_N (c - 48)%N)%Z) ds 0%Z.

(** [parseInt(s, 10)] on a capture of [\d{1,2}] : the capture holds digits
    only, so the result is their decimal value. *)
Definition parseInt (ds : jsstring) : Z := digitsValue ds.

(** [Number(s)] for the strings this program converts: the fields of an
    hour label built by [formatHour] and of the value of a time input,
    which is either empty or of the form HH:MM.  Surrounding white space is
    ignored, the empty string is 0, a run of decimal digits is its value,
    and every other string is mapped to NaN ([None]); numeric literals with
    a sign, a fraction, an exponent or a radix prefix are not produced by
    either source and are not distinguished from NaN here.  A missing array
    element ([undefined]) is NaN as well. *)
Definition Number (s : jsstring) : option Z :=
  let t := trim s in
  if forallb isDigit t then Some (digitsValue t) else None.

Definition NumberOpt (f : option jsstring) : option Z :=
  match f with
  | Some s => Number s
  | None => None
  end.

(** [a >= b] and [a <= b] on numbers: false as soon as one side is NaN. *)
Definition numGe (a b : option Z) : bool :=
  match a, b with
  | Some x, Some y => (y <=? x)%Z
  | _, _ => false
  end.

Definition numLe (a b : option Z) : bool := numGe b a.

(** [a * 60 + b], NaN-propagating. *)
Definition minutesOf (h m : option Z) : option Z :=
  match h, m with
  | Some x, Some y => Some (x * 60 + y)%Z
  | _, _ => None
  end.

(** [a <= b] on strings: lexicographic comparison of code units. *)
Fixpoint strLe (a b : jsstring) : bool :=
  match a, b with
  | [], _ => true
  | _ :: _, [] => false
  | x :: a', y :: b' =>
      if (x <? y)%N then true
      else if (y <? x)%N then false
      else strLe a' b'
  end.

(** Comparator of the default [Array.prototype.sort] on strings. *)
Definition codeUnitCompare (a b : jsstring) : Z :=
  if jseqb a b then 0%Z else if strLe a b then (-1)%Z else 1%Z.

Fixpoint uintCodes (d : Decimal.uint) : jsstring :=
  match d with
  | Decimal.Nil => []
  | Decimal.D0 r => 48%N :: uintCodes r
  | Decimal.D1 r => 49%N :: uintCodes r
  | Decimal.D2 r => 50%N :: uintCodes r
  | Decimal.D3 r => 51%N :: uintCodes r
  | Decimal.D4 r => 52%N :: uintCodes r
  | Decimal.D5 r => 53%N :: uintCodes r
  | Decimal.D6 r => 54%N :: uintCodes r
  | Decimal.D7 r => 55%N :: uintCodes r
  | Decimal.D8 r => 56%N :: uintCodes r
  | Decimal.D9 r => 57%N :: uintCodes r
  end.

(** [n.toString()] for a non-negative integer. *)
Definition toStringZ (n : Z) : jsstring := uintCodes (N.to_uint (Z.to_N n)).

(** [s.padStart(2, '0')] *)
Definition padStart2 (s : jsstring) : jsstring :=
  match s with
  | [] => [48; 48]%N
  | [c] => [48%N; c]
  | _ => s
  end.

(** [xs.includes(x)] *)
Definition includes (xs : list jsstring) (x : jsstring) : bool :=
  existsb (jseqb x) xs.

(* ================================================================== *)
(** ** Arrays, Maps and Sets *)

Section Sorting.
Variable A : Type.
Variable cmp : A -> A -> Z.

(** [Array.prototype.sort(cmp)] is stable: an element is placed before the
    first element it does not compare greater than. *)
Fixpoint sortInsert (x : A) (l : list A) : list A :=
  match l with
  | [] => [x]
  | y :: t => if (cmp x y <=? 0)%Z then x :: y :: t else y :: sortInsert x t
  end.

Fixpoint sortBy (l : list A) : list A :=
  match l with
  | [] => []
  | x :: t => sortInsert x (sortBy t)
  end.
End Sorting.

Section InsertionOrderedMap.
Variables K V : Type.
Variable keq : K -> K -> bool.

(** A [Map] keeps its entries in insertion order; [set] on a present key
    replaces the value where it stands. *)
Fixpoint mapGet (k : K) (m : list (K * V)) : option V :=
  match m with
  | [] => None
  | (k', v) :: t => if keq k k' then Some v else mapGet k t
  end.

Fixpoint mapSet (k : K) (v : V) (m : list (K * V)) : list (K * V) :=
  match m with
  | [] => [(k, v)]
  | (k', v') :: t =>
      if keq k k' then (k', v) :: t else (k', v') :: mapSet k v t
  end.
End InsertionOrderedMap.

(** [Set.prototype.add] : insertion order, no duplicates. *)
Definition setAdd (x : jsstring) (s : list jsstring) : list jsstring :=
  if includes s x then s else s ++ [x].

(** [Array.from(set).sort()] *)
Definition sortedStrings (s : list jsstring) : list jsstring :=
  sortBy codeUnitCompare s.

Definition sumCounts (l : list nat) : nat := fold_right Nat.add 0 l.

(** [arr.reduce(f)] without an initial value: a [TypeError] ([None]) on an
    empty array, otherwise a left fold seeded with the first element. *)
Definition reduce1 (A : Type) (f : A -> A -> A) (l : list A) : option A :=
  match l with
  | [] => None
  | x :: t => Some (fold_left f t x)
  end.

(* ================================================================== *)
(** ** Time parser: [/(\d{1,2}):(\d{2})\s*(AM|PM)?/i] *)

(** The optional third group, tried after [\s*] has consumed all white
    space.  Under the [i] flag only the ASCII letters match. *)
Definition isA (c : N) : bool := ((c =? 65) || (c =? 97))%N.
Definition isM (c : N) : bool := ((c =? 77) || (c =? 109))%N.
Definition isP (c : N) : bool := ((c =? 80) || (c =? 112))%N.

Inductive Period := AM | PM.

Definition markerAt (rest : jsstring) : option Period :=
  match dropWhile isWhiteSpace rest with
  | c1 :: c2 :: _ =>
      if isA c1 && isM c2 then Some AM
      else if isP c1 && isM c2 then Some PM
      else None
  | _ => None
  end.

(** A match anchored at the head of [s]: the greedy two-digit hour is tried
    first, then the one-digit hour.  The result holds capture groups 1 and
    2 and the marker of group 3, already upper-cased. *)
Definition matchHere (s : jsstring)
  : option (jsstring * jsstring * option Period) :=
  match s with
  | d1 :: d2 :: c :: m1 :: m2 :: rest =>
      if isDigit d1 && isDigit d2 && (c =? 58)%N && isDigit m1 && isDigit m2
      then Some ([d1; d2], [m1; m2], markerAt rest)
      else if isDigit d1 && (d2 =? 58)%N && isDigit c && isDigit m1
      then Some ([d1], [c; m1], markerAt (m2 :: rest))
      else None
  | [d1; c; m1; m2] =>
      if isDigit d1 && (c =? 58)%N && isDigit m1 && isDigit m2
      then Some ([d1], [m1; m2], markerAt [])
      else None
  | _ => None
  end.

(** [timeStr.match(re)] : the leftmost position with an anchored match. *)
Fixpoint timeMatch (s : jsstring)
  : option (jsstring * jsstring * option Period) :=
  match matchHere s with
  | Some r => Some r
  | None =>
      match s with
      | [] => None
      | _ :: t => timeMatch t
      end
  end.

(** The two conditional assignments on [hour]. *)
Definition adjustHour (hour : Z) (period : option Period) : Z :=
  let hour := match period with
              | Some PM => if (hour =? 12)%Z then hour else (hour + 12)%Z
              | _ => hour
              end in
  match period with
  | Some AM => if (hour =? 12)%Z then 0%Z else hour
  | _ => hour
  end.

(* ================================================================== *)
(** ** Raw rows *)

(** A row handed over by the upload step: a mapping from the recognised
    keys to strings, any of which may be absent. *)
Record Row := mkRow {
  Date : option jsstring;
  Time : option jsstring;
  PatientID : option jsstring;
  PatientName : option jsstring;
  Mod : option jsstring;
  Description : option jsstring;
  Status : option jsstring;
  Accession : option jsstring;
  BodyPart : option jsstring;
  ReportSignedBy : option jsstring
}.

Record Range := mkRange { start : jsstring; end_ : jsstring }.

Inductive TimeFormat := Format12 | Format24.

(* ================================================================== *)
(** ** Workflow view ([WorkflowPage]; the same code runs in [App]) *)

Module Workflow.

Record EntryDetail := mkEntry {
  timestamp : jsstring;
  date : jsstring;
  patientId : jsstring;
  patientName : jsstring;
  modality : jsstring;
  description : jsstring;
  status : jsstring;
  accession : jsstring;
  bodyPart : jsstring;
  reportSignedBy : jsstring
}.

Record HourlyData := mkHourly {
  hour : jsstring;
  hour12 : jsstring;
  count : nat;
  entries : list EntryDetail
}.

(** The filter state of the page. *)
Record Criteria := mkCriteria {
  selectedModalities : list jsstring;
  selectedStatuses : list jsstring;
  selectedSigners : list jsstring;
  dateRange : Range;
  timeRange : Range
}.

(** [clearFilters] : the state every filter starts from. *)
Definition clearFilters : Criteria :=
  {| selectedModalities := []; selectedStatuses := []; selectedSigners := [];
     dateRange := mkRange (js "") (js "");
     timeRange := mkRange (js "00:00") (js "23:59") |}.

Record HourLabels := mkLabels { hour24Label : jsstring; hour12Label : jsstring }.

Definition formatHour (h : Z) (format : TimeFormat) : HourLabels :=
  let hour24 := padStart2 (toStringZ h) in
  let period := if (h <? 12)%Z then js "AM" else js "PM" in
  let h12 := if (h =? 0)%Z then js "12"
             else if (h >? 12)%Z then toStringZ (h - 12)
             else toStringZ h in
  let h12 := padStart2 h12 in
  {| hour24Label := hour24 ++ js ":00";
     hour12Label := h12 ++ js ":00 " ++ period |}.

(** The result of the parser, [{ hour, period }]; [hour] names the label of
    a bucket in this module, so the two fields carry a prefix. *)
Record TimeInfo := mkTimeInfo { tiHour : Z; tiPeriod : jsstring }.

Definition periodString (p : option Period) : jsstring :=
  match p with
  | Some AM => js "AM"
  | Some PM => js "PM"
  | None => js ""
  end.

Definition extractTimeFromString (timeStr : jsstring) : option TimeInfo :=
  match timeMatch timeStr with
  | None => None
  | Some (g1, _, g3) =>
      Some {| tiHour := adjustHour (parseInt g1) g3;
              tiPeriod := periodString g3 |}
  end.

(** The value kept per hour in the [hourData] map. *)
Record HourSlot := mkSlot { slotCount : nat; slotEntries : list EntryDetail }.

(** The mutable locals of [processTimestamps]. *)
Record Ingest := mkIngest {
  hourData : list (Z * HourSlot);
  modalities : list jsstring;
  statuses : list jsstring;
  signers : list jsstring;
  validEntries : nat
}.

(** [for (let i = 0; i < 24; i++) hourData.set(i, { count: 0, entries: [] })] *)
Definition initialIngest : Ingest :=
  {| hourData := List.map (fun i => (Z.of_nat i, mkSlot 0 [])) (seq 0 24);
     modalities := []; statuses := []; signers := []; validEntries := 0 |}.

(** The body of [rows.forEach], with its [try]/[catch]: an early [return]
    and a caught exception both leave the remaining rows to be processed.
    A missing slot would raise on [current.count++], after the three sets
    have been updated. *)
Definition processRow (st : Ingest) (row : Row) : Ingest :=
  match Time row with
  | None => st
  | Some t =>
      let timeStr := trim t in
      if negb (truthy timeStr) then st
      else
        match extractTimeFromString timeStr with
        | None => st
        | Some timeInfo =>
            if ((tiHour timeInfo <? 0) || (tiHour timeInfo >? 23))%Z then st
            else
              let modality' := orDefault (Mod row) (js "N/A") in
              let status' := orDefault (Status row) (js "N/A") in
              let reportSignedBy' := orDefault (ReportSignedBy row) (js "") in
              let modalities' := setAdd modality' (modalities st) in
              let statuses' := setAdd status' (statuses st) in
              let signers' :=
                if truthy reportSignedBy'
                then setAdd reportSignedBy' (signers st) else signers st in
              let entryDetail :=
                {| date := orDefault (Date row) (js "N/A");
                   timestamp :=
                     orDefault (Date row) (js "N/A") ++ js " " ++ timeStr;
                   patientId := orDefault (PatientID row) (js "N/A");
                   patientName := orDefault (PatientName row) (js "N/A");
                   modality := modality';
                   description := orDefault (Description row) (js "N/A");
                   status := status';
                   accession := orDefault (Accession row) (js "N/A");
                   bodyPart := orDefault (BodyPart row) (js "N/A");
                   reportSignedBy := reportSignedBy' |} in
              match mapGet Z.eqb (tiHour timeInfo) (hourData st) with
              | None =>
                  {| hourData := hourData st; modalities := modalities';
                     statuses := statuses'; signers := signers';
                     validEntries := validEntries st |}
              | Some current =>
                  let current' :=
                    {| slotCount := S (slotCount current);
                       slotEntries := slotEntries current ++ [entryDetail] |} in
                  {| hourData :=
                       mapSet Z.eqb (tiHour timeInfo) current' (hourData st);
                     modalities := modalities'; statuses := statuses';
                     signers := signers';
                     validEntries := S (validEntries st) |}
              end
        end
  end.

(** What [processTimestamps] stores in the page state. *)
Record Ingested := mkIngested {
  availableModalities : list jsstring;
  availableStatuses : list jsstring;
  availableSigners : list jsstring;
  hourlyData : list HourlyData;
  totalEntries : nat
}.

Section ProcessTimestamps.
(** [String.prototype.localeCompare] depends on the host's collation;
    the aggregator is parametric in it. *)
Variable localeCompare : jsstring -> jsstring -> Z.

Definition sortedData (timeFormat : TimeFormat) (m : list (Z * HourSlot))
  : list HourlyData :=
  List.map
    (fun kv : Z * HourSlot =>
       let labels := formatHour (fst kv) timeFormat in
       {| hour := hour24Label labels;
          hour12 := hour12Label labels;
          count := slotCount (snd kv);
          entries :=
            sortBy (fun a b => localeCompare (timestamp a) (timestamp b))
                   (slotEntries (snd kv)) |})
    (sortBy (fun a b : Z * HourSlot => (fst a - fst b)%Z) m).

Definition processTimestamps (timeFormat : TimeFormat) (rows : list Row)
  : Ingested :=
  let st := fold_left processRow rows initialIngest in
  {| availableModalities := sortedStrings (modalities st);
     availableStatuses := sortedStrings (statuses st);
     availableSigners := sortedStrings (signers st);
     hourlyData := sortedData timeFormat (hourData st);
     totalEntries := validEntries st |}.
End ProcessTimestamps.

(** *** Filter engine: the [filteredData] memo *)

Definition firstField (s : jsstring) : option jsstring :=
  hd_error (splitColon s).

Definition timeRangeMatch (c : Criteria) (hourData : HourlyData) : bool :=
  let hourNum := NumberOpt (firstField (hour hourData)) in
  let startHour := NumberOpt (firstField (start (timeRange c))) in
  let endHour := NumberOpt (firstField (end_ (timeRange c))) in
  numGe hourNum startHour && numLe hourNum endHour.

(** The predicate passed to [hourData.entries.filter]. *)
Definition entryMatch (c : Criteria) (entry : EntryDetail) : bool :=
  let modalityMatch :=
    (length (selectedModalities c) =? 0)
    || includes (selectedModalities c) (modality entry) in
  let statusMatch :=
    (length (selectedStatuses c) =? 0)
    || includes (selectedStatuses c) (status entry) in
  let signerMatch :=
    (length (selectedSigners c) =? 0)
    || (truthy (reportSignedBy entry)
        && includes (selectedSigners c) (reportSignedBy entry)) in
  let dateMatch :=
    negb (truthy (start (dateRange c)))
    || negb (truthy (end_ (dateRange c)))
    || (strLe (start (dateRange c)) (date entry)
        && strLe (date entry) (end_ (dateRange c))) in
  modalityMatch && statusMatch && signerMatch && dateMatch.

Definition filterBucket (c : Criteria) (hourData : HourlyData) : HourlyData :=
  if negb (timeRangeMatch c hourData) then
    {| hour := hour hourData; hour12 := hour12 hourData;
       count := 0; entries := [] |}
  else
    let filteredEntries := filter (entryMatch c) (entries hourData) in
    {| hour := hour hourData; hour12 := hour12 hourData;
       count := length filteredEntries; entries := filteredEntries |}.

Definition filteredData (c : Criteria) (hourlyData : list HourlyData)
  : list HourlyData :=
  List.map (filterBucket c) hourlyData.

(** *** Summary report and the peak-hour card *)

(** The callback of the peak-hour [reduce]. *)
Definition keepMax (max curr : HourlyData) : HourlyData :=
  if count max <? count curr then curr else max.

Definition hourLabel (timeFormat : TimeFormat) (b : HourlyData) : jsstring :=
  match timeFormat with
  | Format24 => hour b
  | Format12 => hour12 b
  end.

Record Overview := mkOverview {
  totalFilteredStudies : nat;
  activeHours : nat;
  peakHour : HourlyData;
  peakHourLabel : jsstring;
  peakHourCount : nat
}.

(** The overview metrics of [generateSummaryReport]; [None] when no
    report is produced: the early [return] of [WorkflowPage] on an empty
    array, which in [App] is the [TypeError] of [reduce]. *)
Definition generateSummaryReport (timeFormat : TimeFormat)
           (filteredData : list HourlyData) : option Overview :=
  if length filteredData =? 0 then None
  else
    match reduce1 keepMax filteredData with
    | None => None
    | Some peak =>
        Some {| totalFilteredStudies :=
                  fold_left (fun sum curr => sum + count curr) filteredData 0;
                activeHours :=
                  length (filter (fun data => 0 <? count data) filteredData);
                peakHour := peak;
                peakHourLabel := hourLabel timeFormat peak;
                peakHourCount := count peak |}
    end.

(** The text of the "Peak Hour" card of [WorkflowPage]; [None] stands for
    the [TypeError] of [reduce] on an empty array, which the guard of the
    card excludes. *)
Definition peakHourCard (timeFormat : TimeFormat)
           (filteredData : list HourlyData) : option jsstring :=
  if 0 <? length filteredData
  then option_map (hourLabel timeFormat) (reduce1 keepMax filteredData)
  else Some (js "N/A").

(** The same card in [App], which carries no guard of its own and is
    rendered inside [hourlyData.length > 0 && !loading && (...)]. *)
Definition appPeakHourCard (timeFormat : TimeFormat)
           (filteredData : list HourlyData) : option jsstring :=
  option_map (hourLabel timeFormat) (reduce1 keepMax filteredData).

End Workflow.

(* ================================================================== *)
(** ** The [parse] of the date library *)

(** [parse] and [isValid] come from the date library the productivity page
    imports.  The page passes two constant format strings; [parse] yields a
    date, compared through its time value, or an invalid date ([None]).
    The page itself is parametric in [parse]; the model below gives it a
    value on concrete inputs.  It follows the library's token parsers: a
    numeric token of width n reads one to n digits, every other character
    of the format must be matched literally, only white space may remain,
    and the year, month and day are validated against the calendar. *)
Definition fmtYMD : jsstring := js "yyyy-MM-dd".
Definition fmtMDY : jsstring := js "MM/dd/yyyy".

Module DateLib.

(** A numeric token of width [n] reads between one and [n] digits. *)
Fixpoint takeDigits (n : nat) (s : jsstring) : jsstring * jsstring :=
  match n, s with
  | S n', c :: t =>
      if isDigit c
      then let (ds, rest) := takeDigits n' t in (c :: ds, rest)
      else ([], s)
  | _, _ => ([], s)
  end.

Definition numericToken (n : nat) (s : jsstring) : option (Z * jsstring) :=
  match takeDigits n s with
  | ([], _) => None
  | (ds, rest) => Some (digitsValue ds, rest)
  end.

(** A literal character of the format must be next in the input. *)
Definition literal (c : N) (s : jsstring) : option jsstring :=
  match s with
  | c' :: t => if (c =? c')%N then Some t else None
  | [] => None
  end.

Definition isLeapYear (y : Z) : bool :=
  ((y mod 400 =? 0) || ((y mod 4 =? 0) && negb (y mod 100 =? 0)))%Z.

Definition daysInMonth (y m : Z) : Z :=
  (if m =? 2 then (if isLeapYear y then 29 else 28)
   else if (m =? 4) || (m =? 6) || (m =? 9) || (m =? 11) then 30
   else 31)%Z.

(** Days between 1970-01-01 and the civil date [y]-[m]-[d]. *)
Definition daysFromCivil (y m d : Z) : Z :=
  (let y' := if m <=? 2 then y - 1 else y in
   let era := y' / 400 in
   let yoe := y' - era * 400 in
   let mp := if m >? 2 then m - 3 else m + 9 in
   let doy := (153 * mp + 2) / 5 + d - 1 in
   let doe := yoe * 365 + yoe / 4 - yoe / 100 + doy in
   era * 146097 + doe - 719468)%Z.

(** The fields are validated, and the date is midnight of that day (the
    time zone offset is taken as 0). *)
Definition makeDate (y m d : Z) (rest : jsstring) : option Z :=
  (if forallb isWhiteSpace rest
      && (0 <? y) && (1 <=? m) && (m <=? 12)
      && (1 <=? d) && (d <=? daysInMonth y m)
   then Some (daysFromCivil y m d * 86400000)
   else None)%Z.

Definition parseYMD (s : jsstring) : option Z :=
  match numericToken 4 s with
  | None => None
  | Some (y, s1) =>
  match literal 45 s1 with
  | None => None
  | Some s2 =>
  match numericToken 2 s2 with
  | None => None
  | Some (m, s3) =>
  match literal 45 s3 with
  | None => None
  | Some s4 =>
  match numericToken 2 s4 with
  | None => None
  | Some (d, rest) => makeDate y m d rest
  end end end end end.

Definition parseMDY (s : jsstring) : option Z :=
  match numericToken 2 s with
  | None => None
  | Some (m, s1) =>
  match literal 47 s1 with
  | None => None
  | Some s2 =>
  match numericToken 2 s2 with
  | None => None
  | Some (d, s3) =>
  match literal 47 s3 with
  | None => None
  | Some s4 =>
  match numericToken 4 s4 with
  | None => None
  | Some (y, rest) => makeDate y m d rest
  end end end end end.

(** [parse(dateString, formatString, new Date())] for the two format
    strings of the page. *)
Definition parse (dateString formatString : jsstring) : option Z :=
  if jseqb formatString fmtYMD then parseYMD dateString
  else if jseqb formatString fmtMDY then parseMDY dateString
  else None.

End DateLib.

(* ================================================================== *)
(** ** Productivity view ([StaffProductivityPage]) *)

Module Productivity.

Record Criteria := mkCriteria {
  dateRange : Range;
  timeRange : Range;
  selectedModalities : list jsstring;
  selectedStatuses : list jsstring;
  selectedRadiologists : list jsstring
}.

Definition clearFilters : Criteria :=
  {| dateRange := mkRange (js "") (js "");
     timeRange := mkRange (js "00:00") (js "23:59");
     selectedModalities := []; selectedStatuses := [];
     selectedRadiologists := [] |}.

Record HourMinute := mkHourMinute { hour : Z; minute : Z }.

Definition extractTimeFromString (timeStr : jsstring) : option HourMinute :=
  match timeMatch timeStr with
  | None => None
  | Some (g1, g2, g3) =>
      Some {| hour := adjustHour (parseInt g1) g3; minute := parseInt g2 |}
  end.

Definition isTimeInRange (timeStr start' end' : jsstring) : bool :=
  match extractTimeFromString timeStr with
  | None => false
  | Some time =>
      let startFields := splitColon start' in
      let endFields := splitColon end' in
      let startHour := NumberOpt (nth_error startFields 0) in
      let startMinute := NumberOpt (nth_error startFields 1) in
      let endHour := NumberOpt (nth_error endFields 0) in
      let endMinute := NumberOpt (nth_error endFields 1) in
      let timeValue := Some (hour time * 60 + minute time)%Z in
      let startValue := minutesOf startHour startMinute in
      let endValue := minutesOf endHour endMinute in
      numGe timeValue startValue && numLe timeValue endValue
  end.

Record ModalityData := mkModalityData {
  modality : jsstring;
  count : nat;
  percentage : float
}.

(** A count or an array length as a number. *)
Definition toNumber (n : nat) : float :=
  PrimFloat.of_uint63 (Uint63.of_Z (Z.of_nat n)).

(** [totalStudiesCount > 0 ? (count / totalStudiesCount) * 100 : 0] *)
Definition percentageOf (count totalStudiesCount : nat) : float :=
  if 0 <? totalStudiesCount
  then (toNumber count / toNumber totalStudiesCount * 100)%float
  else 0%float.

(** The same expression without its guard. *)
Definition unguardedPercentage (count totalStudiesCount : nat) : float :=
  (toNumber count / toNumber totalStudiesCount * 100)%float.

(** [map.set(k, (map.get(k) || 0) + 1)] *)
Definition bump (k : jsstring) (m : list (jsstring * nat))
  : list (jsstring * nat) :=
  mapSet jseqb k (match mapGet jseqb k m with
                  | Some n => n + 1
                  | None => 1
                  end) m.

(** *** The object behind [staffEntry.modalities]

    Unlike the two modality maps, the per-signer breakdown is an object
    literal [{}] read and written with a computed key, so it inherits from
    [Object.prototype].  A key that is no own property reads as
    [undefined], unless it names a member of the prototype: one of its
    methods, or the accessor [__proto__]. *)
Definition objectPrototypeMethods : list jsstring :=
  List.map js
    [ "constructor"; "hasOwnProperty"; "isPrototypeOf";
      "propertyIsEnumerable"; "toLocaleString"; "toString"; "valueOf";
      "__defineGetter__"; "__defineSetter__"; "__lookupGetter__";
      "__lookupSetter__" ]%string.

Definition protoKey : jsstring := js "__proto__".

(** What reading a property can give here.  [Appended ones] is a string
    that is no numeral: the text an inherited value converts to, followed
    by [ones] digits 1. *)
Inductive Value :=
| Count (n : nat)
| Appended (ones : nat)
| InheritedFunction
| ThePrototype
| Undefined.

(** [obj[key]]: an own property first, then the prototype. *)
Definition readProperty (key : jsstring) (obj : list (jsstring * Value))
  : Value :=
  match mapGet jseqb key obj with
  | Some v => v
  | None =>
      if jseqb key protoKey then ThePrototype
      else if includes objectPrototypeMethods key then InheritedFunction
      else Undefined
  end.

(** [(v || 0) + 1]: a number is incremented, [undefined] counts as 0, and
    anything else is truthy and is converted to text before ["1"] is
    appended. *)
Definition plusOne (v : Value) : Value :=
  match v with
  | Count n => Count (n + 1)
  | Undefined => Count 1
  | Appended ones => Appended (ones + 1)
  | InheritedFunction | ThePrototype => Appended 1
  end.

(** [obj[key] = (obj[key] || 0) + 1].  The value written is a number or a
    string, which the setter of [__proto__] ignores; under any other key
    the assignment creates or updates an own property. *)
Definition countUp (key : jsstring) (obj : list (jsstring * Value))
  : list (jsstring * Value) :=
  let v := plusOne (readProperty key obj) in
  if jseqb key protoKey then obj else mapSet jseqb key v obj.

(** [(v || 0) > 0]: a string that is no numeral, a function and an object
    all convert to NaN, which is not greater than 0. *)
Definition positive (v : Value) : bool :=
  match v with
  | Count n => 0 <? n
  | _ => false
  end.

(** The value kept per signer in [staffMap]. *)
Record StaffEntry := mkStaffEntry {
  entryCount : nat;
  entryStudies : list Row;
  entryModalities : list (jsstring * Value)
}.

(** [StaffData] and [StaffModalityData]; the fields [count] and
    [totalStudies] of the source carry the prefix [staff] here. *)
Record StaffData := mkStaffData {
  reportSignedBy : jsstring;
  staffCount : nat;
  studies : list Row
}.

Record StaffModalityData := mkStaffModalityData {
  staffName : jsstring;
  modalities : list (jsstring * Value);
  staffTotalStudies : nat
}.

Record Processed := mkProcessed {
  filteredRows : list Row;
  staffData : list StaffData;
  modalityData : list ModalityData;
  staffModalityData : list StaffModalityData;
  aggregatedModalityData : list ModalityData;
  totalStudies : nat;
  workingDays : nat
}.

Section ProcessData.
(** The date library's [parse]: a time value, or an invalid date. *)
Variable parse : jsstring -> jsstring -> option Z.

(** The date-range block of the row filter: [true] when it executes
    [return false].  With constant format strings [parse] does not
    raise, so the [catch] of the block is not entered. *)
Definition dateRangeRejects (c : Criteria) (row : Row) : bool :=
  match Date row with
  | Some date =>
      if truthy (start (dateRange c)) && truthy (end_ (dateRange c))
         && truthy date
      then
        let startDate := parse (start (dateRange c)) fmtYMD in
        let endDate := parse (end_ (dateRange c)) fmtYMD in
        let currentDate := parse date fmtMDY in
        match startDate, endDate, currentDate with
        | Some s, Some e, Some d => ((d <? s) || (e <? d))%Z
        | _, _, _ => false
        end
      else false
  | None => false
  end.

(** The callback of [rows.filter]; [None] is the [TypeError] raised by
    [timeStr.match] on a row without a [Time] field, which aborts
    [processData]. *)
Definition rowFilter (c : Criteria) (row : Row) : option bool :=
  let modality' := orDefault (Mod row) (js "N/A") in
  let status' := orDefault (Status row) (js "N/A") in
  let reportSignedBy' := orDefault (ReportSignedBy row) (js "Unassigned") in
  if dateRangeRejects c row then Some false
  else
    match Time row with
    | None => None
    | Some time =>
        if negb (isTimeInRange time (start (timeRange c))
                               (end_ (timeRange c)))
        then Some false
        else if (0 <? length (selectedModalities c))
                && negb (includes (selectedModalities c) modality')
        then Some false
        else if (0 <? length (selectedStatuses c))
                && negb (includes (selectedStatuses c) status')
        then Some false
        else if (0 <? length (selectedRadiologists c))
                && negb (includes (selectedRadiologists c) reportSignedBy')
        then Some false
        else Some true
    end.

Fixpoint filterRows (c : Criteria) (rows : list Row) : option (list Row) :=
  match rows with
  | [] => Some []
  | row :: t =>
      match rowFilter c row with
      | None => None
      | Some keep =>
          match filterRows c t with
          | None => None
          | Some l => Some (if keep then row :: l else l)
          end
      end
  end.

(** [modalityCountMap] after [filteredRows.forEach]. *)
Definition modalityCounts (rows : list Row) : list (jsstring * nat) :=
  fold_left (fun m row => bump (orDefault (Mod row) (js "N/A")) m) rows [].

(** The [dates] set after [filteredRows.forEach]. *)
Definition dateSet (rows : list Row) : list jsstring :=
  fold_left (fun s row =>
               match Date row with
               | Some (c :: d) => setAdd (c :: d) s
               | _ => s
               end) rows [].

(** [staffMap] after [filteredRows.forEach]: a signer not seen before gets
    a fresh entry, then the entry of the signer is updated in place. *)
Definition staffStep (m : list (jsstring * StaffEntry)) (row : Row)
  : list (jsstring * StaffEntry) :=
  let modality' := orDefault (Mod row) (js "N/A") in
  let reportSignedBy' := orDefault (ReportSignedBy row) (js "Unassigned") in
  let m' := match mapGet jseqb reportSignedBy' m with
            | Some _ => m
            | None => mapSet jseqb reportSignedBy' (mkStaffEntry 0 [] []) m
            end in
  match mapGet jseqb reportSignedBy' m' with
  | Some staffEntry =>
      mapSet jseqb reportSignedBy'
             {| entryCount := S (entryCount staffEntry);
                entryStudies := entryStudies staffEntry ++ [row];
                entryModalities :=
                  countUp modality' (entryModalities staffEntry) |}
             m'
  | None => m'
  end.

Definition staffMapOf (rows : list Row) : list (jsstring * StaffEntry) :=
  fold_left staffStep rows [].

Definition byCountDescending (a b : ModalityData) : Z :=
  (Z.of_nat (count b) - Z.of_nat (count a))%Z.

Definition toModalityData (totalStudiesCount : nat)
           (kv : jsstring * nat) : ModalityData :=
  {| modality := fst kv; count := snd kv;
     percentage := percentageOf (snd kv) totalStudiesCount |}.

(** The outputs of [processData] that concern the modality
    distribution; [None] when the [catch] of [processData] is entered
    and the state keeps its previous value.  The option lists, which the
    function refreshes only while they are empty, are left out. *)
Definition processData (c : Criteria) (rows : list Row) : option Processed :=
  match filterRows c rows with
  | None => None
  | Some filtered =>
      let modalityCountMap := modalityCounts filtered in
      let aggregatedModalityCountMap := modalityCounts filtered in
      let totalStudiesCount := length filtered in
      let staffMap := staffMapOf filtered in
      Some {| filteredRows := filtered;
              staffData :=
                sortBy (fun a b => (Z.of_nat (staffCount b)
                                    - Z.of_nat (staffCount a))%Z)
                  (filter (fun data => 0 <? staffCount data)
                     (List.map
                        (fun kv : jsstring * StaffEntry =>
                           {| reportSignedBy := fst kv;
                              staffCount := entryCount (snd kv);
                              studies := entryStudies (snd kv) |})
                        staffMap));
              staffModalityData :=
                sortBy (fun a b => (Z.of_nat (staffTotalStudies b)
                                    - Z.of_nat (staffTotalStudies a))%Z)
                  (List.map
                     (fun kv : jsstring * StaffEntry =>
                        {| staffName := fst kv;
                           modalities := entryModalities (snd kv);
                           staffTotalStudies := entryCount (snd kv) |})
                     staffMap);
              modalityData :=
                sortBy byCountDescending
                  (List.map (toModalityData totalStudiesCount)
                            modalityCountMap);
              aggregatedModalityData :=
                sortBy byCountDescending
                  (filter (fun data => 0 <? count data)
                     (List.map (toModalityData totalStudiesCount)
                               aggregatedModalityCountMap));
              totalStudies := totalStudiesCount;
              workingDays := length (dateSet filtered) |}
  end.
End ProcessData.

End Productivity.

(* ================================================================== *)
(** ** Notions the properties are stated with *)

(** An occurrence of [digit{1,2} ':' digit{2}] starting at index [i]. *)
Definition TimePatternAt (s : jsstring) (i : nat) : Prop :=
  exists hd md rest,
    skipn i s = hd ++ 58%N :: md ++ rest
    /\ (length hd = 1 \/ length hd = 2)
    /\ forallb isDigit hd = true
    /\ length md = 2
    /\ forallb isDigit md = true.

Definition NoTimePattern (s : jsstring) : Prop :=
  forall i, ~ TimePatternAt s i.

(** White space, then the two letters of a marker in either case. *)
Definition MarkerFollows (rest : jsstring) (p : Period) : Prop :=
  exists ws c1 c2 tail,
    rest = ws ++ c1 :: c2 :: tail
    /\ forallb isWhiteSpace ws = true
    /\ isM c2 = true
    /\ match p with AM => isA c1 = true | PM => isP c1 = true end.

(** The hour a match stands for: capture 1 read in base ten, moved by the
    marker. *)
Definition hourOf (timeStr : jsstring) : option Z :=
  option_map Workflow.tiHour (Workflow.extractTimeFromString timeStr).

(** A row the aggregator turns into a record. *)
Definition yieldsRecord (row : Row) : bool :=
  match Time row with
  | None => false
  | Some t =>
      match hourOf (trim t) with
      | Some h => truthy (trim t) && (0 <=? h)%Z && (h <=? 23)%Z
      | None => false
      end
  end.

(** A row with no usable time: the field is absent or empty, holds no time
    pattern, or its hour falls outside 0..23. *)
Definition Unparseable (row : Row) : Prop :=
  match Time row with
  | None => True
  | Some t =>
      t = [] \/ NoTimePattern t
      \/ exists h, hourOf t = Some h /\ (h < 0 \/ 23 < h)%Z
  end.

(** The records of a bucket list, each with the bucket that holds it. *)
Definition records (data : list Workflow.HourlyData)
  : list (Workflow.HourlyData * Workflow.EntryDetail) :=
  flat_map (fun b => List.map (pair b) (Workflow.entries b)) data.


(** The date filter as the specification words it: the two bounds and the
    record's date are all read with the month/day/year pattern. *)
Definition dateRangeRejectsAsStated (parse : jsstring -> jsstring -> option Z)
           (c : Productivity.Criteria) (row : Row) : bool :=
  match Date row with
  | Some date =>
      if truthy (start (Productivity.dateRange c))
         && truthy (end_ (Productivity.dateRange c)) && truthy date
      then
        match parse (start (Productivity.dateRange c)) fmtMDY,
              parse (end_ (Productivity.dateRange c)) fmtMDY,
              parse date fmtMDY with
        | Some s, Some e, Some d => ((d <? s) || (e <? d))%Z
        | _, _, _ => false
        end
      else false
  | None => false
  end.

(** Sample data: the three rows of the end-to-end scenario and a row
    without a usable time. *)
Definition sampleRow (d t m st by_ : string) : Row :=
  {| Date := Some (js d); Time := Some (js t); PatientID := None;
     PatientName := None; Mod := Some (js m); Description := None;
     Status := Some (js st); Accession := None; BodyPart := None;
     ReportSignedBy := Some (js by_) |}.

Definition scenarioRows : list Row :=
  [ sampleRow "01/01/2024" "09:15 AM" "CT" "Final" "Dr. A";
    sampleRow "01/01/2024" "09:45 AM" "MR" "Prelim" "Dr. B";
    sampleRow "01/02/2024" "14:00" "CT" "Final" "Dr. A" ].

Definition noTimeRow : Row :=
  sampleRow "01/03/2024" "noon" "US" "Final" "Dr. C".

(** An array in which each element compares not greater than its
    successor. *)
Inductive Ascending (A : Type) (cmp : A -> A -> Z) : list A -> Prop :=
| Ascending_nil : Ascending cmp []
| Ascending_one : forall x, Ascending cmp [x]
| Ascending_cons : forall x y t,
    (cmp x y <= 0)%Z -> Ascending cmp (y :: t) -> Ascending cmp (x :: y :: t).

Definition hourKeys : list Z := List.map Z.of_nat (seq 0 24).

Definition slotSizes (m : list (Z * Workflow.HourSlot)) : list nat :=
  List.map (fun kv => Workflow.slotCount (snd kv)) m.

(** The 24 slots stay in place, each count is the length of its entry list,
    and the counts add up to the number of valid entries. *)
Record IngestInv (st : Workflow.Ingest) : Prop := mkIngestInv {
  inv_keys : List.map fst (Workflow.hourData st) = hourKeys;
  inv_sizes :
    Forall (fun kv => Workflow.slotCount (snd kv)
                      = length (Workflow.slotEntries (snd kv)))
           (Workflow.hourData st);
  inv_total : sumCounts (slotSizes (Workflow.hourData st))
              = Workflow.validEntries st
}.

Definition byHour (a b : Z * Workflow.HourSlot) : Z := (fst a - fst b)%Z.

(** An hour bucket as the aggregator builds it: labelled with one of the 24
    hours, its count being the number of its entries. *)
Definition HourBucket (b : Workflow.HourlyData) : Prop :=
  (exists k timeFormat,
      (0 <= k <= 23)%Z
      /\ Workflow.hour b
         = Workflow.hour24Label (Workflow.formatHour k timeFormat))
  /\ Workflow.count b = length (Workflow.entries b).

(** *** The predicates of the filter engine, as the specification words them *)



(** The hour of a bound of the form HH:MM: the digits before the colon,
    read in base ten. *)
Definition boundHour (bound : jsstring) : option Z :=
  match dropWhile isDigit bound with
  | c :: _ =>
      if (c =? 58)%N then Some (digitsValue (takeWhile isDigit bound))
      else None
  | [] => None
  end.









(** [p] stands at the lowest index of [l] that holds the largest count. *)
Definition FirstMaximum (l : list Workflow.HourlyData)
           (p : Workflow.HourlyData) : Prop :=
  exists i,
    nth_error l i = Some p
    /\ (forall j b, j < i -> nth_error l j = Some b ->
                    Workflow.count b < Workflow.count p)
    /\ (forall b, In b l -> Workflow.count b <= Workflow.count p).

Definition sampleEntry : Workflow.EntryDetail :=
  Workflow.mkEntry (js "01/01/2024 09:15 AM") (js "01/01/2024") (js "N/A")
                   (js "N/A") (js "CT") (js "N/A") (js "Final") (js "N/A")
                   (js "N/A") (js "Dr. A").

(** Buckets for the hours 0, 1, 2, ... holding the given counts. *)
Definition bucketsOfCounts (counts : list nat) : list Workflow.HourlyData :=
  List.map
    (fun ic : nat * nat =>
       let labels := Workflow.formatHour (Z.of_nat (fst ic)) Format24 in
       {| Workflow.hour := Workflow.hour24Label labels;
          Workflow.hour12 := Workflow.hour12Label labels;
          Workflow.count := snd ic;
          Workflow.entries := repeat sampleEntry (snd ic) |})
    (combine (seq 0 (length counts)) counts).

Definition tiedCounts : list nat := [5; 5; 3] ++ repeat 0 21.

(** A view in which no record passes the filters: the scenario filtered on
    modality MR and status Final, which no row combines. *)
Definition emptiedView : list Workflow.HourlyData :=
  Workflow.filteredData
    {| Workflow.selectedModalities := [js "MR"];
       Workflow.selectedStatuses := [js "Final"];
       Workflow.selectedSigners := [];
       Workflow.dateRange := mkRange (js "") (js "");
       Workflow.timeRange := mkRange (js "00:00") (js "23:59") |}
    (Workflow.hourlyData
       (Workflow.processTimestamps codeUnitCompare Format24 scenarioRows)).

Definition januaryCriteria : Productivity.Criteria :=
  {| Productivity.dateRange := mkRange (js "2024-01-01") (js "2024-01-31");
     Productivity.timeRange := mkRange (js "00:00") (js "23:59");
     Productivity.selectedModalities := [];
     Productivity.selectedStatuses := [];
     Productivity.selectedRadiologists := [] |}.

Definition februaryRow : Row :=
  sampleRow "02/15/2024" "10:30 AM" "CT" "Final" "Dr. A".

Definition countsOf (m : list (jsstring * nat)) : list nat :=
  List.map (fun kv => snd kv) m.

(* ================================================================== *)
(** ** Further code of the pages *)

(** The [onChange] handler of a filter check box, and
    [handleCheckboxChange] of the productivity page: a checked box appends
    the value, an unchecked one removes every occurrence of it. *)
Definition toggleSelection (checked : bool) (value : jsstring)
           (prev : list jsstring) : list jsstring :=
  if checked then prev ++ [value]
  else filter (fun item => negb (jseqb item value)) prev.

(** [getAvailableFilterOptions] of the productivity page: the values of
    all the rows, with their defaults, sorted. *)
Record FilterOptions := mkFilterOptions {
  optModalities : list jsstring;
  optStatuses : list jsstring;
  optRadiologists : list jsstring
}.

Definition getAvailableFilterOptions (rows : list Row) : FilterOptions :=
  let modalities :=
    fold_left (fun s row => setAdd (orDefault (Mod row) (js "N/A")) s)
              rows [] in
  let statuses :=
    fold_left (fun s row => setAdd (orDefault (Status row) (js "N/A")) s)
              rows [] in
  let radiologists :=
    fold_left (fun s row =>
                 setAdd (orDefault (ReportSignedBy row) (js "Unassigned")) s)
              rows [] in
  {| optModalities := sortedStrings modalities;
     optStatuses := sortedStrings statuses;
     optRadiologists := sortedStrings radiologists |}.

(** [modalitiesWithData] of the productivity page: the offered modalities
    for which some staff aggregate has a positive count,
    [(staff.modalities[modality] || 0) > 0]. *)
Definition modalitiesWithData (availableModalities : list jsstring)
           (staffModalityData : list Productivity.StaffModalityData)
  : list jsstring :=
  filter (fun modality =>
            existsb (fun staff =>
                       Productivity.positive
                         (Productivity.readProperty
                            modality (Productivity.modalities staff)))
                    staffModalityData)
         availableModalities.

(** A key that [Object.prototype] answers for every object. *)
Definition inheritedKey (key : jsstring) : bool :=
  jseqb key Productivity.protoKey
  || includes Productivity.objectPrototypeMethods key.

(** *** [processPdfContent] of the upload page and of [App] *)

(** [items.join(' ')] *)
Fixpoint joinWith (sep : jsstring) (items : list jsstring) : jsstring :=
  match items with
  | [] => []
  | [x] => x
  | x :: rest => x ++ sep ++ joinWith sep rest
  end.

(** [text.split('\n')] *)
Fixpoint splitOn (sep : N) (s : jsstring) : list jsstring :=
  match s with
  | [] => [[]]
  | c :: t =>
      if (c =? sep)%N then [] :: splitOn sep t
      else match splitOn sep t with
           | f :: fs => (c :: f) :: fs
           | [] => [[c]]
           end
  end.

(** [line.split(/\s+/)] : a run of white space separates two fields, so
    that white space at either end of the line leaves an empty field
    there.  [afterWs] tells that the previous character was white space. *)
Fixpoint splitWsFrom (afterWs : bool) (s : jsstring) : list jsstring :=
  match s with
  | [] => [[]]
  | c :: t =>
      if isWhiteSpace c
      then (if afterWs then splitWsFrom true t else [] :: splitWsFrom true t)
      else match splitWsFrom false t with
           | f :: fs => (c :: f) :: fs
           | [] => [[c]]
           end
  end.

Definition splitWhiteSpace (line : jsstring) : list jsstring :=
  splitWsFrom false line.

(** [/\d{1,2}:\d{2}\s*(AM|PM)/i.test(part)] : here the marker is not
    optional, and a match may start at any position. *)
Definition markedHere (s : jsstring) : bool :=
  match matchHere s with
  | Some (_, _, Some _) => true
  | _ => false
  end.

Fixpoint markedTimeTest (s : jsstring) : bool :=
  markedHere s
  || match s with
     | [] => false
     | _ :: t => markedTimeTest t
     end.

(** No character of [s] is white space. *)
Definition noWhiteSpace (s : jsstring) : bool :=
  forallb (fun c => negb (isWhiteSpace c)) s.

(** The object pushed for one line, if any. *)
Definition pdfLineRow (line : jsstring) : option Row :=
  let parts := splitWhiteSpace line in
  if 6 <=? length parts then
    match find markedTimeTest parts with
    | Some timeMatch =>
        Some {| Date := nth_error parts 0;
                Time := Some timeMatch;
                PatientID := nth_error parts 1;
                PatientName := nth_error parts 2;
                Mod := nth_error parts 3;
                Description := nth_error parts 4;
                Status := nth_error parts 5;
                Accession := None;
                BodyPart := None;
                ReportSignedBy := None |}
    | None => None
    end
  else None.

(** The rows of one page, given the strings of its text items, and of the
    whole document. *)
Definition pdfPageRows (items : list jsstring) : list Row :=
  let text := joinWith (js " ") items in
  flat_map (fun line => match pdfLineRow line with
                        | Some row => [row]
                        | None => []
                        end)
           (splitOn 10 text).

Definition pdfRows (pages : list (list jsstring)) : list Row :=
  flat_map pdfPageRows pages.

(** The hour under which the aggregator files a row. *)
Definition rowHour (row : Row) : option Z :=
  match Time row with
  | Some t => hourOf (trim t)
  | None => None
  end.

(** The row yields a record, filed under hour [h]. *)
Definition filedUnder (h : Z) (row : Row) : bool :=
  yieldsRecord row
  && match rowHour row with
     | Some h' => (h' =? h)%Z
     | None => false
     end.

(** The [entryDetail] object [processTimestamps] builds from a row. *)
Definition entryDetailOf (row : Row) : Workflow.EntryDetail :=
  let timeStr := match Time row with Some t => trim t | None => [] end in
  {| Workflow.date := orDefault (Date row) (js "N/A");
     Workflow.timestamp :=
       orDefault (Date row) (js "N/A") ++ js " " ++ timeStr;
     Workflow.patientId := orDefault (PatientID row) (js "N/A");
     Workflow.patientName := orDefault (PatientName row) (js "N/A");
     Workflow.modality := orDefault (Mod row) (js "N/A");
     Workflow.description := orDefault (Description row) (js "N/A");
     Workflow.status := orDefault (Status row) (js "N/A");
     Workflow.accession := orDefault (Accession row) (js "N/A");
     Workflow.bodyPart := orDefault (BodyPart row) (js "N/A");
     Workflow.reportSignedBy := orDefault (ReportSignedBy row) (js "") |}.

(** The values a set collects over the rows: [key] gives the value a row
    adds, if any. *)
Definition collected (key : Row -> option jsstring) (rows : list Row)
  : list jsstring :=
  fold_left (fun s row => match key row with
                          | Some x => setAdd x s
                          | None => s
                          end) rows [].

(** What a row adds to the three option sets of the workflow page. *)
Definition modalityKey (row : Row) : option jsstring :=
  if yieldsRecord row then Some (orDefault (Mod row) (js "N/A")) else None.

Definition statusKey (row : Row) : option jsstring :=
  if yieldsRecord row then Some (orDefault (Status row) (js "N/A")) else None.

Definition signerKey (row : Row) : option jsstring :=
  if yieldsRecord row && truthy (orDefault (ReportSignedBy row) (js ""))
  then Some (orDefault (ReportSignedBy row) (js "")) else None.

(** The rows the productivity filter keeps: its callback returns [true]. *)
Definition keeps (parse : jsstring -> jsstring -> option Z)
           (c : Productivity.Criteria) (row : Row) : bool :=
  match Productivity.rowFilter parse c row with
  | Some true => true
  | _ => false
  end.

(** The minute of the day the productivity page reads from a row, when it
    does not exceed 23:59. *)
Definition withinDay (row : Row) : bool :=
  match Time row with
  | Some t =>
      match Productivity.extractTimeFromString t with
      | Some tm =>
          (Productivity.hour tm * 60 + Productivity.minute tm <=? 1439)%Z
      | None => false
      end
  | None => false
  end.

(** The values the productivity page reads from a row, with its
    defaults. *)
Definition modalityOf (row : Row) : jsstring := orDefault (Mod row) (js "N/A").
Definition statusOf (row : Row) : jsstring := orDefault (Status row) (js "N/A").
Definition signerOf (row : Row) : jsstring :=
  orDefault (ReportSignedBy row) (js "Unassigned").

(** The rows carrying the value [k] under [key]. *)
Definition rowsWith (key : Row -> jsstring) (k : jsstring) (rows : list Row)
  : list Row :=
  filter (fun row => jseqb (key row) k) rows.

(** What a row adds to the [dates] set. *)
Definition dateKey (row : Row) : option jsstring :=
  match Date row with
  | Some (c :: d) => Some (c :: d)
  | _ => None
  end.

(** The breakdown object after the rows [rs] have been counted into it. *)
Definition breakdownOf (rs : list Row) : list (jsstring * Productivity.Value) :=
  fold_left (fun obj row => Productivity.countUp (modalityOf row) obj) rs [].

(** What a breakdown answers for a key of which it has counted [n] rows:
    the count, or [undefined] when there is none, for an ordinary key; for
    a key the prototype answers, never a number. *)
Definition breakdownAnswer (key : jsstring) (n : nat) : Productivity.Value :=
  if jseqb key Productivity.protoKey then Productivity.ThePrototype
  else if includes Productivity.objectPrototypeMethods key then
         match n with
         | 0 => Productivity.InheritedFunction
         | S _ => Productivity.Appended n
         end
       else
         match n with
         | 0 => Productivity.Undefined
         | S _ => Productivity.Count n
         end.

(** The staff entry a signer has after the rows [rs], all of them signed by
    that signer, have been counted. *)
Definition staffEntryFor (rs : list Row) : Productivity.StaffEntry :=
  {| Productivity.entryCount := length rs;
     Productivity.entryStudies := rs;
     Productivity.entryModalities := breakdownOf rs |}.

(** Two rows of one signer, the second with a modality named like a method
    of [Object.prototype]. *)
Definition prototypeNamedRows : list Row :=
  [ sampleRow "01/01/2024" "09:15 AM" "CT" "Final" "Dr. A";
    sampleRow "01/01/2024" "10:30 AM" "constructor" "Final" "Dr. A" ].

Definition byEntryCount (a b : jsstring * Productivity.StaffEntry) : Z :=
  (Z.of_nat (Productivity.entryCount (snd b))
   - Z.of_nat (Productivity.entryCount (snd a)))%Z.

(* ================================================================== *)
(** ** Lists, sorting and maps *)

Lemma sortInsert_perm (A : Type) (cmp : A -> A -> Z) (x : A) (l : list A) :
  Permutation (sortInsert cmp x l) (x :: l).
Proof.
  induction l as [|y t IH]; simpl.
  - apply Permutation_refl.
  - destruct (cmp x y <=? 0)%Z.
    + apply Permutation_refl.
    + eapply perm_trans; [apply perm_skip, IH | apply perm_swap].
Qed.

Lemma sortBy_perm (A : Type) (cmp : A -> A -> Z) (l : list A) :
  Permutation (sortBy cmp l) l.
Proof.
  induction l as [|x t IH]; simpl.
  - constructor.
  - eapply perm_trans; [apply sortInsert_perm | apply perm_skip, IH].
Qed.

Lemma sortBy_length (A : Type) (cmp : A -> A -> Z) (l : list A) :
  length (sortBy cmp l) = length l.
Proof. apply Permutation_length, sortBy_perm. Qed.

Lemma sortBy_Forall (A : Type) (cmp : A -> A -> Z) (P : A -> Prop) (l : list A) :
  Forall P l -> Forall P (sortBy cmp l).
Proof.
  intro H. eapply Permutation_Forall; [|exact H].
  apply Permutation_sym, sortBy_perm.
Qed.

Lemma sortBy_ascending (A : Type) (cmp : A -> A -> Z) (l : list A) :
  Ascending cmp l -> sortBy cmp l = l.
Proof.
  induction 1 as [|x|x y t Hxy Hasc IH]; simpl; try reflexivity.
  simpl in IH. rewrite IH. simpl.
  apply Z.leb_le in Hxy. now rewrite Hxy.
Qed.

Lemma filter_all (A : Type) (p : A -> bool) (l : list A) :
  (forall x, In x l -> p x = true) -> filter p l = l.
Proof.
  induction l as [|x t IH]; simpl; intro H; [reflexivity|].
  rewrite (H x (or_introl eq_refl)). f_equal. apply IH.
  intros y Hy. apply H. now right.
Qed.

Lemma sumCounts_app (l1 l2 : list nat) :
  sumCounts (l1 ++ l2) = sumCounts l1 + sumCounts l2.
Proof.
  induction l1 as [|x t IH]; simpl; [reflexivity|].
  unfold sumCounts in *. simpl. rewrite IH. lia.
Qed.

Section MapFacts.
Variables (K V : Type) (keq : K -> K -> bool).

Lemma mapSet_keys (k : K) (v v0 : V) (m : list (K * V)) :
  mapGet keq k m = Some v0 ->
  List.map fst (mapSet keq k v m) = List.map fst m.
Proof.
  induction m as [|[k' v'] t IH]; simpl; [discriminate|].
  destruct (keq k k'); simpl; [reflexivity|].
  intro H. now rewrite IH.
Qed.

(** Replacing the value of a present key moves a sum over the values by
    the difference of the two values. *)
Lemma mapSet_sum (f : V -> nat) (k : K) (v v0 : V) (m : list (K * V)) :
  mapGet keq k m = Some v0 ->
  sumCounts (List.map (fun kv => f (snd kv)) (mapSet keq k v m)) + f v0
  = sumCounts (List.map (fun kv => f (snd kv)) m) + f v.
Proof.
  induction m as [|[k' v'] t IH]; simpl; [discriminate|].
  destruct (keq k k'); simpl.
  - intro H. injection H as ->. unfold sumCounts. simpl. lia.
  - intro H. specialize (IH H). unfold sumCounts in *. simpl. lia.
Qed.

Lemma mapSet_Forall (P : V -> Prop) (k : K) (v : V) (m : list (K * V)) :
  P v -> Forall (fun kv => P (snd kv)) m ->
  Forall (fun kv => P (snd kv)) (mapSet keq k v m).
Proof.
  intros Hv. induction 1 as [|[k' v'] t Hx Ht IH]; simpl.
  - constructor; [exact Hv | constructor].
  - destruct (keq k k'); constructor; simpl; auto.
Qed.

Lemma mapGet_Forall (P : V -> Prop) (k : K) (v : V) (m : list (K * V)) :
  Forall (fun kv => P (snd kv)) m -> mapGet keq k m = Some v -> P v.
Proof.
  induction 1 as [|[k' v'] t Hx Ht IH]; simpl; [discriminate|].
  destruct (keq k k'); [intro H; injection H as <-; exact Hx | exact IH].
Qed.
End MapFacts.

Unset Implicit Arguments.

(* ================================================================== *)
(** ** Characters *)

Ltac bool_to_prop H :=
  rewrite ?orb_true_iff, ?andb_true_iff, ?N.leb_le, ?N.eqb_eq in H.

Lemma ws_not_digit (w : N) : isWhiteSpace w = true -> isDigit w = false.
Proof.
  intro H. destruct (isDigit w) eqn:E; [exfalso|reflexivity].
  unfold isWhiteSpace in H. unfold isDigit in E.
  bool_to_prop H. bool_to_prop E. lia.
Qed.

Lemma ws_not_colon (w : N) : isWhiteSpace w = true -> (w =? 58)%N = false.
Proof.
  intro H. destruct (w =? 58)%N eqn:E; [exfalso|reflexivity].
  unfold isWhiteSpace in H. bool_to_prop H. bool_to_prop E. lia.
Qed.

Lemma ws_not_M (w : N) : isWhiteSpace w = true -> isM w = false.
Proof.
  intro H. destruct (isM w) eqn:E; [exfalso|reflexivity].
  unfold isWhiteSpace in H. unfold isM in E.
  bool_to_prop H. bool_to_prop E. lia.
Qed.

Lemma A_not_ws (c : N) : isA c = true -> isWhiteSpace c = false.
Proof.
  intro H. destruct (isWhiteSpace c) eqn:E; [exfalso|reflexivity].
  unfold isWhiteSpace in E. unfold isA in H.
  bool_to_prop H. bool_to_prop E. lia.
Qed.

Lemma P_not_ws (c : N) : isP c = true -> isWhiteSpace c = false.
Proof.
  intro H. destruct (isWhiteSpace c) eqn:E; [exfalso|reflexivity].
  unfold isWhiteSpace in E. unfold isP in H.
  bool_to_prop H. bool_to_prop E. lia.
Qed.

Lemma A_not_P (c : N) : isA c = true -> isP c = false.
Proof.
  intro H. destruct (isP c) eqn:E; [exfalso|reflexivity].
  unfold isA in H. unfold isP in E. bool_to_prop H. bool_to_prop E. lia.
Qed.

Lemma digit_not_colon (c : N) : isDigit c = true -> (c =? 58)%N = false.
Proof.
  intro H. destruct (c =? 58)%N eqn:E; [exfalso|reflexivity].
  unfold isDigit in H. bool_to_prop H. bool_to_prop E. lia.
Qed.

(* ================================================================== *)
(** ** [trim] *)

Lemma take_drop_while (p : N -> bool) (s : jsstring) :
  s = takeWhile p s ++ dropWhile p s.
Proof.
  induction s as [|c t IH]; simpl; [reflexivity|].
  destruct (p c); simpl; [now f_equal | reflexivity].
Qed.

Lemma takeWhile_all (p : N -> bool) (s : jsstring) :
  forallb p (takeWhile p s) = true.
Proof.
  induction s as [|c t IH]; simpl; [reflexivity|].
  destruct (p c) eqn:E; simpl; [now rewrite E | reflexivity].
Qed.

Lemma dropWhile_all (p : N -> bool) (s r : jsstring) :
  forallb p s = true -> dropWhile p (s ++ r) = dropWhile p r.
Proof.
  induction s as [|c t IH]; simpl; [reflexivity|].
  intro H. apply andb_true_iff in H. destruct H as [Hc Ht].
  rewrite Hc. now apply IH.
Qed.

Lemma forallb_rev (p : N -> bool) (s : jsstring) :
  forallb p (rev s) = forallb p s.
Proof.
  induction s as [|c t IH]; simpl; [reflexivity|].
  rewrite forallb_app, IH. simpl. rewrite andb_true_r. apply andb_comm.
Qed.

(** [trim] cuts a run of white space off each end. *)
Lemma trim_split (s : jsstring) :
  exists lead trail,
    s = lead ++ trim s ++ trail
    /\ forallb isWhiteSpace lead = true
    /\ forallb isWhiteSpace trail = true.
Proof.
  exists (takeWhile isWhiteSpace s).
  exists (rev (takeWhile isWhiteSpace (rev (trimStart s)))).
  split; [|split].
  - unfold trim, trimEnd.
    rewrite <- rev_app_distr, <- take_drop_while, rev_involutive.
    apply take_drop_while.
  - apply takeWhile_all.
  - rewrite forallb_rev. apply takeWhile_all.
Qed.

(* ================================================================== *)
(** ** The time pattern *)

Lemma timeMatch_unfold (s : jsstring) :
  timeMatch s = match matchHere s with
                | Some r => Some r
                | None => match s with [] => None | _ :: t => timeMatch t end
                end.
Proof. destruct s; reflexivity. Qed.

(** An anchored match reads the pattern off the head of the string. *)
Lemma matchHere_sound (s hd md : jsstring) (mk : option Period) :
  matchHere s = Some (hd, md, mk) ->
  exists rest,
    s = hd ++ 58%N :: md ++ rest
    /\ (length hd = 1 \/ length hd = 2)
    /\ forallb isDigit hd = true
    /\ length md = 2
    /\ forallb isDigit md = true
    /\ mk = markerAt rest.
Proof.
  destruct s as [|d1 [|d2 [|c [|m1 [|m2 rest]]]]]; simpl; try discriminate.
  - destruct (isDigit d1 && (d2 =? 58)%N && isDigit c && isDigit m1) eqn:E;
      [|discriminate].
    intro H. injection H as <- <- <-.
    bool_to_prop E. destruct E as [[[E1 E2] E3] E4]. subst d2.
    exists []. simpl. rewrite E1, E3, E4. auto 10.
  - destruct (isDigit d1 && isDigit d2 && (c =? 58)%N && isDigit m1 && isDigit m2)
      eqn:E.
    + intro H. injection H as <- <- <-.
      bool_to_prop E. destruct E as [[[[E1 E2] E3] E4] E5]. subst c.
      exists rest. simpl. rewrite E1, E2, E4, E5. auto 10.
    + destruct (isDigit d1 && (d2 =? 58)%N && isDigit c && isDigit m1) eqn:E';
        [|discriminate].
      intro H. injection H as <- <- <-.
      bool_to_prop E'. destruct E' as [[[E1 E2] E3] E4]. subst d2.
      exists (m2 :: rest). simpl. rewrite E1, E3, E4. auto 10.
Qed.

Lemma matchHere_complete (hd md rest : jsstring) :
  (length hd = 1 \/ length hd = 2) ->
  forallb isDigit hd = true ->
  length md = 2 ->
  forallb isDigit md = true ->
  matchHere (hd ++ 58%N :: md ++ rest) = Some (hd, md, markerAt rest).
Proof.
  intros Hlen Hhd Hlen' Hmd.
  destruct md as [|m1 [|m2 [|? ?]]]; try discriminate.
  simpl in Hmd. bool_to_prop Hmd. destruct Hmd as [Hm1 [Hm2 _]].
  destruct Hlen as [Hlen|Hlen].
  - destruct hd as [|d1 [|? ?]]; try discriminate.
    simpl in Hhd. bool_to_prop Hhd. destruct Hhd as [Hd1 _].
    destruct rest as [|r rest]; simpl.
    + now rewrite Hd1, Hm1, Hm2.
    + rewrite Hd1, Hm1, Hm2. reflexivity.
  - destruct hd as [|d1 [|d2 [|? ?]]]; try discriminate.
    simpl in Hhd. bool_to_prop Hhd. destruct Hhd as [Hd1 [Hd2 _]].
    simpl. now rewrite Hd1, Hd2, Hm1, Hm2.
Qed.

Lemma matchHere_None_iff (s : jsstring) :
  matchHere s = None <-> ~ TimePatternAt s 0.
Proof.
  split.
  - intros H (hd & md & rest & Hs & Hl & Hd & Hl' & Hm).
    simpl in Hs. subst s.
    rewrite (matchHere_complete hd md rest Hl Hd Hl' Hm) in H. discriminate.
  - intro H. destruct (matchHere s) as [[[hd md] mk]|] eqn:E; [|reflexivity].
    exfalso. apply H. apply matchHere_sound in E.
    destruct E as (rest & Hs & Hl & Hd & Hl' & Hm & _).
    exists hd, md, rest. simpl. auto.
Qed.

Lemma TimePatternAt_shift (c : N) (s : jsstring) (i : nat) :
  TimePatternAt (c :: s) (S i) <-> TimePatternAt s i.
Proof. unfold TimePatternAt. simpl. reflexivity. Qed.

Lemma TimePatternAt_app (pre s : jsstring) (i : nat) :
  TimePatternAt (pre ++ s) (length pre + i) <-> TimePatternAt s i.
Proof.
  induction pre as [|c pre IH]; simpl; [reflexivity|].
  now rewrite TimePatternAt_shift.
Qed.

(** The search skips every position at which the pattern does not occur. *)
Lemma timeMatch_skip (pre s : jsstring) :
  (forall i, i < length pre -> ~ TimePatternAt (pre ++ s) i) ->
  timeMatch (pre ++ s) = timeMatch s.
Proof.
  induction pre as [|c pre IH]; intro H; [reflexivity|].
  change ((c :: pre) ++ s) with (c :: (pre ++ s)) in *.
  rewrite timeMatch_unfold.
  assert (E : matchHere (c :: pre ++ s) = None).
  { apply matchHere_None_iff. apply H. simpl. lia. }
  rewrite E. apply IH. intros i Hi Hp. apply (H (S i)); [simpl; lia|].
  now apply TimePatternAt_shift.
Qed.

Lemma timeMatch_None_iff (s : jsstring) :
  timeMatch s = None <-> NoTimePattern s.
Proof.
  induction s as [|c t IH]; rewrite timeMatch_unfold.
  - simpl. split; [|reflexivity].
    intros _ i (hd & md & rest & Hs & _). destruct i; simpl in Hs;
      destruct hd; discriminate.
  - destruct (matchHere (c :: t)) as [r|] eqn:E.
    + split; [discriminate|]. intro H. exfalso.
      assert (E' : matchHere (c :: t) = None)
        by (apply matchHere_None_iff, H).
      congruence.
    + rewrite IH. split.
      * intros H [|i]; [now apply matchHere_None_iff|].
        rewrite TimePatternAt_shift. apply H.
      * intros H i Hp. apply (H (S i)). now apply TimePatternAt_shift.
Qed.

(** The first occurrence decides the three capture groups. *)
Lemma timeMatch_first (pre hd md rest : jsstring) :
  (length hd = 1 \/ length hd = 2) ->
  forallb isDigit hd = true ->
  length md = 2 ->
  forallb isDigit md = true ->
  (forall i, i < length pre ->
             ~ TimePatternAt (pre ++ hd ++ 58%N :: md ++ rest) i) ->
  timeMatch (pre ++ hd ++ 58%N :: md ++ rest) = Some (hd, md, markerAt rest).
Proof.
  intros Hl Hd Hl' Hm Hfirst.
  rewrite (timeMatch_skip _ _ Hfirst), timeMatch_unfold.
  now rewrite (matchHere_complete hd md rest Hl Hd Hl' Hm).
Qed.

(** The marker group is present exactly when white space and then the two
    letters follow the minutes. *)
Lemma markerAt_spec (rest : jsstring) (p : Period) :
  markerAt rest = Some p <-> MarkerFollows rest p.
Proof.
  unfold markerAt. split.
  - intro H. pose proof (take_drop_while isWhiteSpace rest) as Hsplit.
    destruct (dropWhile isWhiteSpace rest) as [|c1 [|c2 tail]]; try discriminate.
    exists (takeWhile isWhiteSpace rest), c1, c2, tail.
    split; [exact Hsplit|]. split; [apply takeWhile_all|].
    destruct (isA c1 && isM c2) eqn:E1.
    + injection H as <-. bool_to_prop E1. tauto.
    + destruct (isP c1 && isM c2) eqn:E2; [|discriminate].
      injection H as <-. bool_to_prop E2. tauto.
  - intros (ws & c1 & c2 & tail & -> & Hws & HM & Hp).
    rewrite (dropWhile_all isWhiteSpace ws _ Hws). cbn [dropWhile].
    destruct p.
    + rewrite (A_not_ws _ Hp), Hp, HM. reflexivity.
    + rewrite (P_not_ws _ Hp), Hp, HM.
      destruct (isA c1) eqn:EA; [|reflexivity].
      apply A_not_P in EA. congruence.
Qed.

(** *** White space around the time string does not move the match *)

Lemma matchHere_ws_head (w : N) (s : jsstring) :
  isWhiteSpace w = true -> matchHere (w :: s) = None.
Proof.
  intro H. apply ws_not_digit in H.
  destruct s as [|a [|b [|c [|d rest]]]]; cbn [matchHere]; rewrite ?H;
    reflexivity.
Qed.

Lemma timeMatch_lead (lead s : jsstring) :
  forallb isWhiteSpace lead = true -> timeMatch (lead ++ s) = timeMatch s.
Proof.
  induction lead as [|w lead IH]; intro H; [reflexivity|].
  cbn [forallb] in H. apply andb_true_iff in H. destruct H as [Hw Hl].
  change ((w :: lead) ++ s) with (w :: (lead ++ s)).
  rewrite timeMatch_unfold, (matchHere_ws_head w _ Hw). now apply IH.
Qed.

Lemma markerAt_snoc (w : N) (rest : jsstring) :
  isWhiteSpace w = true -> markerAt (rest ++ [w]) = markerAt rest.
Proof.
  intro H. unfold markerAt.
  induction rest as [|c t IH]; cbn [app dropWhile].
  - now rewrite H.
  - destruct (isWhiteSpace c); [exact IH|].
    destruct t as [|c2 t]; cbn [app]; [|reflexivity].
    now rewrite (ws_not_M _ H), !andb_false_r.
Qed.

Lemma matchHere_snoc (w : N) (s : jsstring) :
  isWhiteSpace w = true -> matchHere (s ++ [w]) = matchHere s.
Proof.
  intro H. pose proof (ws_not_digit _ H) as Hd.
  destruct s as [|a [|b [|c [|d [|e rest]]]]]; cbn [app matchHere];
    try reflexivity.
  - now rewrite Hd, !andb_false_r.
  - rewrite Hd, !andb_false_r.
    change (markerAt [w]) with (markerAt ([] ++ [w])).
    now rewrite (markerAt_snoc _ [] H).
  - change (e :: rest ++ [w]) with ((e :: rest) ++ [w]).
    now rewrite !(markerAt_snoc _ _ H).
Qed.

Lemma timeMatch_snoc (w : N) (s : jsstring) :
  isWhiteSpace w = true -> timeMatch (s ++ [w]) = timeMatch s.
Proof.
  intro H. induction s as [|c t IH].
  - cbn [app]. rewrite timeMatch_unfold, (matchHere_ws_head w _ H). reflexivity.
  - change ((c :: t) ++ [w]) with (c :: (t ++ [w])).
    rewrite (timeMatch_unfold (c :: t ++ [w])), (timeMatch_unfold (c :: t)).
    change (c :: t ++ [w]) with ((c :: t) ++ [w]).
    rewrite (matchHere_snoc w _ H). now rewrite IH.
Qed.

Lemma timeMatch_trail (trail s : jsstring) :
  forallb isWhiteSpace trail = true -> timeMatch (s ++ trail) = timeMatch s.
Proof.
  revert s. induction trail as [|w trail IH]; intros s H.
  - now rewrite app_nil_r.
  - cbn [forallb] in H. apply andb_true_iff in H. destruct H as [Hw Ht].
    change (w :: trail) with ([w] ++ trail). rewrite app_assoc.
    rewrite (IH _ Ht). now apply timeMatch_snoc.
Qed.

Lemma timeMatch_trim (s : jsstring) : timeMatch (trim s) = timeMatch s.
Proof.
  destruct (trim_split s) as (lead & trail & Hs & Hl & Ht).
  rewrite Hs at 2.
  now rewrite (timeMatch_lead lead _ Hl), (timeMatch_trail trail _ Ht).
Qed.

Lemma hourOf_trim (s : jsstring) : hourOf (trim s) = hourOf s.
Proof.
  unfold hourOf, Workflow.extractTimeFromString. now rewrite timeMatch_trim.
Qed.

Lemma TimePatternAt_skipn (s : jsstring) (i : nat) :
  TimePatternAt s i <-> TimePatternAt (skipn i s) 0.
Proof. unfold TimePatternAt. simpl. reflexivity. Qed.

(** A computable check that the pattern occurs at none of the first [n]
    positions. *)
Lemma no_pattern_before (s : jsstring) (n : nat) :
  forallb (fun i => match matchHere (skipn i s) with
                    | None => true
                    | Some _ => false
                    end) (seq 0 n) = true ->
  forall i, i < n -> ~ TimePatternAt s i.
Proof.
  intros H i Hi. rewrite forallb_forall in H.
  specialize (H i). rewrite in_seq in H.
  rewrite TimePatternAt_skipn. apply matchHere_None_iff.
  destruct (matchHere (skipn i s)); [|reflexivity].
  assert (false = true) by (apply H; lia). discriminate.
Qed.

Lemma hourOf_first (pre hd md rest : jsstring) :
  (length hd = 1 \/ length hd = 2) ->
  forallb isDigit hd = true ->
  length md = 2 ->
  forallb isDigit md = true ->
  (forall i, i < length pre ->
             ~ TimePatternAt (pre ++ hd ++ 58%N :: md ++ rest) i) ->
  hourOf (pre ++ hd ++ 58%N :: md ++ rest)
  = Some (adjustHour (digitsValue hd) (markerAt rest)).
Proof.
  intros Hl Hd Hl' Hm Hfirst.
  unfold hourOf, Workflow.extractTimeFromString.
  now rewrite (timeMatch_first pre hd md rest Hl Hd Hl' Hm Hfirst).
Qed.

Lemma markerAt_None (rest : jsstring) :
  (forall p, ~ MarkerFollows rest p) -> markerAt rest = None.
Proof.
  intro H. destruct (markerAt rest) as [p|] eqn:E; [|reflexivity].
  exfalso. apply (H p). now apply markerAt_spec.
Qed.

(* ================================================================== *)
(** ** The time parser *)

(** C1: when the first occurrence of [digit{1,2} ':' digit{2}] in the input
    is found, the parser returns the literal hour when no AM/PM marker
    follows; the hour plus 12 for a PM marker and an hour other than 12;
    0 for an AM marker and hour 12 (and the hour unchanged for PM at 12 and
    for AM at another hour).  In particular "13:45" gives 13, "12:00 AM"
    gives 0, "12:00 PM" gives 12, "1:00 PM" gives 13 and "11:59 PM"
    gives 23. *)
Theorem extractTime_hour_rules :
  (forall pre hd md rest : jsstring,
      (length hd = 1 \/ length hd = 2) ->
      forallb isDigit hd = true ->
      length md = 2 ->
      forallb isDigit md = true ->
      (forall i, i < length pre ->
                 ~ TimePatternAt (pre ++ hd ++ 58%N :: md ++ rest) i) ->
      let timeStr := pre ++ hd ++ 58%N :: md ++ rest in
      let h := parseInt hd in
      ((forall p, ~ MarkerFollows rest p) -> hourOf timeStr = Some h)
      /\ (MarkerFollows rest PM -> h <> 12%Z -> hourOf timeStr = Some (h + 12)%Z)
      /\ (MarkerFollows rest AM -> h = 12%Z -> hourOf timeStr = Some 0%Z)
      /\ (MarkerFollows rest PM -> h = 12%Z -> hourOf timeStr = Some 12%Z)
      /\ (MarkerFollows rest AM -> h <> 12%Z -> hourOf timeStr = Some h))
  /\ hourOf (js "13:45") = Some 13%Z
  /\ hourOf (js "12:00 AM") = Some 0%Z
  /\ hourOf (js "12:00 PM") = Some 12%Z
  /\ hourOf (js "1:00 PM") = Some 13%Z
  /\ hourOf (js "11:59 PM") = Some 23%Z.
Proof.
  split; [|repeat split; reflexivity].
  intros pre hd md rest Hl Hd Hl' Hm Hfirst timeStr h.
  pose proof (hourOf_first pre hd md rest Hl Hd Hl' Hm Hfirst) as Hh.
  fold timeStr in Hh. unfold parseInt in h. fold h in Hh.
  repeat split.
  - intro Hno. rewrite Hh, (markerAt_None rest Hno). reflexivity.
  - intros Hp Hne. apply markerAt_spec in Hp. rewrite Hh, Hp. simpl.
    apply Z.eqb_neq in Hne. rewrite Hne. reflexivity.
  - intros Hp He. apply markerAt_spec in Hp. rewrite Hh, Hp, He. reflexivity.
  - intros Hp He. apply markerAt_spec in Hp. rewrite Hh, Hp, He. reflexivity.
  - intros Hp Hne. apply markerAt_spec in Hp. rewrite Hh, Hp. simpl.
    apply Z.eqb_neq in Hne. rewrite Hne. reflexivity.
Qed.

Lemma extractTime_hour_rules_witness :
  hourOf (js "at 1:00 PM") = Some 13%Z.
Proof.
  refine (proj1 (proj2 (proj1 extractTime_hour_rules
             (js "at ") (js "1") (js "00") (js " PM") _ _ _ _ _)) _ _).
  - left. reflexivity.
  - reflexivity.
  - reflexivity.
  - reflexivity.
  - apply no_pattern_before. vm_compute. reflexivity.
  - apply markerAt_spec. vm_compute. reflexivity.
  - vm_compute. discriminate.
Defined.

(** The productivity page reads the same hour, and the minutes. *)
Lemma productivity_hour (timeStr : jsstring) :
  option_map Productivity.hour (Productivity.extractTimeFromString timeStr)
  = hourOf timeStr.
Proof.
  unfold hourOf, Productivity.extractTimeFromString,
    Workflow.extractTimeFromString.
  destruct (timeMatch timeStr) as [[[g1 g2] g3]|]; reflexivity.
Qed.

(* ================================================================== *)
(** ** The hourly aggregator *)

Lemma hourOf_extract (s : jsstring) (h : Z) :
  hourOf s = Some h ->
  exists ti, Workflow.extractTimeFromString s = Some ti
             /\ Workflow.tiHour ti = h.
Proof.
  unfold hourOf. destruct (Workflow.extractTimeFromString s) as [ti|];
    simpl; [|discriminate].
  intro H. injection H as <-. now exists ti.
Qed.

Lemma processRow_unparseable (st : Workflow.Ingest) (row : Row) :
  Unparseable row -> Workflow.processRow st row = st.
Proof.
  unfold Unparseable, Workflow.processRow.
  destruct (Time row) as [t|]; [|reflexivity].
  intros [-> | [Hno | (h & Hh & Hrange)]].
  - reflexivity.
  - destruct (truthy (trim t)); [|reflexivity]. cbn [negb].
    apply timeMatch_None_iff in Hno. rewrite <- timeMatch_trim in Hno.
    unfold Workflow.extractTimeFromString. now rewrite Hno.
  - destruct (truthy (trim t)); [|reflexivity]. cbn [negb].
    rewrite <- hourOf_trim in Hh. apply hourOf_extract in Hh.
    destruct Hh as (ti & -> & <-).
    replace ((Workflow.tiHour ti <? 0) || (Workflow.tiHour ti >? 23))%Z
      with true; [reflexivity|].
    symmetry. apply orb_true_iff. rewrite Z.ltb_lt, Z.gtb_gt. lia.
Qed.

Lemma yieldsRecord_unparseable (row : Row) :
  Unparseable row -> yieldsRecord row = false.
Proof.
  unfold Unparseable, yieldsRecord.
  destruct (Time row) as [t|]; [|reflexivity].
  rewrite hourOf_trim.
  intros [-> | [Hno | (h & Hh & Hrange)]].
  - reflexivity.
  - apply timeMatch_None_iff in Hno.
    unfold hourOf, Workflow.extractTimeFromString. now rewrite Hno.
  - rewrite Hh. destruct Hrange as [Hr|Hr].
    + replace (0 <=? h)%Z with false by (symmetry; apply Z.leb_gt; lia).
      now rewrite andb_false_r.
    + replace (h <=? 23)%Z with false by (symmetry; apply Z.leb_gt; lia).
      now rewrite andb_false_r.
Qed.

(** C2: a row whose time field is absent or empty, holds no
    [digit{1,2}:digit{2}] pattern anywhere, or gives an hour outside 0..23
    creates no record: the step of the aggregator leaves every bucket, every
    option set and the valid-entry total as they were, and the result of the
    whole ingestion is the one obtained without the row, the other rows
    being processed as usual. *)
Theorem unparseable_row_dropped :
  forall (localeCompare : jsstring -> jsstring -> Z)
         (timeFormat : TimeFormat) (row : Row),
    Unparseable row ->
    yieldsRecord row = false
    /\ (forall st, Workflow.processRow st row = st)
    /\ (forall before after,
           Workflow.processTimestamps localeCompare timeFormat
                                      (before ++ row :: after)
           = Workflow.processTimestamps localeCompare timeFormat
                                        (before ++ after)).
Proof.
  intros localeCompare timeFormat row Hrow.
  split; [now apply yieldsRecord_unparseable|].
  split; [intro st; now apply processRow_unparseable|].
  intros before after. unfold Workflow.processTimestamps.
  rewrite !fold_left_app. cbn [fold_left].
  now rewrite processRow_unparseable.
Qed.

Lemma unparseable_row_dropped_witness :
  Workflow.processTimestamps codeUnitCompare Format24
                             (scenarioRows ++ noTimeRow :: [])
  = Workflow.processTimestamps codeUnitCompare Format24 (scenarioRows ++ []).
Proof.
  refine (proj2 (proj2 (unparseable_row_dropped codeUnitCompare Format24
                          noTimeRow _)) scenarioRows []).
  right. left. apply timeMatch_None_iff. vm_compute. reflexivity.
Defined.

Lemma initialIngest_inv : IngestInv Workflow.initialIngest.
Proof.
  split.
  - reflexivity.
  - unfold Workflow.initialIngest. cbn [Workflow.hourData].
    apply Forall_forall. intros kv Hin. apply in_map_iff in Hin.
    destruct Hin as (i & <- & _). reflexivity.
  - reflexivity.
Qed.

Lemma mapGet_present (V : Type) (k : Z) (m : list (Z * V)) :
  In k (List.map fst m) -> exists v, mapGet Z.eqb k m = Some v.
Proof.
  induction m as [|[k' v'] t IH]; simpl; [tauto|].
  intros [->|Hin].
  - rewrite Z.eqb_refl. now exists v'.
  - destruct (k =? k')%Z; [now exists v' | now apply IH].
Qed.

Lemma hourKeys_in (h : Z) : (0 <= h <= 23)%Z -> In h hourKeys.
Proof.
  intro H. unfold hourKeys. apply in_map_iff.
  exists (Z.to_nat h). split; [lia|]. apply in_seq. lia.
Qed.

(** The two outcomes of one step: the row is skipped, or one record is
    appended to the slot of its hour. *)
Lemma processRow_skip (st : Workflow.Ingest) (row : Row) :
  yieldsRecord row = false -> Workflow.processRow st row = st.
Proof.
  unfold yieldsRecord, Workflow.processRow, hourOf.
  destruct (Time row) as [t|]; [|reflexivity].
  destruct (truthy (trim t)); [|reflexivity]. cbn [negb andb].
  destruct (Workflow.extractTimeFromString (trim t)) as [ti|];
    [|reflexivity].
  cbn [option_map]. intro H.
  replace ((Workflow.tiHour ti <? 0) || (Workflow.tiHour ti >? 23))%Z
    with true; [reflexivity|].
  symmetry. apply orb_true_iff. rewrite Z.ltb_lt, Z.gtb_gt.
  apply andb_false_iff in H. rewrite !Z.leb_gt in H. lia.
Qed.

Lemma processRow_record (st : Workflow.Ingest) (row : Row) :
  yieldsRecord row = true ->
  List.map fst (Workflow.hourData st) = hourKeys ->
  exists h current entry,
    mapGet Z.eqb h (Workflow.hourData st) = Some current
    /\ Workflow.hourData (Workflow.processRow st row)
       = mapSet Z.eqb h
                {| Workflow.slotCount := S (Workflow.slotCount current);
                   Workflow.slotEntries :=
                     Workflow.slotEntries current ++ [entry] |}
                (Workflow.hourData st)
    /\ Workflow.validEntries (Workflow.processRow st row)
       = S (Workflow.validEntries st).
Proof.
  unfold yieldsRecord, Workflow.processRow, hourOf.
  destruct (Time row) as [t|]; [|discriminate].
  destruct (Workflow.extractTimeFromString (trim t)) as [ti|];
    [|discriminate].
  cbn [option_map]. intros H Hkeys.
  apply andb_true_iff in H. destruct H as [H H23].
  apply andb_true_iff in H. destruct H as [Htruthy H0].
  rewrite Htruthy. cbn [negb].
  apply Z.leb_le in H0, H23.
  replace ((Workflow.tiHour ti <? 0) || (Workflow.tiHour ti >? 23))%Z
    with false.
  2:{ symmetry. apply orb_false_iff. rewrite Z.ltb_ge, Z.gtb_ltb, Z.ltb_ge.
      lia. }
  destruct (mapGet_present _ (Workflow.tiHour ti) (Workflow.hourData st))
    as [current Hget].
  { rewrite Hkeys. apply hourKeys_in. lia. }
  rewrite Hget. cbn [Workflow.hourData Workflow.validEntries].
  eexists _, current, _. split; [exact Hget|]. split; reflexivity.
Qed.

Lemma processRow_inv (st : Workflow.Ingest) (row : Row) :
  IngestInv st -> IngestInv (Workflow.processRow st row).
Proof.
  intros [Hk Hs Ht].
  destruct (yieldsRecord row) eqn:E.
  - destruct (processRow_record st row E Hk)
      as (h & current & entry & Hget & Hdata & Hvalid).
    split.
    + rewrite Hdata, (mapSet_keys Z.eqb h _ _ Hget). exact Hk.
    + rewrite Hdata.
      apply (mapSet_Forall Z.eqb
               (fun v => Workflow.slotCount v
                         = length (Workflow.slotEntries v))); [|exact Hs].
      cbn [Workflow.slotCount Workflow.slotEntries].
      rewrite length_app. cbn [length].
      rewrite (mapGet_Forall Z.eqb
                 (fun v => Workflow.slotCount v
                           = length (Workflow.slotEntries v)) h Hs Hget).
      lia.
    + rewrite Hdata, Hvalid. unfold slotSizes in *.
      pose proof (mapSet_sum Z.eqb Workflow.slotCount h
                    {| Workflow.slotCount := S (Workflow.slotCount current);
                       Workflow.slotEntries :=
                         Workflow.slotEntries current ++ [entry] |}
                    (Workflow.hourData st) Hget) as Hsum.
      cbn [Workflow.slotCount] in Hsum. lia.
  - rewrite (processRow_skip st row E). now split.
Qed.

Lemma processRows_inv (rows : list Row) (st : Workflow.Ingest) :
  IngestInv st -> IngestInv (fold_left Workflow.processRow rows st).
Proof.
  revert st. induction rows as [|row rows IH]; intros st H; [exact H|].
  cbn [fold_left]. apply IH. now apply processRow_inv.
Qed.

Lemma processRows_valid (rows : list Row) (st : Workflow.Ingest) :
  List.map fst (Workflow.hourData st) = hourKeys ->
  Workflow.validEntries (fold_left Workflow.processRow rows st)
  = Workflow.validEntries st + length (filter yieldsRecord rows).
Proof.
  revert st. induction rows as [|row rows IH]; intros st Hk;
    cbn [fold_left filter]; [cbn [length]; lia|].
  destruct (yieldsRecord row) eqn:E.
  - destruct (processRow_record st row E Hk)
      as (h & current & entry & Hget & Hdata & Hvalid).
    rewrite IH.
    + rewrite Hvalid. cbn [length]. lia.
    + rewrite Hdata, (mapSet_keys Z.eqb h _ _ Hget). exact Hk.
  - rewrite (processRow_skip st row E). now apply IH.
Qed.

(** *** From the map to the bucket array *)

Lemma hourKeys_ascending (m : list (Z * Workflow.HourSlot)) :
  List.map fst m = hourKeys -> Ascending byHour m.
Proof.
  intro H.
  assert (Hgen : forall (ks : list Z) (l : list (Z * Workflow.HourSlot)),
             Ascending (fun x y => (x - y)%Z) ks ->
             List.map fst l = ks -> Ascending byHour l).
  { intros ks l Hasc. revert l.
    induction Hasc as [|x|x y t Hxy Hasc IH]; intros l Hl.
    - destruct l; [constructor | discriminate].
    - destruct l as [|a [|b l]]; try discriminate. constructor.
    - destruct l as [|a [|b l]]; try discriminate.
      cbn [List.map] in Hl. injection Hl as Ha Hb Hl.
      constructor.
      + unfold byHour. now rewrite Ha, Hb.
      + apply IH. cbn [List.map]. now rewrite Hb, Hl. }
  apply (Hgen hourKeys m); [|exact H].
  unfold hourKeys. cbn [seq List.map].
  repeat (constructor; [vm_compute; discriminate|]). constructor.
Qed.

(** The map is already in hour order: the sort by hour changes nothing. *)
Lemma sortedData_map (localeCompare : jsstring -> jsstring -> Z)
      (timeFormat : TimeFormat) (m : list (Z * Workflow.HourSlot)) :
  List.map fst m = hourKeys ->
  Workflow.sortedData localeCompare timeFormat m
  = List.map
      (fun kv : Z * Workflow.HourSlot =>
         let labels := Workflow.formatHour (fst kv) timeFormat in
         {| Workflow.hour := Workflow.hour24Label labels;
            Workflow.hour12 := Workflow.hour12Label labels;
            Workflow.count := Workflow.slotCount (snd kv);
            Workflow.entries :=
              sortBy (fun a b => localeCompare (Workflow.timestamp a)
                                               (Workflow.timestamp b))
                     (Workflow.slotEntries (snd kv)) |}) m.
Proof.
  intro H. unfold Workflow.sortedData.
  change (fun a b : Z * Workflow.HourSlot => (fst a - fst b)%Z) with byHour.
  now rewrite (sortBy_ascending (hourKeys_ascending m H)).
Qed.

Lemma sortedData_counts (localeCompare : jsstring -> jsstring -> Z)
      (timeFormat : TimeFormat) (m : list (Z * Workflow.HourSlot)) :
  List.map fst m = hourKeys ->
  List.map Workflow.count (Workflow.sortedData localeCompare timeFormat m)
  = slotSizes m.
Proof.
  intro H. rewrite (sortedData_map localeCompare timeFormat m H).
  unfold slotSizes. rewrite map_map. reflexivity.
Qed.

Lemma sortedData_sizes (localeCompare : jsstring -> jsstring -> Z)
      (timeFormat : TimeFormat) (m : list (Z * Workflow.HourSlot)) :
  List.map fst m = hourKeys ->
  Forall (fun kv => Workflow.slotCount (snd kv)
                    = length (Workflow.slotEntries (snd kv))) m ->
  List.map (fun b => length (Workflow.entries b))
           (Workflow.sortedData localeCompare timeFormat m)
  = slotSizes m.
Proof.
  intros H Hs. rewrite (sortedData_map localeCompare timeFormat m H).
  unfold slotSizes. rewrite map_map. apply map_ext_in.
  intros kv Hin. cbn [Workflow.entries]. rewrite sortBy_length.
  symmetry. rewrite Forall_forall in Hs. now apply Hs.
Qed.

(** C3: after the hourly aggregation there are 24 buckets, and the sum of
    their counts, the number of entries they store and the valid-entry
    total are one number: the number of rows that yielded a record. *)
Theorem bucket_counts_total :
  forall (localeCompare : jsstring -> jsstring -> Z)
         (timeFormat : TimeFormat) (rows : list Row),
    let r := Workflow.processTimestamps localeCompare timeFormat rows in
    length (Workflow.hourlyData r) = 24
    /\ sumCounts (List.map Workflow.count (Workflow.hourlyData r))
       = Workflow.totalEntries r
    /\ sumCounts (List.map (fun b => length (Workflow.entries b))
                           (Workflow.hourlyData r))
       = Workflow.totalEntries r
    /\ Workflow.totalEntries r = length (filter yieldsRecord rows).
Proof.
  intros localeCompare timeFormat rows r.
  destruct (processRows_inv rows _ initialIngest_inv) as [Hk Hs Ht].
  unfold r, Workflow.processTimestamps.
  cbn [Workflow.hourlyData Workflow.totalEntries].
  repeat split.
  - rewrite <- (length_map Workflow.count), (sortedData_counts _ _ _ Hk).
    unfold slotSizes. rewrite length_map, <- (length_map fst), Hk.
    reflexivity.
  - now rewrite (sortedData_counts _ _ _ Hk).
  - now rewrite (sortedData_sizes localeCompare timeFormat _ Hk Hs).
  - rewrite (processRows_valid rows Workflow.initialIngest eq_refl).
    reflexivity.
Qed.

(* ================================================================== *)
(** ** The filter engine of the workflow view *)

Lemma hour_labels_in_full_day :
  forallb (fun k =>
             forallb (fun timeFormat =>
                        Workflow.timeRangeMatch Workflow.clearFilters
                          {| Workflow.hour :=
                               Workflow.hour24Label
                                 (Workflow.formatHour k timeFormat);
                             Workflow.hour12 := [];
                             Workflow.count := 0;
                             Workflow.entries := [] |})
                     [Format12; Format24])
          hourKeys = true.
Proof. vm_compute. reflexivity. Qed.

Lemma timeRangeMatch_full_day (b : Workflow.HourlyData) :
  HourBucket b -> Workflow.timeRangeMatch Workflow.clearFilters b = true.
Proof.
  intros [(k & timeFormat & Hk & Hhour) _].
  pose proof hour_labels_in_full_day as H.
  rewrite forallb_forall in H. specialize (H k (hourKeys_in k Hk)).
  rewrite forallb_forall in H. specialize (H timeFormat).
  unfold Workflow.timeRangeMatch in *. cbn [Workflow.hour] in H.
  rewrite Hhour. apply H. destruct timeFormat; simpl; auto.
Qed.

Lemma entryMatch_clear (entry : Workflow.EntryDetail) :
  Workflow.entryMatch Workflow.clearFilters entry = true.
Proof. reflexivity. Qed.

Lemma filterBucket_clear (b : Workflow.HourlyData) :
  HourBucket b -> Workflow.filterBucket Workflow.clearFilters b = b.
Proof.
  intro Hb. unfold Workflow.filterBucket.
  rewrite (timeRangeMatch_full_day b Hb). cbn [negb].
  rewrite (filter_all (Workflow.entryMatch Workflow.clearFilters)
             (Workflow.entries b) (fun e _ => entryMatch_clear e)).
  destruct Hb as [_ Hcount]. destruct b as [h h12 n es].
  cbn in *. now rewrite Hcount.
Qed.

Lemma processTimestamps_buckets (localeCompare : jsstring -> jsstring -> Z)
      (timeFormat : TimeFormat) (rows : list Row) :
  Forall HourBucket
    (Workflow.hourlyData
       (Workflow.processTimestamps localeCompare timeFormat rows)).
Proof.
  destruct (processRows_inv rows _ initialIngest_inv) as [Hk Hs _].
  unfold Workflow.processTimestamps. cbn [Workflow.hourlyData].
  rewrite (sortedData_map localeCompare timeFormat _ Hk).
  apply Forall_forall. intros b Hin. apply in_map_iff in Hin.
  destruct Hin as (kv & <- & Hkv). split.
  - exists (fst kv), timeFormat. split; [|reflexivity].
    assert (Hin : In (fst kv) hourKeys)
      by (rewrite <- Hk; now apply in_map).
    unfold hourKeys in Hin. apply in_map_iff in Hin.
    destruct Hin as (i & <- & Hi). apply in_seq in Hi. lia.
  - cbn [Workflow.count Workflow.entries]. rewrite sortBy_length.
    rewrite Forall_forall in Hs. now apply Hs.
Qed.

(** C4: with the three selections empty, both date bounds empty and the
    time range 00:00 to 23:59, the filter engine returns its input: every
    hour bucket keeps its count and its entries, in the same order.  The
    hour buckets are those of the data model, which the aggregator always
    produces. *)
Theorem clear_filters_identity :
  (forall (localeCompare : jsstring -> jsstring -> Z)
          (timeFormat : TimeFormat) (rows : list Row),
      Forall HourBucket
        (Workflow.hourlyData
           (Workflow.processTimestamps localeCompare timeFormat rows)))
  /\ (forall data : list Workflow.HourlyData,
         Forall HourBucket data ->
         Workflow.filteredData Workflow.clearFilters data = data).
Proof.
  split; [exact processTimestamps_buckets|].
  intros data Hdata. unfold Workflow.filteredData.
  rewrite <- (map_id data) at 2. apply map_ext_in.
  intros b Hin. apply filterBucket_clear.
  rewrite Forall_forall in Hdata. now apply Hdata.
Qed.

Lemma clear_filters_identity_witness :
  let data := Workflow.hourlyData
                (Workflow.processTimestamps codeUnitCompare Format24
                                            scenarioRows) in
  Workflow.filteredData Workflow.clearFilters data = data.
Proof.
  intro data.
  exact (proj2 clear_filters_identity data
           (proj1 clear_filters_identity codeUnitCompare Format24
                  scenarioRows)).
Defined.




(** C10: on 24 buckets the filter engine returns 24 buckets, in the same
    order, whose [hour] and [hour12] labels are those of the input. *)
Theorem filter_preserves_frame :
  forall (c : Workflow.Criteria) (data : list Workflow.HourlyData),
    length data = 24 ->
    length (Workflow.filteredData c data) = 24
    /\ List.map Workflow.hour (Workflow.filteredData c data)
       = List.map Workflow.hour data
    /\ List.map Workflow.hour12 (Workflow.filteredData c data)
       = List.map Workflow.hour12 data.
Proof.
  intros c data Hlen. unfold Workflow.filteredData.
  rewrite length_map, !map_map. split; [exact Hlen|].
  split; apply map_ext; intro b; unfold Workflow.filterBucket;
    destruct (Workflow.timeRangeMatch c b); reflexivity.
Qed.

Lemma filter_preserves_frame_witness :
  let c := {| Workflow.selectedModalities := [js "CT"];
              Workflow.selectedStatuses := [];
              Workflow.selectedSigners := [];
              Workflow.dateRange := mkRange (js "") (js "");
              Workflow.timeRange := mkRange (js "10:00") (js "23:59") |} in
  let data := Workflow.hourlyData
                (Workflow.processTimestamps codeUnitCompare Format24
                                            scenarioRows) in
  length (Workflow.filteredData c data) = 24
  /\ List.map Workflow.hour (Workflow.filteredData c data)
     = List.map Workflow.hour data
  /\ List.map Workflow.hour12 (Workflow.filteredData c data)
     = List.map Workflow.hour12 data.
Proof.
  intros c data. apply (filter_preserves_frame c data). reflexivity.
Defined.

(* ================================================================== *)
(** ** The peak hour *)

Lemma keepMax_step (pre : list Workflow.HourlyData)
      (acc b : Workflow.HourlyData) :
  FirstMaximum pre acc ->
  FirstMaximum (pre ++ [b]) (Workflow.keepMax acc b).
Proof.
  intros (i & Hi & Hbefore & Hall).
  assert (Hlt : i < length pre) by (apply nth_error_Some; congruence).
  unfold Workflow.keepMax.
  destruct (Workflow.count acc <? Workflow.count b) eqn:E.
  - apply Nat.ltb_lt in E. exists (length pre). repeat split.
    + rewrite nth_error_app2, Nat.sub_diag by lia. reflexivity.
    + intros j x Hj Hx. rewrite nth_error_app1 in Hx by exact Hj.
      apply nth_error_In in Hx. specialize (Hall x Hx). lia.
    + intros x Hx. apply in_app_or in Hx. destruct Hx as [Hx|[<-|[]]].
      * specialize (Hall x Hx). lia.
      * lia.
  - apply Nat.ltb_ge in E. exists i. repeat split.
    + rewrite nth_error_app1 by exact Hlt. exact Hi.
    + intros j x Hj Hx. rewrite nth_error_app1 in Hx by lia.
      now apply (Hbefore j).
    + intros x Hx. apply in_app_or in Hx. destruct Hx as [Hx|[<-|[]]].
      * now apply Hall.
      * exact E.
Qed.

Lemma keepMax_scan (t pre : list Workflow.HourlyData)
      (acc : Workflow.HourlyData) :
  FirstMaximum pre acc ->
  FirstMaximum (pre ++ t) (fold_left Workflow.keepMax t acc).
Proof.
  revert pre acc. induction t as [|b t IH]; intros pre acc H.
  - now rewrite app_nil_r.
  - cbn [fold_left]. change (b :: t) with ([b] ++ t). rewrite app_assoc.
    apply IH. now apply keepMax_step.
Qed.

Lemma reduce_keepMax (b : Workflow.HourlyData)
      (rest : list Workflow.HourlyData) :
  exists p, reduce1 Workflow.keepMax (b :: rest) = Some p
            /\ FirstMaximum (b :: rest) p.
Proof.
  exists (fold_left Workflow.keepMax rest b). split; [reflexivity|].
  apply (keepMax_scan rest [b] b).
  exists 0. repeat split.
  - intros j x Hj. lia.
  - intros x [<-|[]]. lia.
Qed.

Lemma keepMax_all_zero (rest : list Workflow.HourlyData)
      (acc : Workflow.HourlyData) :
  Forall (fun x => Workflow.count x = 0) rest ->
  fold_left Workflow.keepMax rest acc = acc.
Proof.
  induction 1 as [|x rest Hx Hrest IH]; [reflexivity|].
  cbn [fold_left]. unfold Workflow.keepMax at 2. rewrite Hx.
  replace (Workflow.count acc <? 0) with false
    by (symmetry; apply Nat.ltb_ge; lia).
  exact IH.
Qed.

(** C6: the peak hour of the summary report is the bucket at the lowest
    index holding the largest count: every earlier bucket has a strictly
    smaller count and no bucket has a larger one, so that a tie for the
    maximum goes to the lowest hour.  With counts 5, 5, 3, 0, ... the peak
    hour is hour 0. *)
Theorem peak_hour_first_maximum :
  (forall (timeFormat : TimeFormat) (data : list Workflow.HourlyData)
          (report : Workflow.Overview),
      Workflow.generateSummaryReport timeFormat data = Some report ->
      FirstMaximum data (Workflow.peakHour report)
      /\ Workflow.peakHourLabel report
         = Workflow.hourLabel timeFormat (Workflow.peakHour report)
      /\ Workflow.peakHourCount report
         = Workflow.count (Workflow.peakHour report))
  /\ option_map Workflow.peakHourLabel
       (Workflow.generateSummaryReport Format24 (bucketsOfCounts tiedCounts))
     = Some (js "00:00").
Proof.
  split; [|reflexivity].
  intros timeFormat data report.
  unfold Workflow.generateSummaryReport.
  destruct data as [|b rest]; [discriminate|].
  cbn [length Nat.eqb].
  destruct (reduce_keepMax b rest) as (p & -> & Hp).
  intro H. injection H as <-.
  cbn [Workflow.peakHour Workflow.peakHourLabel Workflow.peakHourCount].
  auto.
Qed.

Lemma peak_hour_first_maximum_witness :
  exists report,
    Workflow.generateSummaryReport Format24 (bucketsOfCounts tiedCounts)
    = Some report
    /\ FirstMaximum (bucketsOfCounts tiedCounts) (Workflow.peakHour report)
    /\ Workflow.peakHourLabel report = js "00:00".
Proof.
  assert (H : exists report,
             Workflow.generateSummaryReport Format24
                                            (bucketsOfCounts tiedCounts)
             = Some report
             /\ Workflow.peakHourLabel report = js "00:00").
  { eexists. split; reflexivity. }
  destruct H as (report & H & Hlabel).
  exists report. split; [exact H|]. split; [|exact Hlabel].
  exact (proj1 (proj1 peak_hour_first_maximum Format24
                      (bucketsOfCounts tiedCounts) report H)).
Defined.

(** C7 as stated fails: when no record passes the filters the card does
    not show the no-data value but the label of the first bucket. *)
Lemma peak_hour_card_counterexample :
  records emptiedView = []
  /\ Workflow.peakHourCard Format24 emptiedView = Some (js "00:00")
  /\ Workflow.peakHourCard Format24 emptiedView <> Some (js "N/A").
Proof.
  split; [reflexivity|]. split; [reflexivity|].
  vm_compute. discriminate.
Qed.

(** C7, amended: the card shows the explicit no-data value "N/A" when the
    filtered view holds no bucket at all; when it holds buckets the card
    shows the label of one of them, never a reference outside the view,
    and when no record passes the filters, all counts being 0, that bucket
    is the first one.  [App] renders the card only for a non-empty bucket
    list, where it shows the same text. *)
Theorem peak_hour_card_no_data :
  (forall timeFormat,
      Workflow.peakHourCard timeFormat [] = Some (js "N/A"))
  /\ (forall timeFormat b rest,
         exists p, In p (b :: rest)
                   /\ Workflow.peakHourCard timeFormat (b :: rest)
                      = Some (Workflow.hourLabel timeFormat p))
  /\ (forall timeFormat b rest,
         Forall (fun x => Workflow.count x = 0) (b :: rest) ->
         Workflow.peakHourCard timeFormat (b :: rest)
         = Some (Workflow.hourLabel timeFormat b))
  /\ (forall timeFormat b rest,
         Workflow.appPeakHourCard timeFormat (b :: rest)
         = Workflow.peakHourCard timeFormat (b :: rest)).
Proof.
  split; [reflexivity|]. split; [|split].
  - intros timeFormat b rest.
    destruct (reduce_keepMax b rest) as (p & Hp & (i & Hi & _)).
    exists p. split; [now apply nth_error_In in Hi|].
    unfold Workflow.peakHourCard. cbn [length Nat.ltb Nat.leb].
    now rewrite Hp.
  - intros timeFormat b rest Hzero.
    unfold Workflow.peakHourCard, reduce1. cbn [length Nat.ltb Nat.leb].
    rewrite keepMax_all_zero; [reflexivity|].
    now inversion Hzero.
  - reflexivity.
Qed.

Lemma peak_hour_card_no_data_witness :
  Workflow.peakHourCard Format24 emptiedView
  = Some (Workflow.hourLabel Format24
            (Workflow.mkHourly (js "00:00") (js "12:00 AM") 0 [])).
Proof.
  refine (proj1 (proj2 (proj2 peak_hour_card_no_data)) Format24
                (Workflow.mkHourly (js "00:00") (js "12:00 AM") 0 [])
                (tl emptiedView) _).
  apply Forall_forall. intros x Hx.
  assert (Hall : forallb (fun y => Workflow.count y =? 0) emptiedView = true)
    by reflexivity.
  rewrite forallb_forall in Hall. apply Nat.eqb_eq, Hall. exact Hx.
Defined.

(* ================================================================== *)
(** ** The date filter of the productivity view *)

(** C8 as stated fails: the bounds are not read with the month/day/year
    pattern.  Bounds as the date inputs deliver them, read that way, would
    not parse and the record would pass; the page reads them as
    year-month-day and excludes a record dated after the end. *)
Lemma date_filter_pattern_counterexample :
  Productivity.dateRangeRejects DateLib.parse januaryCriteria februaryRow
  = true
  /\ dateRangeRejectsAsStated DateLib.parse januaryCriteria februaryRow
     = false.
Proof. split; vm_compute; reflexivity. Qed.

(** C8, amended: with both bounds non-empty, the date filter reads the two
    bounds with the fixed year-month-day pattern and the record's date with
    the fixed month/day/year pattern and compares the three as dates; it
    excludes the record exactly when all three parse and the record's date
    lies strictly before the start or strictly after the end.  Whenever one
    of the three fails to parse, and also when the record has no date, the
    record passes the date filter. *)
Theorem date_filter_productivity :
  forall (parse : jsstring -> jsstring -> option Z)
         (c : Productivity.Criteria) (row : Row),
    truthy (start (Productivity.dateRange c)) = true ->
    truthy (end_ (Productivity.dateRange c)) = true ->
    (Productivity.dateRangeRejects parse c row = true <->
     exists date s e d,
       Date row = Some date /\ truthy date = true
       /\ parse (start (Productivity.dateRange c)) fmtYMD = Some s
       /\ parse (end_ (Productivity.dateRange c)) fmtYMD = Some e
       /\ parse date fmtMDY = Some d
       /\ (d < s \/ e < d)%Z)
    /\ (parse (start (Productivity.dateRange c)) fmtYMD = None
        \/ parse (end_ (Productivity.dateRange c)) fmtYMD = None
        \/ (forall date, Date row = Some date -> parse date fmtMDY = None) ->
        Productivity.dateRangeRejects parse c row = false).
Proof.
  intros parse c row Hs He.
  unfold Productivity.dateRangeRejects. rewrite Hs, He. cbn [andb].
  split.
  - split.
    + destruct (Date row) as [date|]; [|discriminate].
      destruct (truthy date) eqn:Ht; [|discriminate].
      destruct (parse (start (Productivity.dateRange c)) fmtYMD) as [s|];
        [|discriminate].
      destruct (parse (end_ (Productivity.dateRange c)) fmtYMD) as [e|];
        [|discriminate].
      destruct (parse date fmtMDY) as [d|] eqn:Hd; [|discriminate].
      intro H. apply orb_true_iff in H. rewrite !Z.ltb_lt in H.
      exists date, s, e, d. auto 10.
    + intros (date & s & e & d & -> & -> & -> & -> & -> & H).
      apply orb_true_iff. now rewrite !Z.ltb_lt.
  - intros [H | [H | H]].
    + rewrite H. destruct (Date row) as [date|]; [|reflexivity].
      now destruct (truthy date).
    + rewrite H. destruct (Date row) as [date|]; [|reflexivity].
      destruct (truthy date); [|reflexivity].
      now destruct (parse (start (Productivity.dateRange c)) fmtYMD).
    + destruct (Date row) as [date|]; [|reflexivity].
      rewrite (H date eq_refl).
      destruct (truthy date); [|reflexivity].
      destruct (parse (start (Productivity.dateRange c)) fmtYMD);
        [|reflexivity].
      now destruct (parse (end_ (Productivity.dateRange c)) fmtYMD).
Qed.

Lemma date_filter_productivity_witness :
  exists date s e d,
    Date februaryRow = Some date /\ truthy date = true
    /\ DateLib.parse (js "2024-01-01") fmtYMD = Some s
    /\ DateLib.parse (js "2024-01-31") fmtYMD = Some e
    /\ DateLib.parse date fmtMDY = Some d
    /\ (d < s \/ e < d)%Z.
Proof.
  apply (proj1 (date_filter_productivity DateLib.parse januaryCriteria
                  februaryRow eq_refl eq_refl)).
  vm_compute. reflexivity.
Defined.

(* ================================================================== *)
(** ** The modality aggregates of the productivity view *)

Lemma mapSet_absent (k : jsstring) (v : nat) (m : list (jsstring * nat)) :
  mapGet jseqb k m = None -> mapSet jseqb k v m = m ++ [(k, v)].
Proof.
  induction m as [|[k' v'] t IH]; cbn [mapGet mapSet app]; [reflexivity|].
  destruct (jseqb k k'); [discriminate|].
  intro H. now rewrite IH.
Qed.

Lemma bump_sum (k : jsstring) (m : list (jsstring * nat)) :
  sumCounts (countsOf (Productivity.bump k m)) = S (sumCounts (countsOf m)).
Proof.
  unfold Productivity.bump, countsOf.
  destruct (mapGet jseqb k m) as [n|] eqn:E.
  - pose proof (mapSet_sum jseqb (fun n : nat => n) k (n + 1) m E) as H.
    cbn beta in H. lia.
  - rewrite (mapSet_absent k 1 m E), map_app, sumCounts_app.
    unfold sumCounts. cbn. lia.
Qed.

Lemma bump_positive (k : jsstring) (m : list (jsstring * nat)) :
  Forall (fun kv => 1 <= snd kv) m ->
  Forall (fun kv => 1 <= snd kv) (Productivity.bump k m).
Proof.
  intro H. unfold Productivity.bump.
  apply (mapSet_Forall jseqb (fun n => 1 <= n)); [|exact H].
  destruct (mapGet jseqb k m); lia.
Qed.

Lemma modalityCounts_facts (rows : list Row) :
  sumCounts (countsOf (Productivity.modalityCounts rows)) = length rows
  /\ Forall (fun kv => 1 <= snd kv) (Productivity.modalityCounts rows).
Proof.
  unfold Productivity.modalityCounts.
  assert (Hgen : forall (m : list (jsstring * nat)),
             Forall (fun kv => 1 <= snd kv) m ->
             let m' := fold_left
                         (fun m row =>
                            Productivity.bump (orDefault (Mod row) (js "N/A")) m)
                         rows m in
             sumCounts (countsOf m') = sumCounts (countsOf m) + length rows
             /\ Forall (fun kv => 1 <= snd kv) m').
  { induction rows as [|row rows IH]; intros m Hm; cbn [fold_left length].
    - split; [lia | exact Hm].
    - destruct (IH _ (bump_positive (orDefault (Mod row) (js "N/A")) m Hm))
        as [Hsum Hpos].
      split; [|exact Hpos]. rewrite Hsum, bump_sum. lia. }
  destruct (Hgen [] (Forall_nil _)) as [Hsum Hpos].
  split; [exact Hsum | exact Hpos].
Qed.

Lemma sumCounts_bound (l : list nat) (n : nat) :
  In n l -> n <= sumCounts l.
Proof.
  induction l as [|x t IH]; [intros []|].
  unfold sumCounts in *. cbn [fold_right]. intros [->|H]; [lia|].
  specialize (IH H). lia.
Qed.

Lemma sumCounts_perm (l1 l2 : list nat) :
  Permutation l1 l2 -> sumCounts l1 = sumCounts l2.
Proof.
  unfold sumCounts.
  induction 1; cbn [fold_right]; try lia.
Qed.

(** The guard matters: without it an empty filtered set would give NaN. *)
Lemma unguarded_zero_total :
  PrimFloat.is_nan (Productivity.unguardedPercentage 0 0) = true
  /\ Productivity.percentageOf 0 0 = 0%float.
Proof. split; vm_compute; reflexivity. Qed.

(** C9: each modality aggregate carries as its percentage its count
    divided by the grand total of filtered records, times 100, when the
    total is positive, and exactly 0 when the total is 0, where no division
    takes place.  The grand total is the number of filtered records and the
    sum of the counts, each count lying between 1 and the total. *)
Theorem modality_percentage_guarded :
  forall (parse : jsstring -> jsstring -> option Z)
         (c : Productivity.Criteria) (rows : list Row)
         (res : Productivity.Processed),
    Productivity.processData parse c rows = Some res ->
    Productivity.totalStudies res = length (Productivity.filteredRows res)
    /\ sumCounts (List.map Productivity.count (Productivity.modalityData res))
       = Productivity.totalStudies res
    /\ Forall
         (fun a =>
            (0 < Productivity.totalStudies res ->
             Productivity.percentage a
             = (Productivity.toNumber (Productivity.count a)
                / Productivity.toNumber (Productivity.totalStudies res)
                * 100)%float)
            /\ (Productivity.totalStudies res = 0 ->
                Productivity.percentage a = 0%float)
            /\ 1 <= Productivity.count a <= Productivity.totalStudies res)
         (Productivity.modalityData res)
    /\ (forall count, Productivity.percentageOf count 0 = 0%float).
Proof.
  intros parse c rows res. unfold Productivity.processData.
  destruct (Productivity.filterRows parse c rows) as [filtered|];
    [|discriminate].
  intro H. injection H as <-.
  cbn [Productivity.totalStudies Productivity.filteredRows
       Productivity.modalityData].
  destruct (modalityCounts_facts filtered) as [Hsum Hpos].
  split; [reflexivity|]. split; [|split; [|reflexivity]].
  - rewrite (sumCounts_perm _ _
               (Permutation_map Productivity.count
                  (sortBy_perm Productivity.byCountDescending _))).
    rewrite map_map. exact Hsum.
  - apply sortBy_Forall. apply Forall_forall.
    intros a Hin. apply in_map_iff in Hin. destruct Hin as (kv & <- & Hkv).
    cbn [Productivity.toModalityData Productivity.percentage
         Productivity.count].
    unfold Productivity.percentageOf.
    split; [|split].
    + intro Hgt. apply Nat.ltb_lt in Hgt. now rewrite Hgt.
    + intro Hz. now rewrite Hz.
    + rewrite Forall_forall in Hpos. split; [now apply (Hpos kv)|].
      rewrite <- Hsum. apply sumCounts_bound. unfold countsOf.
      now apply (in_map (fun kv => snd kv)).
Qed.

Lemma modality_percentage_guarded_witness :
  exists res,
    Productivity.processData DateLib.parse Productivity.clearFilters
                             scenarioRows = Some res
    /\ Productivity.totalStudies res = 3
    /\ sumCounts (List.map Productivity.count (Productivity.modalityData res))
       = Productivity.totalStudies res.
Proof.
  assert (H : exists res,
             Productivity.processData DateLib.parse Productivity.clearFilters
                                      scenarioRows = Some res
             /\ Productivity.totalStudies res = 3).
  { eexists. split; vm_compute; reflexivity. }
  destruct H as (res & H & Htotal).
  exists res. split; [exact H|]. split; [exact Htotal|].
  exact (proj1 (proj2 (modality_percentage_guarded DateLib.parse
                         Productivity.clearFilters scenarioRows res H))).
Defined.

(* ================================================================== *)
(** ** The predicates of the workflow filter, spelled out *)

Lemma includes_In (xs : list jsstring) (x : jsstring) :
  includes xs x = true <-> In x xs.
Proof.
  unfold includes. rewrite existsb_exists. split.
  - intros (y & Hy & Heq). unfold jseqb in Heq.
    destruct (jsstring_dec x y); [now subst | discriminate].
  - intro H. exists x. split; [exact H|]. unfold jseqb.
    now destruct (jsstring_dec x x).
Qed.

(** A record passes a selection when the selection is empty or holds the
    record's value (for the signer, a non-empty value), and passes the date
    range when a bound is empty or its date lies between the bounds. *)
Lemma entryMatch_iff (c : Workflow.Criteria) (entry : Workflow.EntryDetail) :
  Workflow.entryMatch c entry = true <->
  (Workflow.selectedModalities c = []
   \/ In (Workflow.modality entry) (Workflow.selectedModalities c))
  /\ (Workflow.selectedStatuses c = []
      \/ In (Workflow.status entry) (Workflow.selectedStatuses c))
  /\ (Workflow.selectedSigners c = []
      \/ (Workflow.reportSignedBy entry <> []
          /\ In (Workflow.reportSignedBy entry) (Workflow.selectedSigners c)))
  /\ (start (Workflow.dateRange c) = []
      \/ end_ (Workflow.dateRange c) = []
      \/ (strLe (start (Workflow.dateRange c)) (Workflow.date entry) = true
          /\ strLe (Workflow.date entry) (end_ (Workflow.dateRange c)) = true)).
Proof.
  assert (Hlen : forall l : list jsstring, (length l =? 0) = true <-> l = []).
  { intro l. destruct l; simpl; split; congruence. }
  assert (Htruthy : forall s : jsstring, negb (truthy s) = true <-> s = []).
  { intro s. destruct s; simpl; split; congruence. }
  assert (Htruthy' : forall s : jsstring, truthy s = true <-> s <> []).
  { intro s. destruct s; simpl; split; congruence. }
  unfold Workflow.entryMatch.
  rewrite !andb_true_iff, !orb_true_iff, !andb_true_iff, !Hlen, !Htruthy,
    Htruthy', !includes_In.
  tauto.
Qed.

(* ================================================================== *)
(** ** The end-to-end scenario *)

Example scenario_buckets :
  List.map Workflow.count
           (Workflow.hourlyData
              (Workflow.processTimestamps codeUnitCompare Format24
                                          scenarioRows))
  = repeat 0 9 ++ [2] ++ repeat 0 4 ++ [1] ++ repeat 0 9.
Proof. reflexivity. Qed.

Example scenario_ct_filter :
  let c := {| Workflow.selectedModalities := [js "CT"];
              Workflow.selectedStatuses := [];
              Workflow.selectedSigners := [];
              Workflow.dateRange := mkRange (js "") (js "");
              Workflow.timeRange := mkRange (js "00:00") (js "23:59") |} in
  let view := Workflow.filteredData c
                (Workflow.hourlyData
                   (Workflow.processTimestamps codeUnitCompare Format24
                                               scenarioRows)) in
  option_map (fun r => (Workflow.totalFilteredStudies r,
                        Workflow.peakHourLabel r, Workflow.activeHours r))
             (Workflow.generateSummaryReport Format24 view)
  = Some (2, js "09:00", 2).
Proof. reflexivity. Qed.

Example scenario_productivity :
  option_map
    (fun r => (Productivity.totalStudies r, Productivity.workingDays r,
               List.map (fun s => (Productivity.staffName s,
                                   Productivity.staffTotalStudies s,
                                   Productivity.modalities s))
                        (Productivity.staffModalityData r)))
    (Productivity.processData DateLib.parse Productivity.clearFilters
                              scenarioRows)
  = Some (3, 2, [(js "Dr. A", 2, [(js "CT", Productivity.Count 2)]);
                 (js "Dr. B", 1, [(js "MR", Productivity.Count 1)])]).
Proof. vm_compute. reflexivity. Qed.

Example hour_out_of_range :
  hourOf (js "13:00 PM") = Some 25%Z /\ hourOf (js "99:30") = Some 99%Z
  /\ hourOf (js "noon") = None /\ hourOf (js "123:45 am") = Some 23%Z.
Proof. repeat split. Qed.

(* ================================================================== *)
(** ** Hour labels and the time parser *)

Lemma digit_not_ws (c : N) : isDigit c = true -> isWhiteSpace c = false.
Proof.
  intro H. destruct (isWhiteSpace c) eqn:E; [|reflexivity].
  apply ws_not_digit in E. congruence.
Qed.

Lemma dropWhile_digits (s : jsstring) :
  forallb isDigit s = true -> dropWhile isWhiteSpace s = s.
Proof.
  destruct s as [|c t]; [reflexivity|]. cbn [forallb dropWhile].
  intro H. apply andb_true_iff in H. destruct H as [Hc _].
  now rewrite (digit_not_ws c Hc).
Qed.

Lemma trim_digits (s : jsstring) : forallb isDigit s = true -> trim s = s.
Proof.
  intro H. unfold trim, trimStart, trimEnd.
  rewrite (dropWhile_digits s H), dropWhile_digits, rev_involutive;
    [reflexivity|].
  now rewrite forallb_rev.
Qed.

(** [Number] reads a run of digits as its decimal value. *)
Lemma Number_digits (ds : jsstring) :
  forallb isDigit ds = true -> Number ds = Some (digitsValue ds).
Proof.
  intro H. unfold Number. cbv zeta. rewrite (trim_digits ds H). now rewrite H.
Qed.

Lemma firstField_digits (ds rs : jsstring) :
  forallb isDigit ds = true ->
  Workflow.firstField (ds ++ 58%N :: rs) = Some ds.
Proof.
  unfold Workflow.firstField.
  induction ds as [|c ds IH]; cbn [app splitColon forallb]; intro H.
  - reflexivity.
  - apply andb_true_iff in H. destruct H as [Hc Hds].
    rewrite (digit_not_colon c Hc). specialize (IH Hds).
    destruct (splitColon (ds ++ 58%N :: rs)) as [|f fs]; [discriminate|].
    cbn [hd_error] in *. now injection IH as ->.
Qed.

Lemma hour_labels_check :
  forallb
    (fun h =>
       forallb
         (fun format =>
            let labels := Workflow.formatHour h format in
            match hourOf (Workflow.hour24Label labels),
                  hourOf (Workflow.hour12Label labels),
                  NumberOpt (Workflow.firstField (Workflow.hour24Label labels))
            with
            | Some a, Some b, Some c => ((a =? h) && (b =? h) && (c =? h))%Z
            | _, _, _ => false
            end)
         [Format12; Format24])
    hourKeys = true.
Proof. vm_compute. reflexivity. Qed.

(** X1: both labels [formatHour] builds for an hour 0..23 are read back to
    that hour by the time parser, the 12-hour label through its AM/PM
    marker, and the filter engine recovers the hour from the 24-hour
    label. *)
Theorem hour_labels_parse_back :
  forall (h : Z) (format : TimeFormat),
    (0 <= h <= 23)%Z ->
    let labels := Workflow.formatHour h format in
    hourOf (Workflow.hour24Label labels) = Some h
    /\ hourOf (Workflow.hour12Label labels) = Some h
    /\ NumberOpt (Workflow.firstField (Workflow.hour24Label labels)) = Some h.
Proof.
  intros h format Hh labels.
  pose proof hour_labels_check as H.
  rewrite forallb_forall in H. specialize (H h (hourKeys_in h Hh)).
  rewrite forallb_forall in H. specialize (H format).
  cbv zeta in H. fold labels in H.
  destruct (hourOf (Workflow.hour24Label labels)) as [a|];
    [|discriminate H; destruct format; simpl; auto].
  destruct (hourOf (Workflow.hour12Label labels)) as [b|];
    [|discriminate H; destruct format; simpl; auto].
  destruct (NumberOpt (Workflow.firstField (Workflow.hour24Label labels)))
    as [c|]; [|discriminate H; destruct format; simpl; auto].
  assert (Hin : In format [Format12; Format24])
    by (destruct format; simpl; auto).
  specialize (H Hin). rewrite !andb_true_iff, !Z.eqb_eq in H.
  destruct H as [[-> ->] ->]. auto.
Qed.

Lemma hour_labels_parse_back_witness :
  hourOf (js "01:00 PM") = Some 13%Z.
Proof.
  refine (proj1 (proj2 (hour_labels_parse_back 13 Format12 _))). lia.
Defined.

Lemma hour_label_number (h : Z) (format : TimeFormat) :
  (0 <= h <= 23)%Z ->
  NumberOpt (Workflow.firstField
               (Workflow.hour24Label (Workflow.formatHour h format)))
  = Some h.
Proof.
  intro Hh. pose proof hour_labels_check as H.
  rewrite forallb_forall in H. specialize (H h (hourKeys_in h Hh)).
  rewrite forallb_forall in H.
  assert (Hin : In format [Format12; Format24])
    by (destruct format; simpl; auto).
  specialize (H format Hin). cbv zeta in H.
  destruct (hourOf (Workflow.hour24Label (Workflow.formatHour h format)));
    [|discriminate].
  destruct (hourOf (Workflow.hour12Label (Workflow.formatHour h format)));
    [|discriminate].
  destruct (NumberOpt
              (Workflow.firstField
                 (Workflow.hour24Label (Workflow.formatHour h format))))
    as [n|]; [|discriminate].
  rewrite !andb_true_iff, !Z.eqb_eq in H. destruct H as [_ ->]. reflexivity.
Qed.

(** X2: the workflow filter compares hours only.  For a bucket of hour [h]
    and a time range whose bounds are digits, a colon and anything, the
    bucket is kept exactly when [h] lies between the two hour fields; the
    minutes of the bounds play no part. *)
Theorem time_range_hour_granularity :
  forall (c : Workflow.Criteria) (b : Workflow.HourlyData) (h : Z)
         (format : TimeFormat) (sh sm eh em : jsstring),
    (0 <= h <= 23)%Z ->
    Workflow.hour b = Workflow.hour24Label (Workflow.formatHour h format) ->
    start (Workflow.timeRange c) = sh ++ 58%N :: sm ->
    forallb isDigit sh = true ->
    end_ (Workflow.timeRange c) = eh ++ 58%N :: em ->
    forallb isDigit eh = true ->
    Workflow.timeRangeMatch c b
    = ((digitsValue sh <=? h) && (h <=? digitsValue eh))%Z.
Proof.
  intros c b h format sh sm eh em Hh Hb Hs Hsh He Heh.
  pose proof (hour_label_number h format Hh) as Hnum.
  unfold Workflow.timeRangeMatch. rewrite Hb, Hnum, Hs, He.
  rewrite (firstField_digits sh sm Hsh), (firstField_digits eh em Heh).
  cbn [NumberOpt]. rewrite (Number_digits sh Hsh), (Number_digits eh Heh).
  reflexivity.
Qed.

Lemma time_range_hour_granularity_witness :
  Workflow.timeRangeMatch
    {| Workflow.selectedModalities := []; Workflow.selectedStatuses := [];
       Workflow.selectedSigners := [];
       Workflow.dateRange := mkRange (js "") (js "");
       Workflow.timeRange := mkRange (js "09:30") (js "17:15") |}
    (Workflow.mkHourly (js "09:00") (js "09:00 AM") 0 [])
  = ((digitsValue (js "09") <=? 9) && (9 <=? digitsValue (js "17")))%Z.
Proof.
  apply (time_range_hour_granularity _ _ 9%Z Format24
           (js "09") (js "30") (js "17") (js "15"));
    try reflexivity. lia.
Defined.

(** X3: white space around the time string does not change what the parser
    returns: the workflow page, which trims the field, and the productivity
    page, which does not, read the same hour and minute, and the same
    answer of the time-range test. *)
Theorem parser_ignores_outer_whitespace :
  forall s : jsstring,
    Workflow.extractTimeFromString (trim s)
    = Workflow.extractTimeFromString s
    /\ Productivity.extractTimeFromString (trim s)
       = Productivity.extractTimeFromString s
    /\ (forall start' end',
           Productivity.isTimeInRange (trim s) start' end'
           = Productivity.isTimeInRange s start' end').
Proof.
  intro s.
  assert (Hp : Productivity.extractTimeFromString (trim s)
               = Productivity.extractTimeFromString s).
  { unfold Productivity.extractTimeFromString. now rewrite timeMatch_trim. }
  split; [|split].
  - unfold Workflow.extractTimeFromString. now rewrite timeMatch_trim.
  - exact Hp.
  - intros start' end'. unfold Productivity.isTimeInRange. now rewrite Hp.
Qed.

Lemma timeMatch_sound (s : jsstring)
      (r : jsstring * jsstring * option Period) :
  timeMatch s = Some r -> exists i, matchHere (skipn i s) = Some r.
Proof.
  induction s as [|c t IH]; rewrite timeMatch_unfold.
  - cbn. discriminate.
  - destruct (matchHere (c :: t)) as [r'|] eqn:E.
    + intro H. exists 0. cbn [skipn]. congruence.
    + intro H. destruct (IH H) as [i Hi]. now exists (S i).
Qed.

Lemma digitsValue_bound (ds : jsstring) :
  (length ds = 1 \/ length ds = 2) ->
  forallb isDigit ds = true ->
  (0 <= digitsValue ds <= 99)%Z.
Proof.
  intros Hl Hd. unfold digitsValue.
  destruct ds as [|a [|b [|? ?]]]; cbn [length] in Hl; try lia;
    cbn [forallb fold_left] in *; unfold isDigit in Hd;
    rewrite ?andb_true_iff, ?N.leb_le in Hd; lia.
Qed.

Lemma adjustHour_bound (h : Z) (p : option Period) :
  (0 <= h <= 99)%Z -> (0 <= adjustHour h p <= 111)%Z.
Proof.
  intro H. unfold adjustHour.
  destruct p as [[|]|]; repeat (destruct (_ =? 12)%Z); lia.
Qed.

Lemma timeMatch_bounds (s g1 g2 : jsstring) (g3 : option Period) :
  timeMatch s = Some (g1, g2, g3) ->
  (0 <= digitsValue g1 <= 99)%Z /\ (0 <= digitsValue g2 <= 99)%Z.
Proof.
  intro H. apply timeMatch_sound in H. destruct H as [i H].
  apply matchHere_sound in H.
  destruct H as (rest & _ & Hl & Hd & Hl' & Hm & _).
  split; apply digitsValue_bound; auto.
Qed.

(** X4: whatever the input, a parsed hour lies between 0 and 111 and a
    parsed minute between 0 and 99: the hour is never negative, it exceeds
    23 only by what was written or by the 12 a PM marker adds, and the
    two-digit minute is not checked against 59. *)
Theorem parsed_time_bounds :
  forall s : jsstring,
    (forall ti, Workflow.extractTimeFromString s = Some ti ->
                (0 <= Workflow.tiHour ti <= 111)%Z)
    /\ (forall tm, Productivity.extractTimeFromString s = Some tm ->
                   (0 <= Productivity.hour tm <= 111)%Z
                   /\ (0 <= Productivity.minute tm <= 99)%Z).
Proof.
  intro s. split.
  - intros ti. unfold Workflow.extractTimeFromString.
    destruct (timeMatch s) as [[[g1 g2] g3]|] eqn:E; [|discriminate].
    intro H. injection H as <-. cbn [Workflow.tiHour].
    apply adjustHour_bound. now apply (timeMatch_bounds s g1 g2 g3).
  - intros tm. unfold Productivity.extractTimeFromString.
    destruct (timeMatch s) as [[[g1 g2] g3]|] eqn:E; [|discriminate].
    intro H. injection H as <-.
    cbn [Productivity.hour Productivity.minute].
    destruct (timeMatch_bounds s g1 g2 g3 E) as [H1 H2].
    split; [now apply adjustHour_bound | exact H2].
Qed.

Lemma parsed_time_bounds_witness :
  exists tm,
    Productivity.extractTimeFromString (js "99:99 PM") = Some tm
    /\ (0 <= Productivity.hour tm <= 111)%Z
    /\ (0 <= Productivity.minute tm <= 99)%Z.
Proof.
  eexists. split; [reflexivity|].
  exact (proj2 (parsed_time_bounds (js "99:99 PM")) _ eq_refl).
Defined.

(* ================================================================== *)
(** ** Where the aggregator files each row *)

Lemma mapGet_mapSet (V : Type) (k k' : Z) (v : V) (m : list (Z * V)) :
  mapGet Z.eqb k (mapSet Z.eqb k' v m)
  = if (k =? k')%Z then Some v else mapGet Z.eqb k m.
Proof.
  induction m as [|[k0 v0] t IH]; cbn [mapGet mapSet].
  - reflexivity.
  - destruct (k' =? k0)%Z eqn:E'; cbn [mapGet].
    + apply Z.eqb_eq in E'. subst k0. now destruct (k =? k')%Z.
    + destruct (k =? k0)%Z eqn:E; [|exact IH].
      apply Z.eqb_eq in E. subst k0.
      rewrite Z.eqb_sym in E'. now rewrite E'.
Qed.

(** In a map whose keys are [a], [a+1], ... the key of an index is found
    at that index. *)
Lemma keys_nth (V : Type) (n a i : nat) (m : list (Z * V)) :
  List.map fst m = List.map Z.of_nat (seq a n) ->
  i < n ->
  exists v, nth_error m i = Some (Z.of_nat (a + i), v)
            /\ mapGet Z.eqb (Z.of_nat (a + i)) m = Some v.
Proof.
  revert a i m. induction n as [|n IH]; intros a i m Hm Hi; [lia|].
  destruct m as [|[k v] t]; [discriminate|].
  cbn [seq List.map fst] in Hm. injection Hm as Hk Ht. subst k.
  destruct i as [|i].
  - exists v. rewrite Nat.add_0_r. cbn [nth_error mapGet].
    now rewrite Z.eqb_refl.
  - destruct (IH (S a) i t Ht) as (v' & Hnth & Hget); [lia|].
    replace (S a + i) with (a + S i) in * by lia.
    exists v'. cbn [nth_error mapGet]. split; [exact Hnth|].
    replace (Z.of_nat (a + S i) =? Z.of_nat a)%Z with false; [exact Hget|].
    symmetry. apply Z.eqb_neq. lia.
Qed.

Lemma hourKeys_nth (V : Type) (h : Z) (m : list (Z * V)) :
  List.map fst m = hourKeys ->
  (0 <= h <= 23)%Z ->
  exists v, nth_error m (Z.to_nat h) = Some (h, v)
            /\ mapGet Z.eqb h m = Some v.
Proof.
  intros Hm Hh.
  destruct (keys_nth V 24 0 (Z.to_nat h) m Hm) as (v & Hnth & Hget); [lia|].
  cbn [Nat.add] in *. rewrite Z2Nat.id in * by lia. now exists v.
Qed.

(** One step of the loop on a row that yields a record: the record is
    appended to the slot of the row's hour. *)
Lemma processRow_files (st : Workflow.Ingest) (row : Row) :
  yieldsRecord row = true ->
  List.map fst (Workflow.hourData st) = hourKeys ->
  exists h current,
    rowHour row = Some h
    /\ mapGet Z.eqb h (Workflow.hourData st) = Some current
    /\ Workflow.hourData (Workflow.processRow st row)
       = mapSet Z.eqb h
                {| Workflow.slotCount := S (Workflow.slotCount current);
                   Workflow.slotEntries :=
                     Workflow.slotEntries current ++ [entryDetailOf row] |}
                (Workflow.hourData st).
Proof.
  unfold yieldsRecord, rowHour, entryDetailOf, Workflow.processRow, hourOf.
  destruct (Time row) as [t|]; [|discriminate].
  destruct (Workflow.extractTimeFromString (trim t)) as [ti|];
    [|discriminate].
  cbn [option_map]. intros H Hkeys.
  apply andb_true_iff in H. destruct H as [H H23].
  apply andb_true_iff in H. destruct H as [Htruthy H0].
  rewrite Htruthy. cbn [negb].
  apply Z.leb_le in H0, H23.
  replace ((Workflow.tiHour ti <? 0) || (Workflow.tiHour ti >? 23))%Z
    with false.
  2:{ symmetry. apply orb_false_iff. rewrite Z.ltb_ge, Z.gtb_ltb, Z.ltb_ge.
      lia. }
  destruct (mapGet_present _ (Workflow.tiHour ti) (Workflow.hourData st))
    as [current Hget].
  { rewrite Hkeys. apply hourKeys_in. lia. }
  rewrite Hget. cbn [Workflow.hourData].
  exists (Workflow.tiHour ti), current. auto.
Qed.

Lemma filedUnder_yields (h : Z) (row : Row) :
  yieldsRecord row = false -> filedUnder h row = false.
Proof. unfold filedUnder. now intros ->. Qed.

Lemma processRows_slot (rows : list Row) (st : Workflow.Ingest) (h : Z)
      (v : Workflow.HourSlot) :
  List.map fst (Workflow.hourData st) = hourKeys ->
  mapGet Z.eqb h (Workflow.hourData st) = Some v ->
  exists v',
    mapGet Z.eqb h
           (Workflow.hourData (fold_left Workflow.processRow rows st))
    = Some v'
    /\ Workflow.slotEntries v'
       = Workflow.slotEntries v
         ++ List.map entryDetailOf (filter (filedUnder h) rows)
    /\ Workflow.slotCount v'
       = Workflow.slotCount v + length (filter (filedUnder h) rows).
Proof.
  revert st v. induction rows as [|row rows IH]; intros st v Hk Hget.
  - exists v. cbn. rewrite app_nil_r. split; [exact Hget|]. split; [auto|lia].
  - cbn [fold_left filter].
    destruct (yieldsRecord row) eqn:Ey.
    + destruct (processRow_files st row Ey Hk)
        as (h0 & current & Hhour & Hcur & Hdata).
      assert (Hk' : List.map fst (Workflow.hourData (Workflow.processRow st row))
                    = hourKeys).
      { rewrite Hdata, (mapSet_keys Z.eqb h0 _ _ Hcur). exact Hk. }
      assert (Hf : filedUnder h row = (h0 =? h)%Z)
        by (unfold filedUnder; now rewrite Ey, Hhour).
      rewrite Hf. destruct (h0 =? h)%Z eqn:E.
      * apply Z.eqb_eq in E. subst h0.
        assert (current = v) by congruence. subst current.
        assert (Hget' : mapGet Z.eqb h
                          (Workflow.hourData (Workflow.processRow st row))
                        = Some {| Workflow.slotCount := S (Workflow.slotCount v);
                                  Workflow.slotEntries :=
                                    Workflow.slotEntries v
                                    ++ [entryDetailOf row] |}).
        { rewrite Hdata, mapGet_mapSet, Z.eqb_refl. reflexivity. }
        destruct (IH (Workflow.processRow st row) _ Hk' Hget')
          as (v' & Hv' & He & Hc).
        exists v'. split; [exact Hv'|].
        cbn [Workflow.slotEntries Workflow.slotCount] in He, Hc.
        cbn [List.map length]. rewrite He, Hc, <- app_assoc.
        split; [reflexivity | lia].
      * destruct (IH (Workflow.processRow st row) v Hk') as (v' & Hv' & He & Hc).
        { rewrite Hdata, mapGet_mapSet, Z.eqb_sym, E. exact Hget. }
        exists v'. auto.
    + rewrite (filedUnder_yields h row Ey), (processRow_skip st row Ey).
      now apply IH.
Qed.

(** X5: the bucket at index [h] of the aggregator's output carries the
    labels of hour [h] and holds exactly the records of the rows filed
    under [h]: their entry details, sorted by timestamp from the order of
    the rows, and their number as its count.  A row is filed under the
    hour parsed from its trimmed time. *)
Theorem bucket_holds_rows_of_its_hour :
  forall (localeCompare : jsstring -> jsstring -> Z)
         (timeFormat : TimeFormat) (rows : list Row) (h : Z),
    (0 <= h <= 23)%Z ->
    exists b,
      nth_error (Workflow.hourlyData
                   (Workflow.processTimestamps localeCompare timeFormat rows))
                (Z.to_nat h) = Some b
      /\ Workflow.hour b
         = Workflow.hour24Label (Workflow.formatHour h timeFormat)
      /\ Workflow.hour12 b
         = Workflow.hour12Label (Workflow.formatHour h timeFormat)
      /\ Workflow.entries b
         = sortBy (fun x y => localeCompare (Workflow.timestamp x)
                                            (Workflow.timestamp y))
                  (List.map entryDetailOf (filter (filedUnder h) rows))
      /\ Workflow.count b = length (filter (filedUnder h) rows).
Proof.
  intros localeCompare timeFormat rows h Hh.
  destruct (processRows_inv rows _ initialIngest_inv) as [Hk _ _].
  destruct (hourKeys_nth _ h (Workflow.hourData Workflow.initialIngest)
              eq_refl Hh) as (v0 & Hnth0 & Hget0).
  assert (Hv0 : v0 = Workflow.mkSlot 0 []).
  { apply nth_error_In in Hnth0. unfold Workflow.initialIngest in Hnth0.
    cbn [Workflow.hourData] in Hnth0. apply in_map_iff in Hnth0.
    destruct Hnth0 as (i & Hi & _). congruence. }
  destruct (processRows_slot rows Workflow.initialIngest h v0 eq_refl Hget0)
    as (v & Hget & Hent & Hcount).
  subst v0. cbn [Workflow.slotEntries Workflow.slotCount app Nat.add] in *.
  destruct (hourKeys_nth _ h _ Hk Hh) as (v' & Hnth & Hget').
  assert (v' = v) by congruence. subst v'.
  unfold Workflow.processTimestamps. cbn [Workflow.hourlyData].
  rewrite (sortedData_map localeCompare timeFormat _ Hk).
  eexists. split.
  - rewrite nth_error_map, Hnth. reflexivity.
  - cbn [Workflow.hour Workflow.hour12 Workflow.entries Workflow.count
         fst snd].
    rewrite Hent, Hcount. auto.
Qed.

Lemma bucket_holds_rows_of_its_hour_witness :
  exists b,
    nth_error (Workflow.hourlyData
                 (Workflow.processTimestamps codeUnitCompare Format24
                                             scenarioRows)) 9 = Some b
    /\ Workflow.count b = 2.
Proof.
  destruct (bucket_holds_rows_of_its_hour codeUnitCompare Format24
              scenarioRows 9) as (b & Hb & _ & _ & _ & Hc); [lia|].
  exists b. split; [exact Hb|]. rewrite Hc. reflexivity.
Defined.

(* ================================================================== *)
(** ** The option lists of the workflow page *)

Lemma jseqb_eq (a b : jsstring) : jseqb a b = true <-> a = b.
Proof.
  unfold jseqb. destruct (jsstring_dec a b); split; congruence.
Qed.

Lemma setAdd_In (x y : jsstring) (s : list jsstring) :
  In y (setAdd x s) <-> y = x \/ In y s.
Proof.
  unfold setAdd. destruct (includes s x) eqn:E.
  - apply includes_In in E. split; [auto|]. intros [->|H]; assumption.
  - rewrite in_app_iff. cbn [In]. intuition congruence.
Qed.

Lemma setAdd_NoDup (x : jsstring) (s : list jsstring) :
  NoDup s -> NoDup (setAdd x s).
Proof.
  intro H. unfold setAdd. destruct (includes s x) eqn:E; [exact H|].
  assert (Hx : ~ In x s).
  { intro Hin. apply includes_In in Hin. congruence. }
  apply NoDup_rev in H. rewrite <- (rev_involutive (s ++ [x])).
  apply NoDup_rev. rewrite rev_app_distr. cbn [rev app].
  constructor; [|exact H]. now rewrite <- in_rev.
Qed.

Lemma collected_facts (key : Row -> option jsstring) (rows : list Row) :
  NoDup (collected key rows)
  /\ forall x, In x (collected key rows)
               <-> exists row, In row rows /\ key row = Some x.
Proof.
  unfold collected.
  assert (Hgen : forall s0,
             NoDup s0 ->
             let s := fold_left (fun s row => match key row with
                                              | Some x => setAdd x s
                                              | None => s
                                              end) rows s0 in
             NoDup s
             /\ forall x, In x s
                          <-> In x s0
                              \/ exists row, In row rows /\ key row = Some x).
  { induction rows as [|row rows IH]; intros s0 Hs0; cbn [fold_left].
    - split; [exact Hs0|]. intro x. split; [auto|].
      intros [H|(row & [] & _)]. exact H.
    - destruct (key row) as [k|] eqn:Ek.
      + destruct (IH (setAdd k s0) (setAdd_NoDup k s0 Hs0)) as [Hnd Hin].
        split; [exact Hnd|]. intro x. rewrite Hin, setAdd_In. split.
        * intros [[->|H]|(r & Hr & Hk)]; [right|left|right]; auto.
          -- exists row. split; [now left | exact Ek].
          -- exists r. split; [now right | exact Hk].
        * intros [H|(r & [<-|Hr] & Hk)].
          -- left. now right.
          -- left. left. congruence.
          -- right. now exists r.
      + destruct (IH s0 Hs0) as [Hnd Hin].
        split; [exact Hnd|]. intro x. rewrite Hin. split.
        * intros [H|(r & Hr & Hk)]; [now left|right].
          exists r. split; [now right | exact Hk].
        * intros [H|(r & [<-|Hr] & Hk)]; [now left|congruence|right].
          now exists r. }
  destruct (Hgen [] (NoDup_nil _)) as [Hnd Hin].
  split; [exact Hnd|]. intro x. rewrite Hin. cbn [In]. tauto.
Qed.

Lemma processRow_sets (st : Workflow.Ingest) (row : Row) :
  Workflow.modalities (Workflow.processRow st row)
  = match modalityKey row with
    | Some x => setAdd x (Workflow.modalities st)
    | None => Workflow.modalities st
    end
  /\ Workflow.statuses (Workflow.processRow st row)
     = match statusKey row with
       | Some x => setAdd x (Workflow.statuses st)
       | None => Workflow.statuses st
       end
  /\ Workflow.signers (Workflow.processRow st row)
     = match signerKey row with
       | Some x => setAdd x (Workflow.signers st)
       | None => Workflow.signers st
       end.
Proof.
  unfold modalityKey, statusKey, signerKey.
  destruct (yieldsRecord row) eqn:Ey.
  - revert Ey. unfold yieldsRecord, Workflow.processRow, hourOf.
    destruct (Time row) as [t|]; [|discriminate].
    destruct (Workflow.extractTimeFromString (trim t)) as [ti|];
      [|discriminate].
    cbn [option_map]. intro H.
    apply andb_true_iff in H. destruct H as [H H23].
    apply andb_true_iff in H. destruct H as [Htruthy H0].
    rewrite Htruthy. cbn [negb andb].
    apply Z.leb_le in H0, H23.
    replace ((Workflow.tiHour ti <? 0) || (Workflow.tiHour ti >? 23))%Z
      with false.
    2:{ symmetry. apply orb_false_iff. rewrite Z.ltb_ge, Z.gtb_ltb, Z.ltb_ge.
        lia. }
    destruct (mapGet Z.eqb (Workflow.tiHour ti) (Workflow.hourData st));
      cbn [Workflow.modalities Workflow.statuses Workflow.signers];
      destruct (truthy (orDefault (ReportSignedBy row) (js ""))); auto.
  - rewrite (processRow_skip st row Ey). cbn [andb]. auto.
Qed.

Lemma processRows_sets (rows : list Row) :
  let st := fold_left Workflow.processRow rows Workflow.initialIngest in
  Workflow.modalities st = collected modalityKey rows
  /\ Workflow.statuses st = collected statusKey rows
  /\ Workflow.signers st = collected signerKey rows.
Proof.
  unfold collected.
  assert (Hgen : forall st0,
             let st := fold_left Workflow.processRow rows st0 in
             Workflow.modalities st
             = fold_left (fun s row => match modalityKey row with
                                       | Some x => setAdd x s
                                       | None => s
                                       end) rows (Workflow.modalities st0)
             /\ Workflow.statuses st
                = fold_left (fun s row => match statusKey row with
                                          | Some x => setAdd x s
                                          | None => s
                                          end) rows (Workflow.statuses st0)
             /\ Workflow.signers st
                = fold_left (fun s row => match signerKey row with
                                          | Some x => setAdd x s
                                          | None => s
                                          end) rows (Workflow.signers st0)).
  { induction rows as [|row rows IH]; intro st0; cbn [fold_left]; [auto|].
    destruct (processRow_sets st0 row) as (Hm & Hs & Hg).
    destruct (IH (Workflow.processRow st0 row)) as (IHm & IHs & IHg).
    cbv zeta in *. rewrite IHm, IHs, IHg, Hm, Hs, Hg. auto. }
  exact (Hgen Workflow.initialIngest).
Qed.

Lemma strLe_total (a b : jsstring) : strLe a b = false -> strLe b a = true.
Proof.
  revert b. induction a as [|x a IH]; intros [|y b]; cbn [strLe];
    try discriminate; try reflexivity.
  destruct (x <? y)%N eqn:Exy; [discriminate|].
  destruct (y <? x)%N eqn:Eyx; [reflexivity|]. apply IH.
Qed.

Lemma codeUnitCompare_total (a b : jsstring) :
  (0 < codeUnitCompare a b)%Z -> (codeUnitCompare b a <= 0)%Z.
Proof.
  unfold codeUnitCompare.
  destruct (jseqb a b) eqn:E; [lia|].
  destruct (strLe a b) eqn:L; [lia|]. intros _.
  rewrite (strLe_total a b L). destruct (jseqb b a); lia.
Qed.

(** With a comparator that never calls both orders wrong, sorting leaves
    each element not greater than its successor. *)
Lemma sortBy_sorted (A : Type) (cmp : A -> A -> Z) (l : list A) :
  (forall a b, (0 < cmp a b)%Z -> (cmp b a <= 0)%Z) ->
  Ascending cmp (sortBy cmp l).
Proof.
  intro Htotal.
  assert (Hins : forall x l', Ascending cmp l' ->
                              Ascending cmp (sortInsert cmp x l')).
  { intros x l' Hl'. induction Hl' as [|y|y z t Hyz Hasc IH];
      cbn [sortInsert].
    - constructor.
    - destruct (cmp x y <=? 0)%Z eqn:E.
      + constructor; [now apply Z.leb_le | constructor].
      + constructor; [|constructor]. apply Htotal. apply Z.leb_gt in E. lia.
    - destruct (cmp x y <=? 0)%Z eqn:E.
      + constructor; [now apply Z.leb_le|]. now constructor.
      + cbn [sortInsert] in IH. destruct (cmp x z <=? 0)%Z eqn:E'.
        * constructor; [|exact IH]. apply Htotal. apply Z.leb_gt in E. lia.
        * constructor; [exact Hyz | exact IH]. }
  induction l as [|x t IH]; cbn [sortBy]; [constructor|].
  now apply Hins.
Qed.

Lemma sortedStrings_facts (s : list jsstring) :
  NoDup s ->
  NoDup (sortedStrings s)
  /\ Ascending codeUnitCompare (sortedStrings s)
  /\ forall x, In x (sortedStrings s) <-> In x s.
Proof.
  intro H. unfold sortedStrings.
  pose proof (sortBy_perm codeUnitCompare s) as Hperm.
  split; [|split].
  - eapply Permutation_NoDup; [apply Permutation_sym, Hperm | exact H].
  - apply sortBy_sorted. exact codeUnitCompare_total.
  - intro x. split; intro Hin.
    + eapply Permutation_in; [exact Hperm | exact Hin].
    + eapply Permutation_in; [apply Permutation_sym, Hperm | exact Hin].
Qed.

(** X6: the option lists of the workflow page hold exactly the values of
    the rows that yield a record: the modality and the status with their
    "N/A" default, and the signer only when it is not empty, so that no
    empty string is ever offered as a signer.  Each list is free of
    duplicates and in ascending code-unit order. *)
Theorem workflow_options_exact :
  forall (localeCompare : jsstring -> jsstring -> Z)
         (timeFormat : TimeFormat) (rows : list Row),
    let r := Workflow.processTimestamps localeCompare timeFormat rows in
    (forall x, In x (Workflow.availableModalities r)
               <-> exists row, In row rows /\ yieldsRecord row = true
                               /\ orDefault (Mod row) (js "N/A") = x)
    /\ (forall x, In x (Workflow.availableStatuses r)
                  <-> exists row, In row rows /\ yieldsRecord row = true
                                  /\ orDefault (Status row) (js "N/A") = x)
    /\ (forall x, In x (Workflow.availableSigners r)
                  <-> x <> []
                      /\ exists row, In row rows /\ yieldsRecord row = true
                                     /\ orDefault (ReportSignedBy row) (js "")
                                        = x)
    /\ (NoDup (Workflow.availableModalities r)
        /\ NoDup (Workflow.availableStatuses r)
        /\ NoDup (Workflow.availableSigners r))
    /\ (Ascending codeUnitCompare (Workflow.availableModalities r)
        /\ Ascending codeUnitCompare (Workflow.availableStatuses r)
        /\ Ascending codeUnitCompare (Workflow.availableSigners r)).
Proof.
  intros localeCompare timeFormat rows r.
  destruct (processRows_sets rows) as (Hm & Hs & Hg).
  unfold r, Workflow.processTimestamps.
  cbn [Workflow.availableModalities Workflow.availableStatuses
       Workflow.availableSigners].
  cbv zeta in Hm, Hs, Hg. rewrite Hm, Hs, Hg.
  destruct (collected_facts modalityKey rows) as [Nm Im].
  destruct (collected_facts statusKey rows) as [Ns Is].
  destruct (collected_facts signerKey rows) as [Ng Ig].
  destruct (sortedStrings_facts _ Nm) as (Nm' & Am & Im').
  destruct (sortedStrings_facts _ Ns) as (Ns' & As' & Is').
  destruct (sortedStrings_facts _ Ng) as (Ng' & Ag & Ig').
  repeat split; try assumption.
  - rewrite Im', Im. intros (row & Hin & Hk). exists row.
    unfold modalityKey in Hk. destruct (yieldsRecord row); [|discriminate].
    injection Hk as <-. auto.
  - rewrite Im', Im. intros (row & Hin & Hy & <-). exists row.
    unfold modalityKey. now rewrite Hy.
  - rewrite Is', Is. intros (row & Hin & Hk). exists row.
    unfold statusKey in Hk. destruct (yieldsRecord row); [|discriminate].
    injection Hk as <-. auto.
  - rewrite Is', Is. intros (row & Hin & Hy & <-). exists row.
    unfold statusKey. now rewrite Hy.
  - apply Ig', Ig in H. destruct H as (row & Hin & Hk).
    unfold signerKey in Hk.
    destruct (yieldsRecord row); [|discriminate]. cbn [andb] in Hk.
    destruct (truthy (orDefault (ReportSignedBy row) (js ""))) eqn:Et;
      [|discriminate].
    injection Hk as <-. intro Hx. rewrite Hx in Et. discriminate.
  - apply Ig', Ig in H. destruct H as (row & Hin & Hk). exists row.
    unfold signerKey in Hk.
    destruct (yieldsRecord row); [|discriminate]. cbn [andb] in Hk.
    destruct (truthy (orDefault (ReportSignedBy row) (js "")));
      [|discriminate].
    injection Hk as <-. auto.
  - intros (Hx & row & Hin & Hy & <-). apply Ig', Ig. exists row.
    split; [exact Hin|]. unfold signerKey. rewrite Hy. cbn [andb].
    destruct (orDefault (ReportSignedBy row) (js "")); [congruence|].
    reflexivity.
Qed.

(* ================================================================== *)
(** ** Selections *)

Lemma filter_neq_In (value y : jsstring) (prev : list jsstring) :
  In y (filter (fun item => negb (jseqb item value)) prev)
  <-> In y prev /\ y <> value.
Proof.
  rewrite filter_In. split; intros [H1 H2]; split; try exact H1.
  - intro Heq. apply jseqb_eq in Heq. rewrite Heq in H2. discriminate.
  - destruct (jseqb y value) eqn:E; [|reflexivity].
    apply jseqb_eq in E. contradiction.
Qed.

(** X7: ticking a filter check box and then clearing it gives back the
    selection it started from, when the value was not selected before (the
    box is drawn ticked exactly when the value is selected).  Clearing a
    box removes the value and nothing else; ticking adds it and nothing
    else; and a selection without duplicates stays so. *)
Theorem toggle_selection_round_trip :
  forall (value : jsstring) (prev : list jsstring),
    (~ In value prev ->
     toggleSelection false value (toggleSelection true value prev) = prev)
    /\ (NoDup prev -> ~ In value prev ->
        NoDup (toggleSelection true value prev))
    /\ (NoDup prev -> NoDup (toggleSelection false value prev))
    /\ includes (toggleSelection true value prev) value = true
    /\ includes (toggleSelection false value prev) value = false
    /\ (forall y, y <> value ->
                  (In y (toggleSelection true value prev) <-> In y prev)
                  /\ (In y (toggleSelection false value prev) <-> In y prev)).
Proof.
  intros value prev.
  split; [|split; [|split; [|split; [|split]]]].
  - intro Hnot. unfold toggleSelection. rewrite filter_app. cbn [filter].
    replace (jseqb value value) with true
      by (symmetry; now apply jseqb_eq).
    cbn [negb]. rewrite app_nil_r. apply filter_all.
    intros x Hx. destruct (jseqb x value) eqn:E; [|reflexivity].
    apply jseqb_eq in E. subst x. contradiction.
  - intros Hnd Hnot. unfold toggleSelection. apply NoDup_rev in Hnd.
    rewrite <- (rev_involutive (prev ++ [value])). apply NoDup_rev.
    rewrite rev_app_distr. cbn [rev app]. constructor; [|exact Hnd].
    now rewrite <- in_rev.
  - intro Hnd. unfold toggleSelection. now apply NoDup_filter.
  - apply includes_In. unfold toggleSelection. apply in_or_app.
    right. now left.
  - destruct (includes (toggleSelection false value prev) value) eqn:E;
      [|reflexivity].
    apply includes_In in E. unfold toggleSelection in E.
    apply filter_neq_In in E. destruct E as [_ E]. congruence.
  - intros y Hy. unfold toggleSelection. split.
    + rewrite in_app_iff. cbn [In]. intuition congruence.
    + rewrite filter_neq_In. tauto.
Qed.

Lemma toggle_selection_round_trip_witness :
  toggleSelection false (js "MR")
                  (toggleSelection true (js "MR") [js "CT"; js "US"])
  = [js "CT"; js "US"].
Proof.
  apply (proj1 (toggle_selection_round_trip (js "MR") [js "CT"; js "US"])).
  intros [H|[H|[]]]; discriminate H.
Defined.

Lemma available_signers_nonempty (localeCompare : jsstring -> jsstring -> Z)
      (timeFormat : TimeFormat) (rows : list Row) (x : jsstring) :
  In x (Workflow.availableSigners
          (Workflow.processTimestamps localeCompare timeFormat rows)) ->
  x <> [].
Proof.
  destruct (processRows_sets rows) as (_ & _ & Hg). cbv zeta in Hg.
  unfold Workflow.processTimestamps. cbn [Workflow.availableSigners].
  rewrite Hg. destruct (collected_facts signerKey rows) as [Ng Ig].
  destruct (sortedStrings_facts _ Ng) as (_ & _ & Ig').
  intro H. apply Ig', Ig in H. destruct H as (row & _ & Hk).
  unfold signerKey in Hk.
  destruct (yieldsRecord row && truthy (orDefault (ReportSignedBy row) (js "")))
    eqn:E; [|discriminate].
  injection Hk as <-. apply andb_true_iff in E. destruct E as [_ E].
  intro Hx. rewrite Hx in E. discriminate.
Qed.

(** X8: when the selected signers are among the signers the page offers,
    the guard on an empty signer in the filter callback changes nothing: a
    record passes the signer selection exactly when the selection is empty
    or holds the record's signer, as for modality and status. *)
Theorem signer_guard_redundant :
  forall (localeCompare : jsstring -> jsstring -> Z)
         (timeFormat : TimeFormat) (rows : list Row)
         (c : Workflow.Criteria) (entry : Workflow.EntryDetail),
    incl (Workflow.selectedSigners c)
         (Workflow.availableSigners
            (Workflow.processTimestamps localeCompare timeFormat rows)) ->
    (Workflow.entryMatch c entry = true <->
     (Workflow.selectedModalities c = []
      \/ In (Workflow.modality entry) (Workflow.selectedModalities c))
     /\ (Workflow.selectedStatuses c = []
         \/ In (Workflow.status entry) (Workflow.selectedStatuses c))
     /\ (Workflow.selectedSigners c = []
         \/ In (Workflow.reportSignedBy entry) (Workflow.selectedSigners c))
     /\ (start (Workflow.dateRange c) = []
         \/ end_ (Workflow.dateRange c) = []
         \/ (strLe (start (Workflow.dateRange c)) (Workflow.date entry) = true
             /\ strLe (Workflow.date entry) (end_ (Workflow.dateRange c))
                = true))).
Proof.
  intros localeCompare timeFormat rows c entry Hincl.
  rewrite entryMatch_iff.
  assert (Hne : In (Workflow.reportSignedBy entry) (Workflow.selectedSigners c)
                -> Workflow.reportSignedBy entry <> []).
  { intro H. apply Hincl in H.
    now apply available_signers_nonempty in H. }
  tauto.
Qed.

Lemma signer_guard_redundant_witness :
  Workflow.entryMatch
    {| Workflow.selectedModalities := []; Workflow.selectedStatuses := [];
       Workflow.selectedSigners := [js "Dr. A"];
       Workflow.dateRange := mkRange (js "") (js "");
       Workflow.timeRange := mkRange (js "00:00") (js "23:59") |}
    sampleEntry = true.
Proof.
  apply (signer_guard_redundant codeUnitCompare Format24 scenarioRows).
  - intros x [<-|[]]. vm_compute. auto.
  - cbn. repeat split; auto.
Defined.

(* ================================================================== *)
(** ** Composing filters *)

Lemma filter_filter_comm (A : Type) (p q : A -> bool) (l : list A) :
  filter p (filter q l) = filter q (filter p l).
Proof.
  induction l as [|x t IH]; [reflexivity|]. cbn [filter].
  destruct (q x) eqn:Eq, (p x) eqn:Ep; cbn [filter];
    rewrite ?Eq, ?Ep, IH; reflexivity.
Qed.

Lemma filter_filter_idem (A : Type) (p : A -> bool) (l : list A) :
  filter p (filter p l) = filter p l.
Proof.
  induction l as [|x t IH]; [reflexivity|]. cbn [filter].
  destruct (p x) eqn:Ep; cbn [filter]; rewrite ?Ep, IH; reflexivity.
Qed.

Lemma timeRangeMatch_filtered (c c' : Workflow.Criteria)
      (b : Workflow.HourlyData) :
  Workflow.timeRangeMatch c (Workflow.filterBucket c' b)
  = Workflow.timeRangeMatch c b.
Proof.
  unfold Workflow.timeRangeMatch, Workflow.filterBucket.
  destruct (negb _); reflexivity.
Qed.

Lemma filterBucket_comm (c1 c2 : Workflow.Criteria) (b : Workflow.HourlyData) :
  Workflow.filterBucket c1 (Workflow.filterBucket c2 b)
  = Workflow.filterBucket c2 (Workflow.filterBucket c1 b).
Proof.
  unfold Workflow.filterBucket at 1 3.
  rewrite !timeRangeMatch_filtered.
  unfold Workflow.filterBucket.
  destruct (Workflow.timeRangeMatch c1 b), (Workflow.timeRangeMatch c2 b);
    cbn [negb Workflow.hour Workflow.hour12 Workflow.entries filter length];
    try reflexivity.
  now rewrite filter_filter_comm.
Qed.

Lemma filterBucket_idem (c : Workflow.Criteria) (b : Workflow.HourlyData) :
  Workflow.filterBucket c (Workflow.filterBucket c b)
  = Workflow.filterBucket c b.
Proof.
  unfold Workflow.filterBucket at 1.
  rewrite timeRangeMatch_filtered.
  unfold Workflow.filterBucket.
  destruct (Workflow.timeRangeMatch c b);
    cbn [negb Workflow.hour Workflow.hour12 Workflow.entries filter length];
    try reflexivity.
  now rewrite filter_filter_idem.
Qed.

(** X9: the filter engine can be applied in any order and any number of
    times: filtering a filtered view again with the same criteria changes
    nothing, and two criteria applied one after the other give the same
    view in either order. *)
Theorem filters_commute :
  forall (c1 c2 : Workflow.Criteria) (data : list Workflow.HourlyData),
    Workflow.filteredData c1 (Workflow.filteredData c1 data)
    = Workflow.filteredData c1 data
    /\ Workflow.filteredData c1 (Workflow.filteredData c2 data)
       = Workflow.filteredData c2 (Workflow.filteredData c1 data).
Proof.
  intros c1 c2 data. unfold Workflow.filteredData. rewrite !map_map.
  split; apply map_ext; intro b;
    [apply filterBucket_idem | apply filterBucket_comm].
Qed.

(* ================================================================== *)
(** ** The overview of the summary report *)

Lemma fold_left_sum (data : list Workflow.HourlyData) (acc : nat) :
  fold_left (fun sum curr => sum + Workflow.count curr) data acc
  = acc + sumCounts (List.map Workflow.count data).
Proof.
  revert acc. induction data as [|b data IH]; intro acc; cbn [fold_left].
  - unfold sumCounts. cbn. lia.
  - rewrite IH. unfold sumCounts. cbn [List.map fold_right]. lia.
Qed.

Lemma active_hours_bound (data : list Workflow.HourlyData) :
  length (filter (fun d => 0 <? Workflow.count d) data)
  <= sumCounts (List.map Workflow.count data)
  /\ length (filter (fun d => 0 <? Workflow.count d) data) <= length data
  /\ (length (filter (fun d => 0 <? Workflow.count d) data) = 0
      <-> sumCounts (List.map Workflow.count data) = 0).
Proof.
  unfold sumCounts.
  induction data as [|b data (IH1 & IH2 & IH3)];
    cbn [filter List.map fold_right length]; [lia|].
  destruct (0 <? Workflow.count b) eqn:E.
  - apply Nat.ltb_lt in E. cbn [length]. lia.
  - apply Nat.ltb_ge in E. lia.
Qed.

(** X10: a summary report is produced for every non-empty bucket list and
    for no other; its total is the sum of the counts; the number of active
    hours exceeds neither the number of buckets nor the total; the peak
    count does not exceed the total; and the total, the peak count and the
    number of active hours are zero together. *)
Theorem summary_overview_consistent :
  forall (timeFormat : TimeFormat) (data : list Workflow.HourlyData),
    (Workflow.generateSummaryReport timeFormat data = None <-> data = [])
    /\ forall report,
        Workflow.generateSummaryReport timeFormat data = Some report ->
        Workflow.totalFilteredStudies report
        = sumCounts (List.map Workflow.count data)
        /\ Workflow.activeHours report <= length data
        /\ Workflow.activeHours report <= Workflow.totalFilteredStudies report
        /\ Workflow.peakHourCount report
           <= Workflow.totalFilteredStudies report
        /\ (Workflow.totalFilteredStudies report = 0
            <-> Workflow.peakHourCount report = 0)
        /\ (Workflow.totalFilteredStudies report = 0
            <-> Workflow.activeHours report = 0).
Proof.
  intros timeFormat data. unfold Workflow.generateSummaryReport.
  destruct data as [|b rest].
  - cbn. split; [tauto | discriminate].
  - cbn [length Nat.eqb].
    destruct (reduce_keepMax b rest) as (p & -> & (i & Hi & _ & Hall)).
    split; [split; discriminate|].
    remember (b :: rest) as data eqn:Hdata.
    intros report H. injection H as <-.
    cbn [Workflow.totalFilteredStudies Workflow.activeHours
         Workflow.peakHourCount].
    rewrite fold_left_sum. cbn [Nat.add].
    destruct (active_hours_bound data) as (A1 & A2 & A3).
    apply nth_error_In in Hi.
    assert (Hp : Workflow.count p
                 <= sumCounts (List.map Workflow.count data)).
    { apply sumCounts_bound. now apply in_map. }
    assert (Hz : Workflow.count p = 0 ->
                 sumCounts (List.map Workflow.count data) = 0).
    { intro H0. clear - Hall H0. unfold sumCounts.
      induction data as [|x l IH]; [reflexivity|].
      cbn [List.map fold_right].
      pose proof (Hall x (or_introl eq_refl)).
      rewrite IH; [lia|]. intros y Hy. apply Hall. now right. }
    assert (Hlen : length data = S (length rest)) by (now subst data).
    repeat split; try lia; tauto.
Qed.

Lemma summary_overview_consistent_witness :
  exists report,
    Workflow.generateSummaryReport Format24 emptiedView = Some report
    /\ Workflow.peakHourCount report = 0
    /\ Workflow.totalFilteredStudies report = 0.
Proof.
  assert (H : exists report,
             Workflow.generateSummaryReport Format24 emptiedView = Some report
             /\ Workflow.peakHourCount report = 0).
  { eexists. split; reflexivity. }
  destruct H as (report & H & Hpeak).
  exists report. split; [exact H|]. split; [exact Hpeak|].
  destruct (proj2 (summary_overview_consistent Format24 emptiedView) report H)
    as (_ & _ & _ & _ & [_ Hback] & _).
  exact (Hback Hpeak).
Defined.

(* ================================================================== *)
(** ** The row filter of the productivity view *)

Lemma splitColon_digits (s : jsstring) :
  forallb isDigit s = true -> splitColon s = [s].
Proof.
  induction s as [|c s IH]; cbn [splitColon forallb]; [reflexivity|].
  intro H. apply andb_true_iff in H. destruct H as [Hc Hs].
  now rewrite (digit_not_colon c Hc), (IH Hs).
Qed.

Lemma splitColon_two (h m : jsstring) :
  forallb isDigit h = true ->
  forallb isDigit m = true ->
  splitColon (h ++ 58%N :: m) = [h; m].
Proof.
  intros Hh Hm. induction h as [|c h IH]; cbn [app splitColon forallb] in *.
  - now rewrite (splitColon_digits m Hm).
  - apply andb_true_iff in Hh. destruct Hh as [Hc Hh].
    now rewrite (digit_not_colon c Hc), (IH Hh).
Qed.

(** X11: the productivity filter compares minutes of the day.  For bounds
    made of an hour field and a minute field of digits, a time passes
    exactly when it parses and its hour times 60 plus its minute lies
    between the two bounds; a time that does not parse never passes.  With
    the default range 00:00 to 23:59 a time passes when it parses to at
    most minute 1439. *)
Theorem time_range_minute_granularity :
  forall (timeStr sh sm eh em : jsstring),
    forallb isDigit sh = true -> forallb isDigit sm = true ->
    forallb isDigit eh = true -> forallb isDigit em = true ->
    Productivity.isTimeInRange timeStr (sh ++ 58%N :: sm) (eh ++ 58%N :: em)
    = match Productivity.extractTimeFromString timeStr with
      | None => false
      | Some tm =>
          let v := (Productivity.hour tm * 60 + Productivity.minute tm)%Z in
          ((digitsValue sh * 60 + digitsValue sm <=? v)
           && (v <=? digitsValue eh * 60 + digitsValue em))%Z
      end.
Proof.
  intros timeStr sh sm eh em Hsh Hsm Heh Hem.
  unfold Productivity.isTimeInRange.
  destruct (Productivity.extractTimeFromString timeStr) as [tm|];
    [|reflexivity].
  rewrite (splitColon_two sh sm Hsh Hsm), (splitColon_two eh em Heh Hem).
  cbn [nth_error NumberOpt].
  rewrite (Number_digits sh Hsh), (Number_digits sm Hsm),
    (Number_digits eh Heh), (Number_digits em Hem).
  reflexivity.
Qed.

Lemma time_range_minute_granularity_witness :
  Productivity.isTimeInRange (js "11:59 PM") (js "00:00") (js "23:59") = true
  /\ Productivity.isTimeInRange (js "23:75") (js "00:00") (js "23:59") = false.
Proof.
  split.
  - exact (time_range_minute_granularity (js "11:59 PM")
             (js "00") (js "00") (js "23") (js "59")
             eq_refl eq_refl eq_refl eq_refl).
  - exact (time_range_minute_granularity (js "23:75")
             (js "00") (js "00") (js "23") (js "59")
             eq_refl eq_refl eq_refl eq_refl).
Defined.

Lemma rowFilter_None (parse : jsstring -> jsstring -> option Z)
      (c : Productivity.Criteria) (row : Row) :
  Productivity.rowFilter parse c row = None
  <-> Time row = None /\ Productivity.dateRangeRejects parse c row = false.
Proof.
  unfold Productivity.rowFilter.
  destruct (Productivity.dateRangeRejects parse c row).
  - split; [discriminate | intros [_ H]; discriminate].
  - destruct (Time row) as [t|]; [|tauto].
    split; [|intros [H _]; discriminate].
    repeat match goal with
           | |- context [if ?b then _ else _] => destruct b
           end; discriminate.
Qed.

Lemma filterRows_None (parse : jsstring -> jsstring -> option Z)
      (c : Productivity.Criteria) (rows : list Row) :
  Productivity.filterRows parse c rows = None
  <-> exists row, In row rows /\ Productivity.rowFilter parse c row = None.
Proof.
  induction rows as [|row rows IH]; cbn [Productivity.filterRows].
  - split; [discriminate | intros (r & [] & _)].
  - destruct (Productivity.rowFilter parse c row) as [keep|] eqn:E.
    + destruct (Productivity.filterRows parse c rows) as [l|].
      * split; [discriminate|]. intros (r & [<-|Hr] & Hn); [congruence|].
        assert (H : Some l = None) by (apply IH; now exists r).
        discriminate H.
      * split; [|reflexivity]. intros _.
        destruct (proj1 IH eq_refl) as (r & Hr & Hn).
        exists r. split; [now right | exact Hn].
    + split; [|reflexivity]. intros _. exists row. split; [now left|exact E].
Qed.

(** X12: the productivity computation is abandoned, leaving the error
    state, exactly when some row that the date filter does not reject has
    no [Time] field; the workflow aggregator merely skips such a row. *)
Theorem productivity_aborts_on_missing_time :
  forall (parse : jsstring -> jsstring -> option Z)
         (c : Productivity.Criteria) (rows : list Row),
    (Productivity.processData parse c rows = None
     <-> exists row, In row rows /\ Time row = None
                     /\ Productivity.dateRangeRejects parse c row = false)
    /\ (forall st row, Time row = None -> Workflow.processRow st row = st).
Proof.
  intros parse c rows. split.
  - unfold Productivity.processData.
    destruct (Productivity.filterRows parse c rows) as [l|] eqn:E.
    + split; [discriminate|]. intros (row & Hin & Ht & Hd).
      assert (H : Productivity.filterRows parse c rows = None).
      { apply filterRows_None. exists row. split; [exact Hin|].
        now apply rowFilter_None. }
      congruence.
    + split; [|reflexivity]. intros _.
      apply filterRows_None in E. destruct E as (row & Hin & Hn).
      apply rowFilter_None in Hn. now exists row.
  - intros st row H. unfold Workflow.processRow. now rewrite H.
Qed.

Lemma productivity_aborts_on_missing_time_witness :
  Productivity.processData DateLib.parse Productivity.clearFilters
    (scenarioRows
       ++ [mkRow (Some (js "01/05/2024")) None None None (Some (js "CT"))
                 None None None None None]) = None.
Proof.
  apply (proj1 (productivity_aborts_on_missing_time DateLib.parse
                  Productivity.clearFilters _)).
  exists (mkRow (Some (js "01/05/2024")) None None None (Some (js "CT"))
                None None None None None).
  split; [|split; reflexivity].
  apply in_or_app. right. now left.
Defined.

Lemma filterRows_Some (parse : jsstring -> jsstring -> option Z)
      (c : Productivity.Criteria) (rows l : list Row) :
  Productivity.filterRows parse c rows = Some l ->
  l = filter (keeps parse c) rows.
Proof.
  revert l. induction rows as [|row rows IH]; intro l;
    cbn [Productivity.filterRows filter].
  - intro H. now injection H as <-.
  - unfold keeps at 1.
    destruct (Productivity.rowFilter parse c row) as [keep|]; [|discriminate].
    destruct (Productivity.filterRows parse c rows) as [l'|]; [|discriminate].
    intro H. injection H as <-. rewrite (IH l' eq_refl).
    now destruct keep.
Qed.

Lemma filterRows_kept (parse : jsstring -> jsstring -> option Z)
      (c : Productivity.Criteria) (l : list Row) :
  (forall row, In row l -> keeps parse c row = true) ->
  Productivity.filterRows parse c l = Some l.
Proof.
  induction l as [|row l IH]; intro H; cbn [Productivity.filterRows];
    [reflexivity|].
  pose proof (H row (or_introl eq_refl)) as Hrow. unfold keeps in Hrow.
  destruct (Productivity.rowFilter parse c row) as [[|]|]; try discriminate.
  rewrite IH; [reflexivity|]. intros r Hr. apply H. now right.
Qed.

(** X13: when the productivity computation succeeds, the filtered rows are
    the rows for which the filter callback returns true, each once and in
    the order of the input, and running the computation again on the
    filtered rows gives the same result. *)
Theorem productivity_filter_stable :
  forall (parse : jsstring -> jsstring -> option Z)
         (c : Productivity.Criteria) (rows : list Row)
         (res : Productivity.Processed),
    Productivity.processData parse c rows = Some res ->
    Productivity.filteredRows res = filter (keeps parse c) rows
    /\ Productivity.totalStudies res = length (filter (keeps parse c) rows)
    /\ Productivity.processData parse c (Productivity.filteredRows res)
       = Some res.
Proof.
  intros parse c rows res. unfold Productivity.processData at 1.
  destruct (Productivity.filterRows parse c rows) as [l|] eqn:E;
    [|discriminate].
  intro H. injection H as <-.
  cbn [Productivity.filteredRows Productivity.totalStudies].
  pose proof (filterRows_Some parse c rows l E) as Hl.
  split; [exact Hl|]. split; [now rewrite Hl|].
  unfold Productivity.processData.
  rewrite (filterRows_kept parse c l); [reflexivity|].
  intros row Hin. rewrite Hl in Hin. apply filter_In in Hin. tauto.
Qed.

Lemma productivity_filter_stable_witness :
  exists res,
    Productivity.processData DateLib.parse januaryCriteria
                             (februaryRow :: scenarioRows) = Some res
    /\ Productivity.processData DateLib.parse januaryCriteria
                                (Productivity.filteredRows res) = Some res.
Proof.
  assert (H : exists res,
             Productivity.processData DateLib.parse januaryCriteria
                                      (februaryRow :: scenarioRows)
             = Some res).
  { eexists. vm_compute. reflexivity. }
  destruct H as (res & H). exists res. split; [exact H|].
  exact (proj2 (proj2 (productivity_filter_stable DateLib.parse
                         januaryCriteria (februaryRow :: scenarioRows)
                         res H))).
Defined.

(* ================================================================== *)
(** ** The two views on the same rows *)

Lemma keeps_clear (parse : jsstring -> jsstring -> option Z) (row : Row) :
  keeps parse Productivity.clearFilters row = withinDay row.
Proof.
  unfold keeps, withinDay, Productivity.rowFilter,
    Productivity.dateRangeRejects.
  cbn [Productivity.clearFilters Productivity.dateRange
       Productivity.timeRange Productivity.selectedModalities
       Productivity.selectedStatuses Productivity.selectedRadiologists
       start end_].
  assert (Hdate : match Date row with
                  | Some date =>
                      if truthy (js "") && truthy (js "") && truthy date
                      then
                        match parse (js "") fmtYMD, parse (js "") fmtYMD,
                              parse date fmtMDY with
                        | Some s, Some e, Some d => ((d <? s) || (e <? d))%Z
                        | _, _, _ => false
                        end
                      else false
                  | None => false
                  end = false).
  { destruct (Date row); reflexivity. }
  rewrite Hdate. destruct (Time row) as [t|]; [|reflexivity].
  unfold Productivity.isTimeInRange.
  destruct (Productivity.extractTimeFromString t) as [tm|] eqn:E;
    [|reflexivity].
  assert (Hb : (0 <= Productivity.hour tm)%Z /\ (0 <= Productivity.minute tm)%Z).
  { revert E. unfold Productivity.extractTimeFromString.
    destruct (timeMatch t) as [[[g1 g2] g3]|] eqn:Em; [|discriminate].
    intro H. injection H as <-.
    destruct (timeMatch_bounds t g1 g2 g3 Em) as [H1 H2].
    cbn [Productivity.hour Productivity.minute].
    pose proof (adjustHour_bound (digitsValue g1) g3 H1). unfold parseInt.
    lia. }
  change (splitColon (js "00:00")) with [js "00"; js "00"].
  change (splitColon (js "23:59")) with [js "23"; js "59"].
  cbn [nth_error NumberOpt].
  change (Number (js "00")) with (Some 0%Z).
  change (Number (js "23")) with (Some 23%Z).
  change (Number (js "59")) with (Some 59%Z).
  cbn [minutesOf numGe numLe length Nat.ltb Nat.leb andb negb].
  change (23 * 60 + 59)%Z with 1439%Z. change (0 * 60 + 0)%Z with 0%Z.
  replace (0 <=? Productivity.hour tm * 60 + Productivity.minute tm)%Z
    with true by (symmetry; apply Z.leb_le; lia).
  cbn [andb].
  now destruct (Productivity.hour tm * 60 + Productivity.minute tm <=? 1439)%Z.
Qed.

Lemma withinDay_yields (row : Row) :
  withinDay row = true -> yieldsRecord row = true.
Proof.
  unfold withinDay, yieldsRecord.
  destruct (Time row) as [t|]; [|discriminate].
  rewrite hourOf_trim, <- productivity_hour.
  pose proof (timeMatch_trim t) as Htrim.
  unfold Productivity.extractTimeFromString.
  destruct (timeMatch t) as [[[g1 g2] g3]|] eqn:Em; [|discriminate].
  cbn [option_map Productivity.hour Productivity.minute]. intro H.
  destruct (timeMatch_bounds t g1 g2 g3 Em) as [H1 H2].
  pose proof (adjustHour_bound (digitsValue g1) g3 H1) as H3.
  unfold parseInt in *. apply Z.leb_le in H.
  assert (Htruthy : truthy (trim t) = true).
  { destruct (trim t); [discriminate Htrim | reflexivity]. }
  rewrite Htruthy. cbn [andb]. apply andb_true_iff.
  rewrite !Z.leb_le. lia.
Qed.

Lemma filter_length_le (A : Type) (p q : A -> bool) (l : list A) :
  (forall x, p x = true -> q x = true) ->
  length (filter p l) <= length (filter q l).
Proof.
  intro H. induction l as [|x t IH]; cbn [filter]; [lia|].
  destruct (p x) eqn:Ep.
  - rewrite (H x Ep). cbn [length]. lia.
  - destruct (q x); cbn [length]; lia.
Qed.

(** X14: with the filters cleared, the productivity view keeps the rows
    whose time parses to at most minute 1439 of the day.  Each of them is a
    row the workflow aggregator turns into a record, so the productivity
    total never exceeds the workflow total on the same rows; a time such as
    23:75 is counted by the workflow view only. *)
Theorem productivity_within_workflow :
  forall (parse : jsstring -> jsstring -> option Z)
         (localeCompare : jsstring -> jsstring -> Z)
         (timeFormat : TimeFormat) (rows : list Row)
         (res : Productivity.Processed),
    Productivity.processData parse Productivity.clearFilters rows = Some res ->
    Productivity.filteredRows res = filter withinDay rows
    /\ (forall row, In row (Productivity.filteredRows res) ->
                    yieldsRecord row = true)
    /\ Productivity.totalStudies res
       <= Workflow.totalEntries
            (Workflow.processTimestamps localeCompare timeFormat rows).
Proof.
  intros parse localeCompare timeFormat rows res.
  unfold Productivity.processData.
  destruct (Productivity.filterRows parse Productivity.clearFilters rows)
    as [l|] eqn:E; [|discriminate].
  intro H. injection H as <-.
  cbn [Productivity.filteredRows Productivity.totalStudies].
  apply filterRows_Some in E.
  assert (Hl : l = filter withinDay rows).
  { rewrite E. apply filter_ext. intro row. apply keeps_clear. }
  split; [exact Hl|]. split.
  - intros row Hin. rewrite Hl in Hin. apply filter_In in Hin.
    now apply withinDay_yields.
  - unfold Workflow.processTimestamps. cbn [Workflow.totalEntries].
    rewrite (processRows_valid rows Workflow.initialIngest eq_refl).
    cbn [Workflow.validEntries Workflow.initialIngest Nat.add].
    rewrite Hl. apply filter_length_le. exact withinDay_yields.
Qed.

Lemma productivity_within_workflow_witness :
  exists res,
    Productivity.processData DateLib.parse Productivity.clearFilters
      (sampleRow "01/04/2024" "23:75" "CT" "Final" "Dr. A" :: scenarioRows)
    = Some res
    /\ Productivity.totalStudies res = 3
    /\ Workflow.totalEntries
         (Workflow.processTimestamps codeUnitCompare Format24
            (sampleRow "01/04/2024" "23:75" "CT" "Final" "Dr. A"
                       :: scenarioRows)) = 4
    /\ Productivity.totalStudies res
       <= Workflow.totalEntries
            (Workflow.processTimestamps codeUnitCompare Format24
               (sampleRow "01/04/2024" "23:75" "CT" "Final" "Dr. A"
                          :: scenarioRows)).
Proof.
  assert (H : exists res,
             Productivity.processData DateLib.parse Productivity.clearFilters
               (sampleRow "01/04/2024" "23:75" "CT" "Final" "Dr. A"
                          :: scenarioRows) = Some res
             /\ Productivity.totalStudies res = 3).
  { eexists. split; vm_compute; reflexivity. }
  destruct H as (res & H & Ht). exists res.
  split; [exact H|]. split; [exact Ht|]. split; [reflexivity|].
  exact (proj2 (proj2 (productivity_within_workflow DateLib.parse
                         codeUnitCompare Format24 _ res H))).
Defined.

(* ================================================================== *)
(** ** Maps keyed by strings *)

Lemma jseqb_refl (a : jsstring) : jseqb a a = true.
Proof. now apply jseqb_eq. Qed.

Lemma jseqb_sym (a b : jsstring) : jseqb a b = jseqb b a.
Proof.
  destruct (jseqb a b) eqn:E, (jseqb b a) eqn:E'; try reflexivity.
  - apply jseqb_eq in E. subst. now rewrite jseqb_refl in E'.
  - apply jseqb_eq in E'. subst. now rewrite jseqb_refl in E.
Qed.

Section StringMaps.
Variable V : Type.

Lemma strGet_set (k k' : jsstring) (v : V) (m : list (jsstring * V)) :
  mapGet jseqb k (mapSet jseqb k' v m)
  = if jseqb k k' then Some v else mapGet jseqb k m.
Proof.
  induction m as [|[k0 v0] t IH]; cbn [mapGet mapSet].
  - reflexivity.
  - destruct (jseqb k' k0) eqn:E'; cbn [mapGet].
    + apply jseqb_eq in E'. subst k0. now destruct (jseqb k k').
    + destruct (jseqb k k0) eqn:E; [|exact IH].
      apply jseqb_eq in E. subst k0.
      rewrite jseqb_sym in E'. now rewrite E'.
Qed.

Lemma strGet_None (k : jsstring) (m : list (jsstring * V)) :
  mapGet jseqb k m = None <-> ~ In k (List.map fst m).
Proof.
  induction m as [|[k0 v0] t IH]; cbn [mapGet List.map fst In]; [tauto|].
  destruct (jseqb k k0) eqn:E.
  - apply jseqb_eq in E. subst k0. split; [discriminate | tauto].
  - rewrite IH. split; [|tauto]. intros H [H0|H0]; [|tauto].
    subst k0. now rewrite jseqb_refl in E.
Qed.

Lemma strSet_keys (k : jsstring) (v : V) (m : list (jsstring * V)) :
  List.map fst (mapSet jseqb k v m)
  = match mapGet jseqb k m with
    | Some _ => List.map fst m
    | None => List.map fst m ++ [k]
    end.
Proof.
  induction m as [|[k0 v0] t IH]; cbn [mapGet mapSet List.map fst app].
  - reflexivity.
  - destruct (jseqb k k0); cbn [List.map fst]; [reflexivity|].
    rewrite IH. now destruct (mapGet jseqb k t).
Qed.

Lemma strSet_NoDup (k : jsstring) (v : V) (m : list (jsstring * V)) :
  NoDup (List.map fst m) -> NoDup (List.map fst (mapSet jseqb k v m)).
Proof.
  intro H. rewrite strSet_keys.
  destruct (mapGet jseqb k m) eqn:E; [exact H|].
  apply strGet_None in E. apply NoDup_rev in H.
  rewrite <- (rev_involutive (List.map fst m ++ [k])). apply NoDup_rev.
  rewrite rev_app_distr. cbn [rev app]. constructor; [|exact H].
  now rewrite <- in_rev.
Qed.

Lemma strGet_In (k : jsstring) (v : V) (m : list (jsstring * V)) :
  NoDup (List.map fst m) -> In (k, v) m -> mapGet jseqb k m = Some v.
Proof.
  induction m as [|[k0 v0] t IH]; cbn [List.map fst mapGet In]; [tauto|].
  intros Hnd [Heq|Hin].
  - injection Heq as -> ->. now rewrite jseqb_refl.
  - inversion Hnd as [|? ? Hnot Hnd']; subst.
    destruct (jseqb k k0) eqn:E; [|now apply IH].
    apply jseqb_eq in E. subst k0. exfalso. apply Hnot.
    apply in_map_iff. now exists (k, v).
Qed.

Lemma strGet_Some_In (k : jsstring) (v : V) (m : list (jsstring * V)) :
  mapGet jseqb k m = Some v -> In (k, v) m.
Proof.
  induction m as [|[k0 v0] t IH]; cbn [mapGet In]; [discriminate|].
  destruct (jseqb k k0) eqn:E.
  - apply jseqb_eq in E. subst k0. intro H. injection H as ->. now left.
  - intro H. right. now apply IH.
Qed.
End StringMaps.

Lemma rowsWith_snoc (key : Row -> jsstring) (k : jsstring)
      (rows : list Row) (row : Row) :
  rowsWith key k (rows ++ [row])
  = if jseqb (key row) k then rowsWith key k rows ++ [row]
    else rowsWith key k rows.
Proof.
  unfold rowsWith. rewrite filter_app. cbn [filter].
  destruct (jseqb (key row) k); [reflexivity | apply app_nil_r].
Qed.

Lemma bump_get (k k' : jsstring) (m : list (jsstring * nat)) :
  mapGet jseqb k (Productivity.bump k' m)
  = if jseqb k k'
    then Some (match mapGet jseqb k' m with Some n => n + 1 | None => 1 end)
    else mapGet jseqb k m.
Proof. unfold Productivity.bump. apply strGet_set. Qed.

Lemma bump_NoDup (k : jsstring) (m : list (jsstring * nat)) :
  NoDup (List.map fst m) -> NoDup (List.map fst (Productivity.bump k m)).
Proof. unfold Productivity.bump. apply strSet_NoDup. Qed.

(** A counting map built with [bump] holds, for each key, the number of
    rows carrying it, and no key of count zero. *)
Lemma counting_get (key : Row -> jsstring) (rows : list Row) (k : jsstring) :
  mapGet jseqb k (fold_left (fun m row => Productivity.bump (key row) m) rows [])
  = match length (rowsWith key k rows) with
    | 0 => None
    | S n => Some (S n)
    end.
Proof.
  induction rows as [|row rows IH] using rev_ind; [reflexivity|].
  rewrite fold_left_app, rowsWith_snoc. cbn [fold_left].
  rewrite bump_get, jseqb_sym.
  destruct (jseqb (key row) k) eqn:E; [|exact IH].
  apply jseqb_eq in E. subst k. rewrite IH, length_app. cbn [length].
  destruct (length (rowsWith key (key row) rows)); cbn [Nat.add]; f_equal; lia.
Qed.

Lemma counting_NoDup (key : Row -> jsstring) (rows : list Row) :
  NoDup (List.map fst
           (fold_left (fun m row => Productivity.bump (key row) m) rows [])).
Proof.
  induction rows as [|row rows IH] using rev_ind; [constructor|].
  rewrite fold_left_app. cbn [fold_left]. now apply bump_NoDup.
Qed.

Lemma counting_entry (key : Row -> jsstring) (rows : list Row)
      (k : jsstring) (n : nat) :
  In (k, n) (fold_left (fun m row => Productivity.bump (key row) m) rows [])
  -> n = length (rowsWith key k rows) /\ 1 <= n.
Proof.
  intro H. apply (strGet_In _ k n _ (counting_NoDup key rows)) in H.
  rewrite counting_get in H.
  destruct (length (rowsWith key k rows)); [discriminate|].
  injection H as <-. lia.
Qed.

Lemma counting_complete (key : Row -> jsstring) (rows : list Row) (row : Row) :
  In row rows ->
  In (key row)
     (List.map fst
        (fold_left (fun m row => Productivity.bump (key row) m) rows [])).
Proof.
  intro Hin.
  destruct (mapGet jseqb (key row)
              (fold_left (fun m row => Productivity.bump (key row) m) rows []))
    as [n|] eqn:E.
  - apply strGet_Some_In in E. apply in_map_iff. now exists (key row, n).
  - rewrite counting_get in E.
    assert (Hrow : In row (rowsWith key (key row) rows)).
    { unfold rowsWith. apply filter_In. split; [exact Hin|].
      apply jseqb_refl. }
    destruct (rowsWith key (key row) rows); [destruct Hrow | discriminate].
Qed.

(* ================================================================== *)
(** ** The modality aggregates, one by one *)

Lemma byCountDescending_total (a b : Productivity.ModalityData) :
  (0 < Productivity.byCountDescending a b)%Z ->
  (Productivity.byCountDescending b a <= 0)%Z.
Proof. unfold Productivity.byCountDescending. lia. Qed.

(** X15: when the productivity computation succeeds there is one modality
    aggregate for each modality that occurs among the filtered rows (with
    "N/A" for a missing one) and none for any other; its count is the
    number of filtered rows of that modality; the aggregates come in
    descending order of count; and the list for the pie chart, which drops
    zero counts, is the same list. *)
Theorem modality_aggregates_exact :
  forall (parse : jsstring -> jsstring -> option Z)
         (c : Productivity.Criteria) (rows : list Row)
         (res : Productivity.Processed),
    Productivity.processData parse c rows = Some res ->
    Forall (fun a =>
              Productivity.count a
              = length (rowsWith modalityOf (Productivity.modality a)
                                 (Productivity.filteredRows res))
              /\ 1 <= Productivity.count a)
           (Productivity.modalityData res)
    /\ NoDup (List.map Productivity.modality (Productivity.modalityData res))
    /\ (forall row, In row (Productivity.filteredRows res) ->
                    In (modalityOf row)
                       (List.map Productivity.modality
                                 (Productivity.modalityData res)))
    /\ Ascending Productivity.byCountDescending (Productivity.modalityData res)
    /\ Productivity.aggregatedModalityData res = Productivity.modalityData res.
Proof.
  intros parse c rows res. unfold Productivity.processData.
  destruct (Productivity.filterRows parse c rows) as [filtered|];
    [|discriminate].
  intro H. injection H as <-.
  cbn [Productivity.filteredRows Productivity.modalityData
       Productivity.aggregatedModalityData].
  set (total := length filtered).
  change (Productivity.modalityCounts filtered)
    with (fold_left (fun m row => Productivity.bump (modalityOf row) m)
                    filtered []).
  set (m := fold_left (fun m row => Productivity.bump (modalityOf row) m)
                      filtered []).
  pose proof (sortBy_perm Productivity.byCountDescending
                (List.map (Productivity.toModalityData total) m)) as Hperm.
  assert (Hkeys : List.map Productivity.modality
                           (List.map (Productivity.toModalityData total) m)
                  = List.map fst m).
  { rewrite map_map. reflexivity. }
  split; [|split; [|split; [|split]]].
  - apply sortBy_Forall. apply Forall_forall. intros a Hin.
    apply in_map_iff in Hin. destruct Hin as ([k n] & <- & Hkv).
    cbn [Productivity.toModalityData Productivity.count Productivity.modality
         fst snd].
    exact (counting_entry modalityOf filtered k n Hkv).
  - eapply Permutation_NoDup.
    + apply Permutation_sym, Permutation_map, Hperm.
    + rewrite Hkeys. apply counting_NoDup.
  - intros row Hin. eapply Permutation_in.
    + apply Permutation_sym, Permutation_map, Hperm.
    + rewrite Hkeys. now apply counting_complete.
  - apply sortBy_sorted. exact byCountDescending_total.
  - f_equal. apply filter_all. intros a Hin.
    apply in_map_iff in Hin. destruct Hin as ([k n] & <- & Hkv).
    cbn [Productivity.toModalityData Productivity.count snd].
    apply Nat.ltb_lt.
    destruct (counting_entry modalityOf filtered k n Hkv). lia.
Qed.

Lemma modality_aggregates_exact_witness :
  exists res,
    Productivity.processData DateLib.parse Productivity.clearFilters
                             scenarioRows = Some res
    /\ Productivity.aggregatedModalityData res = Productivity.modalityData res.
Proof.
  assert (H : exists res,
             Productivity.processData DateLib.parse Productivity.clearFilters
                                      scenarioRows = Some res).
  { eexists. vm_compute. reflexivity. }
  destruct H as (res & H). exists res. split; [exact H|].
  destruct (modality_aggregates_exact DateLib.parse Productivity.clearFilters
              scenarioRows res H) as (_ & _ & _ & _ & Hagg).
  exact Hagg.
Defined.

(* ================================================================== *)
(** ** The staff aggregates *)

Lemma strSet_absent (V : Type) (k : jsstring) (v : V)
      (m : list (jsstring * V)) :
  mapGet jseqb k m = None -> mapSet jseqb k v m = m ++ [(k, v)].
Proof.
  induction m as [|[k' v'] t IH]; cbn [mapGet mapSet app]; [reflexivity|].
  destruct (jseqb k k'); [discriminate|].
  intro H. now rewrite IH.
Qed.

(** Counting a key changes what the object answers for that key alone,
    and nothing at all when the key is [__proto__]. *)
Lemma countUp_read (k key : jsstring)
      (obj : list (jsstring * Productivity.Value)) :
  Productivity.readProperty key (Productivity.countUp k obj)
  = if jseqb key k && negb (jseqb k Productivity.protoKey)
    then Productivity.plusOne (Productivity.readProperty k obj)
    else Productivity.readProperty key obj.
Proof.
  unfold Productivity.countUp. cbv zeta.
  destruct (jseqb k Productivity.protoKey) eqn:Ek; cbn [negb].
  - now rewrite andb_false_r.
  - rewrite andb_true_r. unfold Productivity.readProperty at 1.
    rewrite strGet_set. destruct (jseqb key k) eqn:E; [reflexivity|].
    reflexivity.
Qed.

Lemma breakdown_read (rs : list Row) (key : jsstring) :
  Productivity.readProperty key (breakdownOf rs)
  = breakdownAnswer key (length (rowsWith modalityOf key rs)).
Proof.
  unfold breakdownOf.
  induction rs as [|row rs IH] using rev_ind.
  - unfold breakdownAnswer, Productivity.readProperty. cbn [fold_left mapGet].
    cbn [rowsWith filter length].
    destruct (jseqb key Productivity.protoKey); [reflexivity|].
    now destruct (includes Productivity.objectPrototypeMethods key).
  - rewrite fold_left_app, rowsWith_snoc. cbn [fold_left].
    rewrite countUp_read, (jseqb_sym key (modalityOf row)).
    destruct (jseqb (modalityOf row) key) eqn:E; cbn [andb]; [|exact IH].
    apply jseqb_eq in E. subst key.
    destruct (jseqb (modalityOf row) Productivity.protoKey) eqn:Ep;
      cbn [negb].
    + rewrite IH. unfold breakdownAnswer. now rewrite Ep.
    + rewrite IH, length_app. cbn [length]. unfold breakdownAnswer.
      rewrite Ep.
      destruct (includes Productivity.objectPrototypeMethods (modalityOf row));
        destruct (length (rowsWith modalityOf (modalityOf row) rs)) as [|n];
        cbn [Productivity.plusOne Nat.add]; try reflexivity;
        rewrite Nat.add_1_r; reflexivity.
Qed.

Lemma existsb_filter (A : Type) (f : A -> bool) (l : list A) :
  existsb f l = (0 <? length (filter f l)).
Proof.
  induction l as [|a l IH]; cbn [existsb filter]; [reflexivity|].
  destruct (f a); cbn [orb length]; [reflexivity | exact IH].
Qed.

(** A breakdown holds a positive count for a key exactly when the key is
    not one the prototype answers and some counted row carries it. *)
Lemma breakdown_positive (rs : list Row) (key : jsstring) :
  Productivity.positive (Productivity.readProperty key (breakdownOf rs))
  = negb (inheritedKey key)
    && existsb (fun row => jseqb (modalityOf row) key) rs.
Proof.
  rewrite breakdown_read, existsb_filter. unfold breakdownAnswer, inheritedKey.
  change (filter (fun row => jseqb (modalityOf row) key) rs)
    with (rowsWith modalityOf key rs).
  destruct (jseqb key Productivity.protoKey); [reflexivity|].
  destruct (includes Productivity.objectPrototypeMethods key);
    destruct (length (rowsWith modalityOf key rs)); reflexivity.
Qed.

Lemma staffStep_get (m : list (jsstring * Productivity.StaffEntry))
      (row : Row) (k : jsstring) :
  mapGet jseqb k (Productivity.staffStep m row)
  = if jseqb k (signerOf row)
    then
      let e0 := match mapGet jseqb (signerOf row) m with
                | Some e => e
                | None => Productivity.mkStaffEntry 0 [] []
                end in
      Some {| Productivity.entryCount := S (Productivity.entryCount e0);
              Productivity.entryStudies :=
                Productivity.entryStudies e0 ++ [row];
              Productivity.entryModalities :=
                Productivity.countUp (modalityOf row)
                                  (Productivity.entryModalities e0) |}
    else mapGet jseqb k m.
Proof.
  unfold Productivity.staffStep. cbv zeta.
  fold (signerOf row). fold (modalityOf row).
  destruct (mapGet jseqb (signerOf row) m) as [e|] eqn:E.
  - rewrite E. apply strGet_set.
  - rewrite strGet_set, jseqb_refl, !strGet_set.
    now destruct (jseqb k (signerOf row)).
Qed.

Lemma staffStep_NoDup (m : list (jsstring * Productivity.StaffEntry))
      (row : Row) :
  NoDup (List.map fst m) ->
  NoDup (List.map fst (Productivity.staffStep m row)).
Proof.
  intro H. unfold Productivity.staffStep. cbv zeta.
  fold (signerOf row). fold (modalityOf row).
  destruct (mapGet jseqb (signerOf row) m) as [e|] eqn:E.
  - rewrite E. now apply strSet_NoDup.
  - rewrite strGet_set, jseqb_refl. now apply strSet_NoDup, strSet_NoDup.
Qed.

Lemma staffStep_sum (m : list (jsstring * Productivity.StaffEntry))
      (row : Row) :
  sumCounts (List.map (fun kv => Productivity.entryCount (snd kv))
                      (Productivity.staffStep m row))
  = S (sumCounts (List.map (fun kv => Productivity.entryCount (snd kv)) m)).
Proof.
  unfold Productivity.staffStep. cbv zeta.
  fold (signerOf row). fold (modalityOf row).
  destruct (mapGet jseqb (signerOf row) m) as [e|] eqn:E.
  - rewrite E.
    pose proof (mapSet_sum jseqb Productivity.entryCount (signerOf row)
                  {| Productivity.entryCount := S (Productivity.entryCount e);
                     Productivity.entryStudies :=
                       Productivity.entryStudies e ++ [row];
                     Productivity.entryModalities :=
                       Productivity.countUp (modalityOf row)
                                         (Productivity.entryModalities e) |}
                  m E) as H.
    cbn [Productivity.entryCount] in H. lia.
  - rewrite strGet_set, jseqb_refl.
    assert (Hget : mapGet jseqb (signerOf row)
                          (mapSet jseqb (signerOf row)
                                  (Productivity.mkStaffEntry 0 [] []) m)
                   = Some (Productivity.mkStaffEntry 0 [] []))
      by (now rewrite strGet_set, jseqb_refl).
    pose proof (mapSet_sum jseqb Productivity.entryCount (signerOf row)
                  {| Productivity.entryCount := 1;
                     Productivity.entryStudies := [] ++ [row];
                     Productivity.entryModalities :=
                       Productivity.countUp (modalityOf row) [] |}
                  _ Hget) as H.
    cbn [Productivity.entryCount] in H.
    rewrite (strSet_absent _ _ _ m E), map_app, sumCounts_app in H.
    cbn [List.map Productivity.entryCount snd] in H.
    rewrite (strSet_absent _ _ _ m E).
    cbn [Productivity.entryCount Productivity.entryStudies
         Productivity.entryModalities].
    unfold sumCounts in *. cbn [fold_right] in H. lia.
Qed.

Lemma staffMap_facts (rows : list Row) :
  NoDup (List.map fst (Productivity.staffMapOf rows))
  /\ sumCounts (List.map (fun kv => Productivity.entryCount (snd kv))
                         (Productivity.staffMapOf rows)) = length rows
  /\ forall k,
      mapGet jseqb k (Productivity.staffMapOf rows)
      = match rowsWith signerOf k rows with
        | [] => None
        | _ :: _ => Some (staffEntryFor (rowsWith signerOf k rows))
        end.
Proof.
  unfold Productivity.staffMapOf.
  induction rows as [|row rows (IHnd & IHsum & IHget)] using rev_ind.
  - repeat split. constructor.
  - rewrite fold_left_app. cbn [fold_left].
    split; [now apply staffStep_NoDup|].
    split; [rewrite staffStep_sum, IHsum, length_app; cbn [length]; lia|].
    intro k. rewrite staffStep_get, rowsWith_snoc, jseqb_sym.
    destruct (jseqb (signerOf row) k) eqn:E; [|apply IHget].
    apply jseqb_eq in E. subst k. cbv zeta. rewrite IHget.
    assert (He0 : match
                    match rowsWith signerOf (signerOf row) rows with
                    | [] => None
                    | _ :: _ =>
                        Some (staffEntryFor
                                (rowsWith signerOf (signerOf row) rows))
                    end
                  with
                  | Some e => e
                  | None => Productivity.mkStaffEntry 0 [] []
                  end
                  = staffEntryFor (rowsWith signerOf (signerOf row) rows)).
    { now destruct (rowsWith signerOf (signerOf row) rows). }
    rewrite He0.
    set (rs := rowsWith signerOf (signerOf row) rows).
    assert (Hnew : {| Productivity.entryCount :=
                        S (Productivity.entryCount (staffEntryFor rs));
                      Productivity.entryStudies :=
                        Productivity.entryStudies (staffEntryFor rs) ++ [row];
                      Productivity.entryModalities :=
                        Productivity.countUp
                          (modalityOf row)
                          (Productivity.entryModalities (staffEntryFor rs)) |}
                   = staffEntryFor (rs ++ [row])).
    { unfold staffEntryFor, breakdownOf.
      cbn [Productivity.entryCount Productivity.entryStudies
           Productivity.entryModalities].
      rewrite fold_left_app, length_app. cbn [fold_left length].
      f_equal. lia. }
    rewrite Hnew. destruct (rs ++ [row]) eqn:Ers; [|reflexivity].
    now destruct rs.
Qed.

Lemma sortBy_map (A B : Type) (f : A -> B) (cmp : A -> A -> Z)
      (cmp' : B -> B -> Z) (l : list A) :
  (forall a b, cmp' (f a) (f b) = cmp a b) ->
  sortBy cmp' (List.map f l) = List.map f (sortBy cmp l).
Proof.
  intro H.
  assert (Hins : forall x t,
             sortInsert cmp' (f x) (List.map f t)
             = List.map f (sortInsert cmp x t)).
  { intros x t. induction t as [|y t IH]; cbn [List.map sortInsert];
      [reflexivity|].
    rewrite H. destruct (cmp x y <=? 0)%Z; cbn [List.map];
      [reflexivity | now rewrite IH]. }
  induction l as [|x t IH]; cbn [List.map sortBy]; [reflexivity|].
  now rewrite IH, Hins.
Qed.

Lemma staffMap_entry (rows : list Row) (k : jsstring)
      (e : Productivity.StaffEntry) :
  In (k, e) (Productivity.staffMapOf rows) ->
  e = staffEntryFor (rowsWith signerOf k rows)
  /\ rowsWith signerOf k rows <> [].
Proof.
  destruct (staffMap_facts rows) as (Hnd & _ & Hget).
  intro H. apply (strGet_In _ k e _ Hnd) in H. rewrite Hget in H.
  destruct (rowsWith signerOf k rows) eqn:E; [discriminate|].
  injection H as <-. split; [reflexivity | discriminate].
Qed.

(** X16: when the productivity computation succeeds there is one staff
    aggregate per signer of the filtered rows ("Unassigned" for a missing
    one) and none for any other.  Its studies are the filtered rows of that
    signer in their order, and its count is their number, at least 1.  Its
    modality breakdown, an object, answers for every key: for a modality
    that is not named like a member of [Object.prototype] it gives the
    number of those rows with that modality, or [undefined] when there is
    none; for a modality named like one of the prototype's methods it gives
    the inherited function, or a text that grew by one digit per row, never
    a number; and for [__proto__] it gives the prototype itself.  The counts
    add up to the total, and the two staff lists name the same signers in
    the same order. *)
Theorem staff_aggregates_exact :
  forall (parse : jsstring -> jsstring -> option Z)
         (c : Productivity.Criteria) (rows : list Row)
         (res : Productivity.Processed),
    Productivity.processData parse c rows = Some res ->
    Forall (fun d =>
              Productivity.studies d
              = rowsWith signerOf (Productivity.reportSignedBy d)
                         (Productivity.filteredRows res)
              /\ Productivity.staffCount d
                 = length (Productivity.studies d)
              /\ 1 <= Productivity.staffCount d)
           (Productivity.staffData res)
    /\ Forall (fun s =>
                 Productivity.staffTotalStudies s
                 = length (rowsWith signerOf (Productivity.staffName s)
                                    (Productivity.filteredRows res))
                 /\ forall key,
                     Productivity.readProperty key (Productivity.modalities s)
                     = breakdownAnswer
                         key
                         (length
                            (rowsWith modalityOf key
                               (rowsWith signerOf (Productivity.staffName s)
                                         (Productivity.filteredRows res)))))
              (Productivity.staffModalityData res)
    /\ NoDup (List.map Productivity.staffName
                       (Productivity.staffModalityData res))
    /\ (forall row, In row (Productivity.filteredRows res) ->
                    In (signerOf row)
                       (List.map Productivity.staffName
                                 (Productivity.staffModalityData res)))
    /\ List.map Productivity.reportSignedBy (Productivity.staffData res)
       = List.map Productivity.staffName (Productivity.staffModalityData res)
    /\ sumCounts (List.map Productivity.staffTotalStudies
                           (Productivity.staffModalityData res))
       = Productivity.totalStudies res.
Proof.
  intros parse c rows res. unfold Productivity.processData.
  destruct (Productivity.filterRows parse c rows) as [filtered|];
    [|discriminate].
  intro H. injection H as <-.
  cbn [Productivity.filteredRows Productivity.staffData
       Productivity.staffModalityData Productivity.totalStudies].
  destruct (staffMap_facts filtered) as (Hnd & Hsum & Hget).
  set (sm := Productivity.staffMapOf filtered) in *.
  set (fD := fun kv : jsstring * Productivity.StaffEntry =>
               {| Productivity.reportSignedBy := fst kv;
                  Productivity.staffCount := Productivity.entryCount (snd kv);
                  Productivity.studies := Productivity.entryStudies (snd kv) |}).
  set (fM := fun kv : jsstring * Productivity.StaffEntry =>
               {| Productivity.staffName := fst kv;
                  Productivity.modalities :=
                    Productivity.entryModalities (snd kv);
                  Productivity.staffTotalStudies :=
                    Productivity.entryCount (snd kv) |}).
  assert (Hpos : filter (fun data => 0 <? Productivity.staffCount data)
                        (List.map fD sm) = List.map fD sm).
  { apply filter_all. intros d Hin. apply in_map_iff in Hin.
    destruct Hin as ([k e] & <- & Hke).
    destruct (staffMap_entry filtered k e Hke) as [-> Hne].
    cbn [fD Productivity.staffCount staffEntryFor Productivity.entryCount snd].
    apply Nat.ltb_lt.
    destruct (rowsWith signerOf k filtered); [congruence | cbn; lia]. }
  rewrite Hpos.
  rewrite (sortBy_map _ _ fD byEntryCount _ sm) by reflexivity.
  rewrite (sortBy_map _ _ fM byEntryCount _ sm) by reflexivity.
  pose proof (sortBy_perm byEntryCount sm) as Hperm.
  assert (Hin_sorted : forall kv, In kv (sortBy byEntryCount sm) -> In kv sm).
  { intros kv Hkv. eapply Permutation_in; [exact Hperm | exact Hkv]. }
  split; [|split; [|split; [|split; [|split]]]].
  - apply Forall_forall. intros d Hin. apply in_map_iff in Hin.
    destruct Hin as ([k e] & <- & Hke). apply Hin_sorted in Hke.
    destruct (staffMap_entry filtered k e Hke) as [-> Hne].
    cbn. repeat split.
    destruct (rowsWith signerOf k filtered); [congruence | cbn; lia].
  - apply Forall_forall. intros s Hin. apply in_map_iff in Hin.
    destruct Hin as ([k e] & <- & Hke). apply Hin_sorted in Hke.
    destruct (staffMap_entry filtered k e Hke) as [-> Hne].
    cbn [fM Productivity.staffTotalStudies Productivity.modalities
         Productivity.staffName staffEntryFor Productivity.entryCount
         Productivity.entryModalities fst snd].
    split; [reflexivity|]. intro key. apply breakdown_read.
  - rewrite map_map. cbn [fM Productivity.staffName].
    change (List.map (fun x => fst x) (sortBy byEntryCount sm))
      with (List.map fst (sortBy byEntryCount sm)).
    eapply Permutation_NoDup; [|exact Hnd].
    apply Permutation_sym, Permutation_map, Hperm.
  - intros row Hin. rewrite map_map. cbn [fM Productivity.staffName].
    assert (Hrow : In row (rowsWith signerOf (signerOf row) filtered)).
    { unfold rowsWith. apply filter_In. split; [exact Hin|].
      apply jseqb_refl. }
    specialize (Hget (signerOf row)).
    destruct (rowsWith signerOf (signerOf row) filtered) eqn:E;
      [destruct Hrow|].
    apply strGet_Some_In in Hget.
    apply in_map_iff. exists (signerOf row, staffEntryFor (r :: l)).
    split; [reflexivity|].
    eapply Permutation_in; [apply Permutation_sym, Hperm | exact Hget].
  - rewrite !map_map. reflexivity.
  - rewrite map_map. cbn [fM Productivity.staffTotalStudies].
    rewrite (sumCounts_perm _ _
               (Permutation_map
                  (fun kv => Productivity.entryCount (snd kv)) Hperm)).
    exact Hsum.
Qed.

Lemma staff_aggregates_exact_witness :
  exists res,
    Productivity.processData DateLib.parse Productivity.clearFilters
                             scenarioRows = Some res
    /\ List.map Productivity.reportSignedBy (Productivity.staffData res)
       = [js "Dr. A"; js "Dr. B"]
    /\ sumCounts (List.map Productivity.staffTotalStudies
                           (Productivity.staffModalityData res))
       = Productivity.totalStudies res.
Proof.
  assert (H : exists res,
             Productivity.processData DateLib.parse Productivity.clearFilters
                                      scenarioRows = Some res
             /\ List.map Productivity.reportSignedBy
                         (Productivity.staffData res)
                = [js "Dr. A"; js "Dr. B"]).
  { eexists. split; vm_compute; reflexivity. }
  destruct H as (res & H & Hnames). exists res.
  split; [exact H|]. split; [exact Hnames|].
  destruct (staff_aggregates_exact DateLib.parse Productivity.clearFilters
              scenarioRows res H) as (_ & _ & _ & _ & _ & Hsum).
  exact Hsum.
Defined.

(* ================================================================== *)
(** ** Working days *)

Lemma dateSet_collected (rows : list Row) :
  Productivity.dateSet rows = collected dateKey rows.
Proof.
  unfold Productivity.dateSet, collected. generalize (@nil jsstring).
  induction rows as [|row rows IH]; intro s; cbn [fold_left]; [reflexivity|].
  unfold dateKey at 2. destruct (Date row) as [[|ch d]|]; apply IH.
Qed.

Lemma setAdd_length (x : jsstring) (s : list jsstring) :
  length (setAdd x s) <= S (length s).
Proof.
  unfold setAdd. destruct (includes s x); [lia|].
  rewrite length_app. cbn [length]. lia.
Qed.

Lemma collected_length (key : Row -> option jsstring) (rows : list Row) :
  length (collected key rows) <= length rows.
Proof.
  unfold collected.
  assert (Hgen : forall s0,
             length (fold_left (fun s row => match key row with
                                             | Some x => setAdd x s
                                             | None => s
                                             end) rows s0)
             <= length s0 + length rows).
  { induction rows as [|row rows IH]; intro s0; cbn [fold_left length];
      [lia|].
    destruct (key row) as [x|].
    - specialize (IH (setAdd x s0)). pose proof (setAdd_length x s0). lia.
    - specialize (IH s0). lia. }
  exact (Hgen []).
Qed.

(** X17: the number of working days is the number of distinct non-empty
    dates among the filtered rows, rows without a date adding nothing, and
    it never exceeds the total of studies. *)
Theorem working_days_distinct_dates :
  forall (parse : jsstring -> jsstring -> option Z)
         (c : Productivity.Criteria) (rows : list Row)
         (res : Productivity.Processed),
    Productivity.processData parse c rows = Some res ->
    let dates := Productivity.dateSet (Productivity.filteredRows res) in
    Productivity.workingDays res = length dates
    /\ NoDup dates
    /\ (forall x, In x dates
                  <-> x <> []
                      /\ exists row, In row (Productivity.filteredRows res)
                                     /\ Date row = Some x)
    /\ Productivity.workingDays res <= Productivity.totalStudies res.
Proof.
  intros parse c rows res. unfold Productivity.processData.
  destruct (Productivity.filterRows parse c rows) as [filtered|];
    [|discriminate].
  intro H. injection H as <-.
  cbn [Productivity.filteredRows Productivity.workingDays
       Productivity.totalStudies].
  cbv zeta. rewrite dateSet_collected.
  destruct (collected_facts dateKey filtered) as [Hnd Hin].
  split; [reflexivity|]. split; [exact Hnd|]. split.
  - intro x. rewrite Hin. split.
    + intros (row & Hrow & Hk). unfold dateKey in Hk.
      destruct (Date row) as [[|ch d]|] eqn:E; try discriminate.
      injection Hk as <-. split; [discriminate|]. now exists row.
    + intros (Hx & row & Hrow & Hd). exists row. split; [exact Hrow|].
      unfold dateKey. rewrite Hd. destruct x; [congruence | reflexivity].
  - apply collected_length.
Qed.

Lemma working_days_distinct_dates_witness :
  exists res,
    Productivity.processData DateLib.parse Productivity.clearFilters
                             scenarioRows = Some res
    /\ Productivity.workingDays res = 2
    /\ Productivity.workingDays res <= Productivity.totalStudies res.
Proof.
  assert (H : exists res,
             Productivity.processData DateLib.parse Productivity.clearFilters
                                      scenarioRows = Some res
             /\ Productivity.workingDays res = 2).
  { eexists. split; vm_compute; reflexivity. }
  destruct H as (res & H & Hdays). exists res.
  split; [exact H|]. split; [exact Hdays|].
  destruct (working_days_distinct_dates DateLib.parse
              Productivity.clearFilters scenarioRows res H)
    as (_ & _ & _ & Hle).
  exact Hle.
Defined.

(* ================================================================== *)
(** ** The option lists of the productivity page *)

Lemma fold_setAdd_collected (key : Row -> jsstring) (rows : list Row) :
  fold_left (fun s row => setAdd (key row) s) rows []
  = collected (fun row => Some (key row)) rows.
Proof. reflexivity. Qed.

(** X18: the option lists of the productivity page hold the values of all
    the rows, usable time or not, with "N/A" for a missing modality or
    status and "Unassigned" for a missing signer; they are sorted and free
    of duplicates; and every option the workflow page offers for the same
    rows is among them. *)
Theorem productivity_options_cover_workflow :
  forall (localeCompare : jsstring -> jsstring -> Z)
         (timeFormat : TimeFormat) (rows : list Row),
    let w := Workflow.processTimestamps localeCompare timeFormat rows in
    let p := getAvailableFilterOptions rows in
    ((forall x, In x (optModalities p)
                <-> exists row, In row rows /\ modalityOf row = x)
     /\ (forall x, In x (optStatuses p)
                   <-> exists row, In row rows /\ statusOf row = x)
     /\ (forall x, In x (optRadiologists p)
                   <-> exists row, In row rows /\ signerOf row = x))
    /\ (NoDup (optModalities p) /\ NoDup (optStatuses p)
        /\ NoDup (optRadiologists p))
    /\ (Ascending codeUnitCompare (optModalities p)
        /\ Ascending codeUnitCompare (optStatuses p)
        /\ Ascending codeUnitCompare (optRadiologists p))
    /\ (incl (Workflow.availableModalities w) (optModalities p)
        /\ incl (Workflow.availableStatuses w) (optStatuses p)
        /\ incl (Workflow.availableSigners w) (optRadiologists p)).
Proof.
  intros localeCompare timeFormat rows w p.
  unfold p, getAvailableFilterOptions. cbv zeta.
  cbn [optModalities optStatuses optRadiologists].
  change (fun s row => setAdd (orDefault (Mod row) (js "N/A")) s)
    with (fun s row => setAdd (modalityOf row) s).
  change (fun s row => setAdd (orDefault (Status row) (js "N/A")) s)
    with (fun s row => setAdd (statusOf row) s).
  change (fun s row =>
            setAdd (orDefault (ReportSignedBy row) (js "Unassigned")) s)
    with (fun s row => setAdd (signerOf row) s).
  rewrite !fold_setAdd_collected.
  destruct (collected_facts (fun row => Some (modalityOf row)) rows)
    as [Nm Im].
  destruct (collected_facts (fun row => Some (statusOf row)) rows)
    as [Ns Is].
  destruct (collected_facts (fun row => Some (signerOf row)) rows)
    as [Ng Ig].
  destruct (sortedStrings_facts _ Nm) as (Nm' & Am & Im').
  destruct (sortedStrings_facts _ Ns) as (Ns' & As' & Is').
  destruct (sortedStrings_facts _ Ng) as (Ng' & Ag & Ig').
  assert (Hm : forall x, In x (sortedStrings
                                 (collected (fun row => Some (modalityOf row))
                                            rows))
                         <-> exists row, In row rows /\ modalityOf row = x).
  { intro x. rewrite Im', Im. split; intros (row & Hr & Hk); exists row;
      (split; [exact Hr | congruence]). }
  assert (Hs : forall x, In x (sortedStrings
                                 (collected (fun row => Some (statusOf row))
                                            rows))
                         <-> exists row, In row rows /\ statusOf row = x).
  { intro x. rewrite Is', Is. split; intros (row & Hr & Hk); exists row;
      (split; [exact Hr | congruence]). }
  assert (Hg : forall x, In x (sortedStrings
                                 (collected (fun row => Some (signerOf row))
                                            rows))
                         <-> exists row, In row rows /\ signerOf row = x).
  { intro x. rewrite Ig', Ig. split; intros (row & Hr & Hk); exists row;
      (split; [exact Hr | congruence]). }
  split; [auto|]. split; [auto|]. split; [auto|].
  destruct (processRows_sets rows) as (Wm & Ws & Wg). cbv zeta in Wm, Ws, Wg.
  unfold w, Workflow.processTimestamps.
  cbn [Workflow.availableModalities Workflow.availableStatuses
       Workflow.availableSigners].
  rewrite Wm, Ws, Wg.
  destruct (collected_facts modalityKey rows) as [Nwm Iwm].
  destruct (collected_facts statusKey rows) as [Nws Iws].
  destruct (collected_facts signerKey rows) as [Nwg Iwg].
  destruct (sortedStrings_facts _ Nwm) as (_ & _ & Iwm').
  destruct (sortedStrings_facts _ Nws) as (_ & _ & Iws').
  destruct (sortedStrings_facts _ Nwg) as (_ & _ & Iwg').
  split; [|split].
  - intros x Hx. apply Iwm', Iwm in Hx. destruct Hx as (row & Hr & Hk).
    apply Hm. exists row. split; [exact Hr|]. unfold modalityKey in Hk.
    destruct (yieldsRecord row); [|discriminate]. now injection Hk.
  - intros x Hx. apply Iws', Iws in Hx. destruct Hx as (row & Hr & Hk).
    apply Hs. exists row. split; [exact Hr|]. unfold statusKey in Hk.
    destruct (yieldsRecord row); [|discriminate]. now injection Hk.
  - intros x Hx. apply Iwg', Iwg in Hx. destruct Hx as (row & Hr & Hk).
    apply Hg. exists row. split; [exact Hr|]. unfold signerKey in Hk.
    destruct (yieldsRecord row && truthy (orDefault (ReportSignedBy row) (js "")))
      eqn:E; [|discriminate].
    injection Hk as <-. apply andb_true_iff in E. destruct E as [_ E].
    unfold signerOf. destruct (ReportSignedBy row) as [[|ch t]|];
      try discriminate E. reflexivity.
Qed.

(* ================================================================== *)
(** ** Rows read from a PDF *)

Lemma splitWs_parts (s : jsstring) (afterWs : bool) (part : jsstring) :
  In part (splitWsFrom afterWs s) -> noWhiteSpace part = true.
Proof.
  revert afterWs part.
  induction s as [|c t IH]; intros afterWs part; cbn [splitWsFrom].
  - intros [<-|[]]. reflexivity.
  - destruct (isWhiteSpace c) eqn:E.
    + destruct afterWs.
      * apply IH.
      * intros [<-|H]; [reflexivity | now apply (IH true)].
    + pose proof (IH false) as IHf.
      destruct (splitWsFrom false t) as [|f fs].
      * intros [<-|[]]. unfold noWhiteSpace. cbn [forallb]. now rewrite E.
      * intros [<-|H].
        -- unfold noWhiteSpace. cbn [forallb]. rewrite E. cbn [negb andb].
           apply IHf. now left.
        -- apply IHf. now right.
Qed.

Lemma markedTimeTest_sound (s : jsstring) :
  markedTimeTest s = true -> exists i, markedHere (skipn i s) = true.
Proof.
  induction s as [|c t IH].
  - cbn. discriminate.
  - change (markedTimeTest (c :: t))
      with (markedHere (c :: t) || markedTimeTest t).
    intro H. apply orb_true_iff in H. destruct H as [H|H].
    + now exists 0.
    + destruct (IH H) as [i Hi]. now exists (S i).
Qed.

Lemma noWhiteSpace_skipn (i : nat) (s : jsstring) :
  noWhiteSpace s = true -> noWhiteSpace (skipn i s) = true.
Proof.
  revert s. induction i as [|i IH]; intros s H; [exact H|].
  destruct s as [|c t]; [reflexivity|]. cbn [skipn].
  apply IH. unfold noWhiteSpace in H. cbn [forallb] in H.
  apply andb_true_iff in H. tauto.
Qed.

Lemma noWhiteSpace_app (a b : jsstring) :
  noWhiteSpace (a ++ b) = true ->
  noWhiteSpace a = true /\ noWhiteSpace b = true.
Proof.
  unfold noWhiteSpace. rewrite forallb_app. apply andb_true_iff.
Qed.

Lemma white_and_not (ws : jsstring) :
  forallb isWhiteSpace ws = true -> noWhiteSpace ws = true -> ws = [].
Proof.
  destruct ws as [|c t]; [reflexivity|]. unfold noWhiteSpace.
  cbn [forallb]. intros H1 H2.
  apply andb_true_iff in H1. apply andb_true_iff in H2.
  destruct H1 as [H1 _]. destruct H2 as [H2 _]. rewrite H1 in H2.
  discriminate.
Qed.

Lemma pdfRows_line (pages : list (list jsstring)) (row : Row) :
  In row (pdfRows pages) -> exists line, pdfLineRow line = Some row.
Proof.
  unfold pdfRows, pdfPageRows. intro H.
  apply in_flat_map in H. destruct H as (items & _ & H).
  apply in_flat_map in H. destruct H as (line & _ & H).
  exists line. destruct (pdfLineRow line) as [r|]; [|destruct H].
  destruct H as [<-|[]]. reflexivity.
Qed.

(** X19: every row read from a PDF has, as its time, one white-space-free
    part of a line in which the AM/PM marker follows the minutes without a
    space; the time parser finds a time in it.  A line whose only time is
    written in 24-hour form, or with a space before the marker, gives no
    row.  The row has the first six parts of the line as date, patient,
    modality, description and status, and no accession, body part or
    signer. *)
Theorem pdf_rows_carry_attached_marker :
  forall (pages : list (list jsstring)) (row : Row),
    In row (pdfRows pages) ->
    exists t,
      Time row = Some t
      /\ noWhiteSpace t = true
      /\ (exists i hd md c1 c2 tail,
             skipn i t = hd ++ 58%N :: md ++ c1 :: c2 :: tail
             /\ (length hd = 1 \/ length hd = 2)
             /\ forallb isDigit hd = true
             /\ length md = 2
             /\ forallb isDigit md = true
             /\ (isA c1 || isP c1) = true
             /\ isM c2 = true)
      /\ hourOf t <> None
      /\ (Date row <> None /\ PatientID row <> None
          /\ PatientName row <> None /\ Mod row <> None
          /\ Description row <> None /\ Status row <> None)
      /\ (Accession row = None /\ BodyPart row = None
          /\ ReportSignedBy row = None).
Proof.
  intros pages row Hin.
  destruct (pdfRows_line pages row Hin) as [line Hline].
  unfold pdfLineRow in Hline. cbv zeta in Hline.
  destruct (6 <=? length (splitWhiteSpace line)) eqn:Elen; [|discriminate].
  apply Nat.leb_le in Elen.
  destruct (find markedTimeTest (splitWhiteSpace line)) as [t|] eqn:Efind;
    [|discriminate].
  injection Hline as <-.
  cbn [Time Date PatientID PatientName Mod Description Status Accession
       BodyPart ReportSignedBy].
  apply find_some in Efind. destruct Efind as [Hpart Htest].
  pose proof (splitWs_parts line false t Hpart) as Hnows.
  destruct (markedTimeTest_sound t Htest) as [i Hi].
  unfold markedHere in Hi.
  destruct (matchHere (skipn i t)) as [[[hd md] [p|]]|] eqn:Em;
    try discriminate.
  apply matchHere_sound in Em.
  destruct Em as (rest & Hs & Hl & Hd & Hl' & Hm & Hmark).
  symmetry in Hmark. apply markerAt_spec in Hmark.
  destruct Hmark as (ws & c1 & c2 & tail & -> & Hws & HM & Hp).
  pose proof (noWhiteSpace_skipn i t Hnows) as Hsuffix. rewrite Hs in Hsuffix.
  apply noWhiteSpace_app in Hsuffix. destruct Hsuffix as [_ Hsuffix].
  change (58%N :: md ++ ws ++ c1 :: c2 :: tail)
    with ([58%N] ++ md ++ ws ++ c1 :: c2 :: tail) in Hsuffix.
  apply noWhiteSpace_app in Hsuffix. destruct Hsuffix as [_ Hsuffix].
  apply noWhiteSpace_app in Hsuffix. destruct Hsuffix as [_ Hsuffix].
  apply noWhiteSpace_app in Hsuffix. destruct Hsuffix as [Hws' _].
  pose proof (white_and_not ws Hws Hws') as ->. cbn [app] in Hs.
  exists t. split; [reflexivity|]. split; [exact Hnows|].
  split; [|split; [|split]].
  - exists i, hd, md, c1, c2, tail. repeat split; auto.
    destruct p; rewrite Hp; [reflexivity | apply orb_true_r].
  - unfold hourOf, Workflow.extractTimeFromString.
    destruct (timeMatch t) as [[[g1 g2] g3]|] eqn:Et; [discriminate|].
    exfalso. apply timeMatch_None_iff in Et. apply (Et i).
    exists hd, md, (c1 :: c2 :: tail). auto.
  - destruct (splitWhiteSpace line) as [|p0 [|p1 [|p2 [|p3 [|p4 [|p5 ps]]]]]];
      cbn [length] in Elen; try lia.
    repeat split; discriminate.
  - repeat split.
Qed.

Lemma pdf_rows_carry_attached_marker_witness :
  In {| Date := Some (js "01/01/2024"); Time := Some (js "09:15AM");
        PatientID := Some (js "123"); PatientName := Some (js "Doe");
        Mod := Some (js "CT"); Description := Some (js "Chest");
        Status := Some (js "Final"); Accession := None;
        BodyPart := None; ReportSignedBy := None |}
     (pdfRows [[js "01/01/2024 123 Doe CT"; js "Chest Final 09:15AM"]])
  /\ hourOf (js "09:15AM") <> None.
Proof.
  assert (Hin : In {| Date := Some (js "01/01/2024");
                      Time := Some (js "09:15AM");
                      PatientID := Some (js "123");
                      PatientName := Some (js "Doe");
                      Mod := Some (js "CT"); Description := Some (js "Chest");
                      Status := Some (js "Final"); Accession := None;
                      BodyPart := None; ReportSignedBy := None |}
                   (pdfRows [[js "01/01/2024 123 Doe CT";
                              js "Chest Final 09:15AM"]])).
  { left. reflexivity. }
  split; [exact Hin|].
  destruct (pdf_rows_carry_attached_marker _ _ Hin)
    as (t & Ht & _ & _ & Hhour & _).
  cbn [Time] in Ht. injection Ht as <-. exact Hhour.
Defined.

(** A time written with a space before its marker, or in 24-hour form, is
    not recognised in a PDF line. *)
Example pdf_spaced_time_dropped :
  pdfRows [[js "01/01/2024 123 Doe CT Chest Final 09:15 AM"]] = []
  /\ pdfRows [[js "01/01/2024 123 Doe CT Chest Final 14:00"]] = [].
Proof. split; reflexivity. Qed.

Lemma collected_none (key : Row -> option jsstring) (rows : list Row) :
  (forall row, In row rows -> key row = None) -> collected key rows = [].
Proof.
  unfold collected. intro H.
  assert (Hgen : forall s0,
             fold_left (fun s row => match key row with
                                     | Some x => setAdd x s
                                     | None => s
                                     end) rows s0 = s0).
  { induction rows as [|row rows IH]; intro s0; cbn [fold_left];
      [reflexivity|].
    rewrite (H row (or_introl eq_refl)). apply IH.
    intros r Hr. apply H. now right. }
  apply Hgen.
Qed.

(** Every record of the aggregator's output is the entry detail of a row
    that yields a record. *)
Lemma entries_from_rows (localeCompare : jsstring -> jsstring -> Z)
      (timeFormat : TimeFormat) (rows : list Row)
      (b : Workflow.HourlyData) (e : Workflow.EntryDetail) :
  In b (Workflow.hourlyData
          (Workflow.processTimestamps localeCompare timeFormat rows)) ->
  In e (Workflow.entries b) ->
  exists row, In row rows /\ yieldsRecord row = true /\ e = entryDetailOf row.
Proof.
  destruct (processRows_inv rows _ initialIngest_inv) as [Hk _ _].
  unfold Workflow.processTimestamps. cbn [Workflow.hourlyData].
  rewrite (sortedData_map localeCompare timeFormat _ Hk).
  intros Hb He. apply in_map_iff in Hb. destruct Hb as (kv & <- & Hkv).
  cbn [Workflow.entries] in He.
  assert (He' : In e (Workflow.slotEntries (snd kv))).
  { eapply Permutation_in; [apply sortBy_perm | exact He]. }
  destruct (In_nth_error _ _ Hkv) as [i Hi].
  assert (Hlt : i < 24).
  { assert (Hlen : length (Workflow.hourData
                             (fold_left Workflow.processRow rows
                                        Workflow.initialIngest)) = 24)
      by (rewrite <- (length_map fst), Hk; reflexivity).
    rewrite <- Hlen. apply nth_error_Some. congruence. }
  destruct (keys_nth _ 24 0 i _ Hk Hlt) as (v & Hnth & Hget).
  cbn [Nat.add] in Hnth, Hget.
  assert (kv = (Z.of_nat i, v)) by congruence. subst kv. cbn [snd] in He'.
  destruct (keys_nth _ 24 0 i (Workflow.hourData Workflow.initialIngest)
              eq_refl Hlt) as (v0 & Hnth0 & Hget0).
  cbn [Nat.add] in Hnth0, Hget0.
  assert (Hv0 : v0 = Workflow.mkSlot 0 []).
  { apply nth_error_In in Hnth0. unfold Workflow.initialIngest in Hnth0.
    cbn [Workflow.hourData] in Hnth0. apply in_map_iff in Hnth0.
    destruct Hnth0 as (j & Hj & _). congruence. }
  destruct (processRows_slot rows Workflow.initialIngest (Z.of_nat i) v0
              eq_refl Hget0) as (v' & Hget' & Hent & _).
  assert (v' = v) by congruence. subst v' v0.
  rewrite Hent in He'. cbn [Workflow.slotEntries app] in He'.
  apply in_map_iff in He'. destruct He' as (row & <- & Hrow).
  apply filter_In in Hrow. destruct Hrow as [Hrow Hf].
  exists row. split; [exact Hrow|]. split; [|reflexivity].
  unfold filedUnder in Hf. apply andb_true_iff in Hf. tauto.
Qed.

(** X20: after a PDF upload the workflow page offers no signer at all, and
    every record it holds has the empty signer: rows read from a PDF never
    carry one. *)
Theorem pdf_upload_has_no_signers :
  forall (localeCompare : jsstring -> jsstring -> Z)
         (timeFormat : TimeFormat) (pages : list (list jsstring)),
    let r := Workflow.processTimestamps localeCompare timeFormat
                                        (pdfRows pages) in
    Workflow.availableSigners r = []
    /\ forall b e, In b (Workflow.hourlyData r) ->
                   In e (Workflow.entries b) ->
                   Workflow.reportSignedBy e = [].
Proof.
  intros localeCompare timeFormat pages r.
  assert (Hnone : forall row, In row (pdfRows pages) ->
                              ReportSignedBy row = None).
  { intros row Hin. destruct (pdfRows_line pages row Hin) as [line Hline].
    unfold pdfLineRow in Hline. cbv zeta in Hline.
    destruct (6 <=? length (splitWhiteSpace line)); [|discriminate].
    destruct (find markedTimeTest (splitWhiteSpace line)); [|discriminate].
    now injection Hline as <-. }
  split.
  - destruct (processRows_sets (pdfRows pages)) as (_ & _ & Hg).
    cbv zeta in Hg. unfold r, Workflow.processTimestamps.
    cbn [Workflow.availableSigners]. rewrite Hg.
    rewrite collected_none; [reflexivity|].
    intros row Hin. unfold signerKey. rewrite (Hnone row Hin).
    cbn [orDefault truthy]. now rewrite andb_false_r.
  - intros b e Hb He.
    destruct (entries_from_rows localeCompare timeFormat (pdfRows pages)
                b e Hb He) as (row & Hrow & _ & ->).
    unfold entryDetailOf. cbn [Workflow.reportSignedBy].
    now rewrite (Hnone row Hrow).
Qed.

Lemma pdf_upload_has_no_signers_witness :
  Workflow.availableSigners
    (Workflow.processTimestamps codeUnitCompare Format24
       (pdfRows [[js "01/01/2024 123 Doe CT"; js "Chest Final 09:15AM"]]))
  = []
  /\ Workflow.totalEntries
       (Workflow.processTimestamps codeUnitCompare Format24
          (pdfRows [[js "01/01/2024 123 Doe CT"; js "Chest Final 09:15AM"]]))
     = 1.
Proof.
  split; [|reflexivity].
  exact (proj1 (pdf_upload_has_no_signers codeUnitCompare Format24
                  [[js "01/01/2024 123 Doe CT"; js "Chest Final 09:15AM"]])).
Defined.

(* ================================================================== *)
(** ** The date range of the workflow view *)

Lemma strLe_refl (s : jsstring) : strLe s s = true.
Proof.
  induction s as [|c s IH]; cbn [strLe]; [reflexivity|].
  now rewrite N.ltb_irrefl.
Qed.

(** X21: the date range of the workflow view compares strings, not dates.
    With both bounds set, a record whose date begins with a character
    below the first character of the start bound is filtered out whatever
    the other filters are, as a month/day/year date is against a bound
    written year first; a record whose date equals both bounds passes the
    date test, the bounds being inclusive. *)
Theorem workflow_date_range_is_lexicographic :
  forall (c : Workflow.Criteria) (entry : Workflow.EntryDetail),
    (forall a s b d,
        start (Workflow.dateRange c) = a :: s ->
        end_ (Workflow.dateRange c) <> [] ->
        Workflow.date entry = b :: d ->
        (b < a)%N ->
        Workflow.entryMatch c entry = false)
    /\ (start (Workflow.dateRange c) = Workflow.date entry ->
        end_ (Workflow.dateRange c) = Workflow.date entry ->
        Workflow.selectedModalities c = [] ->
        Workflow.selectedStatuses c = [] ->
        Workflow.selectedSigners c = [] ->
        Workflow.entryMatch c entry = true).
Proof.
  intros c entry. split.
  - intros a s b d Hs He Hd Hlt.
    destruct (Workflow.entryMatch c entry) eqn:E; [|reflexivity].
    apply entryMatch_iff in E. destruct E as (_ & _ & _ & [E|[E|[E _]]]).
    + congruence.
    + congruence.
    + rewrite Hs, Hd in E. cbn [strLe] in E.
      replace (a <? b)%N with false in E
        by (symmetry; apply N.ltb_ge; lia).
      replace (b <? a)%N with true in E
        by (symmetry; now apply N.ltb_lt).
      discriminate.
  - intros Hs He Hm Hst Hsg. apply entryMatch_iff.
    rewrite Hs, He, Hm, Hst, Hsg, strLe_refl. tauto.
Qed.

Lemma workflow_date_range_is_lexicographic_witness :
  Workflow.entryMatch
    {| Workflow.selectedModalities := []; Workflow.selectedStatuses := [];
       Workflow.selectedSigners := [];
       Workflow.dateRange := mkRange (js "2024-01-01") (js "2024-12-31");
       Workflow.timeRange := mkRange (js "00:00") (js "23:59") |}
    sampleEntry = false.
Proof.
  apply (proj1 (workflow_date_range_is_lexicographic _ sampleEntry)
               50%N (js "024-01-01") 48%N (js "1/01/2024")).
  - reflexivity.
  - discriminate.
  - reflexivity.
  - reflexivity.
Defined.

(* ================================================================== *)
(** ** The modalities of the staff chart *)

(** X22: the modalities shown in the staff chart are the offered
    modalities that occur among the filtered rows and are not named like a
    member of [Object.prototype], in the order in which they are offered.
    A modality named like such a member is never listed, even when rows
    carry it: its entry in a breakdown is a text, not a count. *)
Theorem chart_modalities_are_present :
  forall (parse : jsstring -> jsstring -> option Z)
         (c : Productivity.Criteria) (rows : list Row)
         (res : Productivity.Processed)
         (availableModalities : list jsstring),
    Productivity.processData parse c rows = Some res ->
    modalitiesWithData availableModalities (Productivity.staffModalityData res)
    = filter (fun m => negb (inheritedKey m)
                       && existsb (fun row => jseqb (modalityOf row) m)
                                  (Productivity.filteredRows res))
             availableModalities.
Proof.
  intros parse c rows res availableModalities.
  unfold Productivity.processData.
  destruct (Productivity.filterRows parse c rows) as [filtered|];
    [|discriminate].
  intro H. injection H as <-.
  cbn [Productivity.filteredRows Productivity.staffModalityData].
  destruct (staffMap_facts filtered) as (Hnd & _ & Hget).
  unfold modalitiesWithData. apply filter_ext. intro m.
  set (fM := fun kv : jsstring * Productivity.StaffEntry =>
               {| Productivity.staffName := fst kv;
                  Productivity.modalities :=
                    Productivity.entryModalities (snd kv);
                  Productivity.staffTotalStudies :=
                    Productivity.entryCount (snd kv) |}).
  rewrite (sortBy_map _ _ fM byEntryCount _ (Productivity.staffMapOf filtered))
    by reflexivity.
  pose proof (sortBy_perm byEntryCount (Productivity.staffMapOf filtered))
    as Hperm.
  apply eq_true_iff_eq. rewrite andb_true_iff, !existsb_exists. split.
  - intros (s & Hs & Hpos). apply in_map_iff in Hs.
    destruct Hs as ([k e] & <- & Hke).
    apply (Permutation_in _ Hperm) in Hke.
    destruct (staffMap_entry filtered k e Hke) as [-> _].
    cbn [fM Productivity.modalities staffEntryFor
         Productivity.entryModalities snd] in Hpos.
    rewrite breakdown_positive, andb_true_iff, existsb_exists in Hpos.
    destruct Hpos as (Hown & row & Hrow & Hm). split; [exact Hown|].
    exists row. split; [|exact Hm].
    unfold rowsWith in Hrow. apply filter_In in Hrow. tauto.
  - intros (Hown & row & Hrow & Hm).
    assert (Hrs : In row (rowsWith signerOf (signerOf row) filtered)).
    { unfold rowsWith. apply filter_In. split; [exact Hrow|].
      apply jseqb_refl. }
    specialize (Hget (signerOf row)).
    destruct (rowsWith signerOf (signerOf row) filtered) as [|r l] eqn:E;
      [destruct Hrs|].
    apply strGet_Some_In in Hget.
    exists (fM (signerOf row, staffEntryFor (r :: l))). split.
    + apply in_map. eapply Permutation_in;
        [apply Permutation_sym, Hperm | exact Hget].
    + cbn [fM Productivity.modalities staffEntryFor
           Productivity.entryModalities snd].
      rewrite breakdown_positive, Hown. cbn [andb].
      apply existsb_exists. now exists row.
Qed.

Lemma chart_modalities_are_present_witness :
  exists res,
    Productivity.processData DateLib.parse Productivity.clearFilters
                             prototypeNamedRows = Some res
    /\ modalitiesWithData [js "CT"; js "MR"; js "constructor"]
                          (Productivity.staffModalityData res)
       = [js "CT"].
Proof.
  assert (H : exists res,
             Productivity.processData DateLib.parse Productivity.clearFilters
                                      prototypeNamedRows = Some res
             /\ Productivity.filteredRows res = prototypeNamedRows).
  { eexists. split; vm_compute; reflexivity. }
  destruct H as (res & H & Hrows). exists res. split; [exact H|].
  rewrite (chart_modalities_are_present DateLib.parse
             Productivity.clearFilters prototypeNamedRows res _ H), Hrows.
  reflexivity.
Defined.

(** The breakdown of the signer of [prototypeNamedRows]: a count for CT, a
    text for the modality named like a method, which the modality map of
    the page counts like any other. *)
Example prototype_named_modality :
  option_map
    (fun r => (List.map Productivity.modalities
                        (Productivity.staffModalityData r),
               List.map (fun a => (Productivity.modality a,
                                   Productivity.count a))
                        (Productivity.modalityData r)))
    (Productivity.processData DateLib.parse Productivity.clearFilters
                              prototypeNamedRows)
  = Some ([[(js "CT", Productivity.Count 1);
            (js "constructor", Productivity.Appended 1)]],
          [(js "CT", 1); (js "constructor", 1)]).
Proof. vm_compute. reflexivity. Qed.

(* ================================================================== *)
(** ** The filter engine against the predicates as worded *)










(** A cleared time input delivers the empty string, which is not of the
    form HH:MM: its hour field reads as 0, so an empty end bound keeps the
    bucket of hour 0 alone. *)
Example empty_end_bound_reads_zero :
  let c := {| Workflow.selectedModalities := []; Workflow.selectedStatuses := [];
              Workflow.selectedSigners := [];
              Workflow.dateRange := mkRange (js "") (js "");
              Workflow.timeRange := mkRange (js "00:00") (js "") |} in
  boundHour (end_ (Workflow.timeRange c)) = None
  /\ List.map (Workflow.timeRangeMatch c) (bucketsOfCounts [1; 1; 1])
     = [true; false; false].
Proof. split; reflexivity. Qed.

